(** * PeerDB Search: document delivery, ETags, property bootstrap, certificates

    A shallow embedding of the Go sources

    - [utils.go]: [compress], [writeJSON], [staticFile], the error helpers,
    - the document handlers [DocumentGetGetHTML] and [DocumentGetGetJSON],
    - [properties.go]: [populateStandardProperties],
      [GetStandardPropertyReference],
    - [cmd/search/manager.go]: [CertificateManager],

    together with the library routines they call: SHA-1 and SHA-256
    (FIPS 180-4), name-based UUIDs (RFC 4122, version 5), unpadded URL-safe
    base64 (RFC 4648) and the content-encoding negotiation of
    [github.com/golang/gddo/httputil]. *)

From Stdlib Require Import ZArith QArith Qcanon List String Ascii Lia Bool.
From stdpp Require Import base option list strings gmap fin_maps numbers.
Import ListNotations.

Set Default Proof Using "Type".

(** ** Bytes and strings

    A Go [[]byte] is a list of integers in [0, 256); a Go [string] is the
    same bytes, here a [string] of 8-bit characters. *)

Definition bytes := list Z.

Definition byte_of_ascii (c : ascii) : Z := Z.of_N (N_of_ascii c).

Fixpoint string_to_bytes (s : string) : bytes :=
  match s with
  | EmptyString => []
  | String c rest => byte_of_ascii c :: string_to_bytes rest
  end.

(** Characters of a string, and back. *)
Fixpoint string_chars (s : string) : list ascii :=
  match s with
  | EmptyString => []
  | String c rest => c :: string_chars rest
  end.

Fixpoint chars_string (l : list ascii) : string :=
  match l with
  | [] => EmptyString
  | c :: rest => String c (chars_string rest)
  end.

(** [strconv.Itoa] on a non-negative length. *)
Fixpoint itoa_digits (fuel : nat) (n : N) (acc : list ascii) : list ascii :=
  match fuel with
  | O => acc
  | S fuel' =>
      let d := ascii_of_N (48 + n mod 10)%N in
      if (n <? 10)%N then d :: acc else itoa_digits fuel' (n / 10)%N (d :: acc)
  end.

Definition Itoa (n : nat) : string :=
  chars_string (itoa_digits (S n) (N.of_nat n) []).

(** ** 32-bit words *)

Module Word32.
Local Open Scope Z_scope.

Definition modulus : Z := 0x100000000.

(** Reduction modulo [2^32], as a mask. *)
Definition wrap (x : Z) : Z := Z.land x (modulus - 1).

Definition add (x y : Z) : Z := wrap (x + y).

Definition rotl (n x : Z) : Z :=
  Z.lor (wrap (Z.shiftl x n)) (Z.shiftr x (32 - n)).

Definition rotr (n x : Z) : Z :=
  Z.lor (Z.shiftr x n) (wrap (Z.shiftl x (32 - n))).

Definition not32 (x : Z) : Z := Z.lxor x (modulus - 1).

(** Big-endian packing of four bytes, and the reverse. *)
Definition of_bytes (b : bytes) : Z :=
  fold_left (fun acc x => Z.lor (Z.shiftl acc 8) x) b 0.

Definition to_bytes (w : Z) : bytes :=
  [Z.land (Z.shiftr w 24) 255; Z.land (Z.shiftr w 16) 255;
   Z.land (Z.shiftr w 8) 255; Z.land w 255].

End Word32.

(** ** Merkle-Damgard framing shared by SHA-1 and SHA-256 *)

Module Blocks.
Local Open Scope Z_scope.

(** Split into groups of [n] items; [fuel] bounds the number of groups. *)
Fixpoint chunks {A} (fuel n : nat) (l : list A) : list (list A) :=
  match fuel with
  | O => []
  | S fuel' =>
      match l with
      | [] => []
      | _ => firstn n l :: chunks fuel' n (skipn n l)
      end
  end.

Definition be64 (n : Z) : bytes :=
  Word32.to_bytes (Z.shiftr n 32) ++ Word32.to_bytes (Z.land n (Word32.modulus - 1)).

(** The message, a 1 bit, zeros up to 56 mod 64, the bit length on 64 bits. *)
Definition pad (msg : bytes) : bytes :=
  let len := Z.of_nat (length msg) in
  let zeros := Z.to_nat ((55 - len) mod 64) in
  msg ++ [128] ++ repeat 0 zeros ++ be64 (8 * len).

(** The sixteen big-endian words of each 64-byte block. *)
Definition blocks (msg : bytes) : list (list Z) :=
  let p := pad msg in
  map (fun blk => map Word32.of_bytes (chunks 16 4 blk)) (chunks (length p) 64 p).

Definition word (W : list Z) (i : nat) : Z := nth i W 0.

End Blocks.

(** ** SHA-256 ([crypto/sha256]) *)

Module SHA256.
Import Word32 Blocks.
Local Open Scope Z_scope.

Definition K : list Z :=
  [ 0x428A2F98; 0x71374491; 0xB5C0FBCF; 0xE9B5DBA5
  ; 0x3956C25B; 0x59F111F1; 0x923F82A4; 0xAB1C5ED5
  ; 0xD807AA98; 0x12835B01; 0x243185BE; 0x550C7DC3
  ; 0x72BE5D74; 0x80DEB1FE; 0x9BDC06A7; 0xC19BF174
  ; 0xE49B69C1; 0xEFBE4786; 0x0FC19DC6; 0x240CA1CC
  ; 0x2DE92C6F; 0x4A7484AA; 0x5CB0A9DC; 0x76F988DA
  ; 0x983E5152; 0xA831C66D; 0xB00327C8; 0xBF597FC7
  ; 0xC6E00BF3; 0xD5A79147; 0x06CA6351; 0x14292967
  ; 0x27B70A85; 0x2E1B2138; 0x4D2C6DFC; 0x53380D13
  ; 0x650A7354; 0x766A0ABB; 0x81C2C92E; 0x92722C85
  ; 0xA2BFE8A1; 0xA81A664B; 0xC24B8B70; 0xC76C51A3
  ; 0xD192E819; 0xD6990624; 0xF40E3585; 0x106AA070
  ; 0x19A4C116; 0x1E376C08; 0x2748774C; 0x34B0BCB5
  ; 0x391C0CB3; 0x4ED8AA4A; 0x5B9CCA4F; 0x682E6FF3
  ; 0x748F82EE; 0x78A5636F; 0x84C87814; 0x8CC70208
  ; 0x90BEFFFA; 0xA4506CEB; 0xBEF9A3F7; 0xC67178F2 ].

Definition init : list Z :=
  [ 0x6A09E667; 0xBB67AE85; 0x3C6EF372; 0xA54FF53A
  ; 0x510E527F; 0x9B05688C; 0x1F83D9AB; 0x5BE0CD19 ].

Definition ch (x y z : Z) : Z := Z.lxor (Z.land x y) (Z.land (not32 x) z).
Definition maj (x y z : Z) : Z :=
  Z.lxor (Z.lxor (Z.land x y) (Z.land x z)) (Z.land y z).
Definition bsig0 (x : Z) : Z := Z.lxor (Z.lxor (rotr 2 x) (rotr 13 x)) (rotr 22 x).
Definition bsig1 (x : Z) : Z := Z.lxor (Z.lxor (rotr 6 x) (rotr 11 x)) (rotr 25 x).
Definition ssig0 (x : Z) : Z := Z.lxor (Z.lxor (rotr 7 x) (rotr 18 x)) (Z.shiftr x 3).
Definition ssig1 (x : Z) : Z := Z.lxor (Z.lxor (rotr 17 x) (rotr 19 x)) (Z.shiftr x 10).

(** Message schedule: [W] grows from 16 to 64 words. *)
Fixpoint schedule (n : nat) (W : list Z) : list Z :=
  match n with
  | O => W
  | S n' =>
      let t := length W in
      let w := add (add (ssig1 (word W (t - 2))) (word W (t - 7)))
                   (add (ssig0 (word W (t - 15))) (word W (t - 16))) in
      schedule n' (W ++ [w])
  end.

Definition round (st : list Z) (kw : Z * Z) : list Z :=
  match st with
  | [a; b; c; d; e; f; g; h] =>
      let t1 := add (add (add h (bsig1 e)) (add (ch e f g) (fst kw))) (snd kw) in
      let t2 := add (bsig0 a) (maj a b c) in
      [add t1 t2; a; b; c; add d t1; e; f; g]
  | _ => st
  end.

Definition compress (H : list Z) (blk : list Z) : list Z :=
  let W := schedule 48 blk in
  let st := fold_left round (combine K W) H in
  map (fun p => add (fst p) (snd p)) (combine H st).

(** [sha256.Sum256]: the 32-byte digest. *)
Definition Sum256 (msg : bytes) : bytes :=
  flat_map to_bytes (fold_left compress (blocks msg) init).

End SHA256.

(** ** SHA-1 ([crypto/sha1], used by [uuid.NewSHA1]) *)

Module SHA1.
Import Word32 Blocks.
Local Open Scope Z_scope.

Definition init : list Z :=
  [ 0x67452301; 0xEFCDAB89; 0x98BADCFE; 0x10325476; 0xC3D2E1F0 ].

Fixpoint schedule (n : nat) (W : list Z) : list Z :=
  match n with
  | O => W
  | S n' =>
      let t := length W in
      let w := rotl 1 (Z.lxor (Z.lxor (word W (t - 3)) (word W (t - 8)))
                              (Z.lxor (word W (t - 14)) (word W (t - 16)))) in
      schedule n' (W ++ [w])
  end.

Definition f (t : nat) (b c d : Z) : Z :=
  if (t <? 20)%nat then Z.lor (Z.land b c) (Z.land (not32 b) d)
  else if (t <? 40)%nat then Z.lxor (Z.lxor b c) d
  else if (t <? 60)%nat then Z.lor (Z.lor (Z.land b c) (Z.land b d)) (Z.land c d)
  else Z.lxor (Z.lxor b c) d.

Definition k (t : nat) : Z :=
  if (t <? 20)%nat then 0x5A827999
  else if (t <? 40)%nat then 0x6ED9EBA1
  else if (t <? 60)%nat then 0x8F1BBCDC
  else 0xCA62C1D6.

Definition round (st : list Z) (tw : nat * Z) : list Z :=
  match st with
  | [a; b; c; d; e] =>
      let t := fst tw in
      let tmp := add (add (add (rotl 5 a) (f t b c d)) (add e (k t))) (snd tw) in
      [tmp; a; rotl 30 b; c; d]
  | _ => st
  end.

Definition compress (H : list Z) (blk : list Z) : list Z :=
  let W := schedule 64 blk in
  let st := fold_left round (combine (seq 0 80) W) H in
  map (fun p => add (fst p) (snd p)) (combine H st).

(** The 20-byte digest. *)
Definition Sum (msg : bytes) : bytes :=
  flat_map to_bytes (fold_left compress (blocks msg) init).

End SHA1.

(** ** Hexadecimal rendering, for reading digests *)

Definition hex_digit (n : Z) : ascii :=
  ascii_of_N (Z.to_N (if (n <? 10)%Z then 48 + n else 87 + n)%Z).

Definition hex (b : bytes) : string :=
  chars_string (flat_map (fun x => [hex_digit (x / 16)%Z; hex_digit (x mod 16)%Z]) b).

(** ** Unpadded URL-safe base64 ([base64.RawURLEncoding]) *)

Module Base64.
Local Open Scope Z_scope.

Definition alphabet : list ascii :=
  string_chars "ABCDEFGHIJKLMNOPQRSTUVWXYZabcdefghijklmnopqrstuvwxyz0123456789-_".

Definition digit (n : Z) : ascii := nth (Z.to_nat n) alphabet "A"%char.

(** Three bytes give four digits; a last group of one or two bytes gives two
    or three digits and no padding. *)
Fixpoint encode (b : bytes) : list ascii :=
  match b with
  | [] => []
  | [x] => [digit (x / 4); digit (x mod 4 * 16)]
  | [x; y] => [digit (x / 4); digit (x mod 4 * 16 + y / 16); digit (y mod 16 * 4)]
  | x :: y :: z :: rest =>
      digit (x / 4) :: digit (x mod 4 * 16 + y / 16)
        :: digit (y mod 16 * 4 + z / 64) :: digit (z mod 64) :: encode rest
  end.

Definition EncodeToString (b : bytes) : string := chars_string (encode b).

End Base64.

(** ** Name-based UUIDs ([github.com/google/uuid]) *)

Module uuid.
Local Open Scope Z_scope.

(** A UUID is its sixteen bytes. *)
Definition UUID := bytes.

Definition set_nth (i : nat) (g : Z -> Z) (u : UUID) : UUID :=
  match u !! i with
  | Some x => <[i := g x]> u
  | None => u
  end.

(** [NewSHA1]: the first sixteen bytes of SHA-1 over the namespace followed
    by the data, with the version (5) and the RFC 4122 variant stamped in. *)
Definition NewSHA1 (space : UUID) (data : bytes) : UUID :=
  let s := firstn 16 (SHA1.Sum (space ++ data)) in
  set_nth 8 (fun x => Z.lor (Z.land x 0x3F) 0x80)
    (set_nth 6 (fun x => Z.lor (Z.land x 0x0F) 0x50) s).

End uuid.

(** ** Package [identifier] *)

Module identifier.
Local Open Scope Z_scope.

Definition alphabet : list ascii :=
  string_chars "123456789ABCDEFGHJKLMNPQRSTUVWXYZabcdefghijkmnopqrstuvwxyz".

Definition idLength : nat := 22.

Definition to_integer (b : bytes) : Z :=
  fold_left (fun acc x => acc * 256 + x) b 0.

Fixpoint digits (fuel : nat) (n : Z) (acc : list ascii) : list ascii :=
  match fuel with
  | O => acc
  | S fuel' =>
      if n <=? 0 then acc
      else digits fuel' (n / 58) (nth (Z.to_nat (n mod 58)) alphabet "1"%char :: acc)
  end.

Fixpoint leading_zeros (b : bytes) : nat :=
  match b with
  | 0 :: rest => S (leading_zeros rest)
  | _ => O
  end.

Definition base58 (b : bytes) : list ascii :=
  repeat "1"%char (leading_zeros b) ++ digits (2 * length b) (to_integer b) [].

(** Modelled from the spec: [identifier.FromUUID] is not among the sources.
    The spec describes identifiers as a fixed-length, URL-safe encoding of a
    128-bit value; this is such an encoding: the base-58 digits of the
    sixteen bytes, left-filled with the zero digit to 22 characters. *)
Definition FromUUID (data : uuid.UUID) : string :=
  let res := base58 data in
  chars_string (repeat "1"%char (idLength - length res) ++ res).

(** Modelled from the spec: [identifier.Valid] is not among the sources.
    The spec describes it as a syntactic check of the fixed-length, URL-safe
    shape: here, 22 characters of the identifier alphabet. *)
Definition Valid (id : string) : bool :=
  (length (string_chars id) =? idLength)%nat
  && forallb (fun c => existsb (Ascii.eqb c) alphabet) (string_chars id).

End identifier.

(** ** MIME header keys and [http.Header] *)

Module textproto.

Definition is_lower (c : ascii) : bool :=
  let n := nat_of_ascii c in (97 <=? n)%nat && (n <=? 122)%nat.

Definition is_upper (c : ascii) : bool :=
  let n := nat_of_ascii c in (65 <=? n)%nat && (n <=? 90)%nat.

Definition is_digit (c : ascii) : bool :=
  let n := nat_of_ascii c in (48 <=? n)%nat && (n <=? 57)%nat.

(** Token characters of RFC 7230. *)
Definition validHeaderFieldByte (c : ascii) : bool :=
  is_lower c || is_upper c || is_digit c
  || existsb (Ascii.eqb c) (string_chars "!#$%&'*+-.^_`|~").

Definition to_upper (c : ascii) : ascii :=
  if is_lower c then ascii_of_nat (nat_of_ascii c - 32) else c.

Definition to_lower (c : ascii) : ascii :=
  if is_upper c then ascii_of_nat (nat_of_ascii c + 32) else c.

(** Upper case at the start and after each dash, lower case elsewhere. *)
Fixpoint canonical (upper : bool) (l : list ascii) : list ascii :=
  match l with
  | [] => []
  | c :: rest =>
      let c' := if upper then to_upper c else to_lower c in
      c' :: canonical (Ascii.eqb c' "-"%char) rest
  end.

(** [CanonicalMIMEHeaderKey]: a key with a byte that is no token character
    is returned unchanged. *)
Definition CanonicalMIMEHeaderKey (s : string) : string :=
  if forallb validHeaderFieldByte (string_chars s)
  then chars_string (canonical true (string_chars s))
  else s.

End textproto.

Module http.

(** [http.Header] is [map[string][]string]. *)
Abbreviation Header := (gmap string (list string)).

Definition Set_ (h : Header) (key value : string) : Header :=
  <[textproto.CanonicalMIMEHeaderKey key := [value]]> h.

Definition Add (h : Header) (key value : string) : Header :=
  let k := textproto.CanonicalMIMEHeaderKey key in
  <[k := default [] (h !! k) ++ [value]]> h.

Definition Get (h : Header) (key : string) : string :=
  match h !! textproto.CanonicalMIMEHeaderKey key with
  | Some (v :: _) => v
  | _ => ""
  end.

Definition StatusSeeOther : Z := 303.
Definition StatusBadRequest : Z := 400.
Definition StatusNotFound : Z := 404.
Definition StatusNotAcceptable : Z := 406.
Definition StatusInternalServerError : Z := 500.

End http.

(** ** The claim and document model

    Modelled from the spec: the type declarations ([Document],
    [CoreDocument], [DocumentReference], [CoreClaim], [TextClaim],
    [RelationClaim], the claim-type buckets) are not among the sources. The
    records below have the fields the literals of [properties.go] fill, with
    the types the spec's data model gives them: identifiers and mnemonics are
    strings, names and translatable strings map a language code to text,
    scores and confidences are numbers. *)

(** The double quote character, and a quoted string. *)
Definition dquote : string := String "034"%char EmptyString.

Definition quoted (s : string) : string := dquote +:+ s +:+ dquote.

Abbreviation Identifier := string (only parsing).
Abbreviation Mnemonic := string (only parsing).

(** [Name], [TranslatablePlainString], [TranslatableHTMLString]: language
    code to text. *)
Abbreviation Name := (gmap string string) (only parsing).
Abbreviation TranslatablePlainString := (gmap string string) (only parsing).
Abbreviation TranslatableHTMLString := (gmap string string) (only parsing).

Module DocumentReference.
Record t := mk {
  ID : Identifier;
  Name : gmap string string;
  Score : Qc;
  Scores : gmap string Qc
}.
End DocumentReference.

Module CoreClaim.
Record t := mk {
  ID : Identifier;
  Confidence : Qc
}.
End CoreClaim.

Module TextClaim.
Record t := mk {
  Core : CoreClaim.t;
  Prop_ : DocumentReference.t;
  Plain : TranslatablePlainString;
  HTML : TranslatableHTMLString
}.
End TextClaim.

Module RelationClaim.
Record t := mk {
  Core : CoreClaim.t;
  Prop_ : DocumentReference.t;
  To : DocumentReference.t
}.
End RelationClaim.

(** Of the claim-type buckets only [Text] and [Relation] are ever filled by
    the bootstrap; the others keep their zero value and are left out. *)
Module SimpleClaimTypes.
Record t := mk {
  Text : list TextClaim.t;
  Relation : list RelationClaim.t
}.
End SimpleClaimTypes.

Module DocumentClaimTypes.
Record t := mk {
  Simple : SimpleClaimTypes.t
}.
End DocumentClaimTypes.

Module CoreDocument.
Record t := mk {
  ID : Identifier;
  Name : gmap string string;
  Score : Qc;
  Scores : gmap string Qc
}.
End CoreDocument.

(** [Active] is a pointer in the source: [None] is [nil]. *)
Module Document.
Record t := mk {
  Core : CoreDocument.t;
  Mnemonic_ : Mnemonic;
  Active : option DocumentClaimTypes.t
}.
End Document.

(** ** Built-in properties ([properties.go]) *)

Definition claimTypes : list string :=
  [ "identifier"; "reference";
    "text"; "string"; "label"; "amount"; "amount range"; "enumeration"; "relation";
    "time"; "time range"; "duration"; "duration range";
    "file"; "list" ].

Module BuiltinProperty.
Record t := mk {
  Name : string;
  DescriptionPlain : string;
  DescriptionHTML : string;
  Is : list string
}.
End BuiltinProperty.

Definition wikidata_link : string :=
  "<a href=" +:+ quoted "https://www.wikidata.org/wiki/Wikidata:Main_Page"
  +:+ ">Wikidata</a>".

Definition identifier_link : string :=
  "<a href=" +:+ quoted "https://www.wikidata.org/wiki/Wikidata:Identifiers"
  +:+ ">identifier</a>".

Definition builtinProperties : list BuiltinProperty.t :=
  [ BuiltinProperty.mk "is"
      "unspecified type relation between two entities"
      "unspecified type relation between two entities" [];
    BuiltinProperty.mk "property"
      "the entity is a property" "the entity is a property" [];
    BuiltinProperty.mk "item"
      "the entity is an item" "the entity is an item" [];
    BuiltinProperty.mk "claim type"
      "the property maps to a supported claim type"
      "the property maps to a supported claim type" [];
    BuiltinProperty.mk "description" "description" "description"
      [quoted "text" +:+ " claim type"];
    BuiltinProperty.mk "Wikidata property id" "Wikidata property identifier"
      (wikidata_link +:+ " property " +:+ identifier_link)
      [quoted "identifier" +:+ " claim type"];
    BuiltinProperty.mk "Wikidata item id" "Wikidata item identifier"
      (wikidata_link +:+ " item " +:+ identifier_link)
      [quoted "identifier" +:+ " claim type"];
    BuiltinProperty.mk "Wikidata property page" "Wikidata property page"
      (wikidata_link +:+ " property page IRI")
      [quoted "reference" +:+ " claim type"];
    BuiltinProperty.mk "Wikidata item page" "Wikidata item page"
      (wikidata_link +:+ " item page IRI")
      [quoted "reference" +:+ " claim type"];
    BuiltinProperty.mk "English Wikipedia article"
      "reference to English Wikipedia article"
      ("reference to <a href=" +:+ quoted "https://en.wikipedia.org/wiki/Main_Page"
       +:+ ">English Wikipedia</a> article")
      [quoted "reference" +:+ " claim type"] ].

(** [uuid.MustParse("34cd10b4-5731-46b8-a6dd-45444680ca62")]. *)
Definition NameSpaceStandardProperties : uuid.UUID :=
  [ 0x34; 0xcd; 0x10; 0xb4; 0x57; 0x31; 0x46; 0xb8;
    0xa6; 0xdd; 0x45; 0x44; 0x46; 0x80; 0xca; 0x62 ]%Z.

(** [strings.ReplaceAll] for a one-character pattern. *)
Fixpoint replace_char (c : ascii) (by_ : list ascii) (l : list ascii) : list ascii :=
  match l with
  | [] => []
  | x :: rest =>
      (if Ascii.eqb x c then by_ else [x]) ++ replace_char c by_ rest
  end.

(** A string of ASCII only: every byte is below 0x80. *)
Definition isASCII (s : string) : Prop :=
  Forall (fun c => (nat_of_ascii c < 128)%nat) (string_chars s).

(** Upper case, spaces to underscores, double quotes removed.
    [strings.ToUpper] is embedded on its ASCII path, where Go maps the
    bytes [a] to [z] one by one and keeps every other byte: that is what the
    code does on every [isASCII] string, as all names of the bootstrap are.
    On a string with a byte of 0x80 or above Go maps runes by the Unicode
    tables and rewrites invalid bytes, which this definition does not
    follow; a statement about arbitrary input assumes [isASCII]. *)
Definition getMnemonic (data : string) : string :=
  chars_string
    (replace_char "034"%char []
       (replace_char " "%char ["_"%char]
          (map textproto.to_upper (string_chars data)))).

Definition getPropertyID (mnemonic : string) : string :=
  identifier.FromUUID
    (uuid.NewSHA1 NameSpaceStandardProperties (string_to_bytes mnemonic)).

Definition getPropertyClaimID (propertyMnemonic claimMnemonic : string) (i : nat) : string :=
  identifier.FromUUID
    (uuid.NewSHA1
       (uuid.NewSHA1
          (uuid.NewSHA1 NameSpaceStandardProperties (string_to_bytes propertyMnemonic))
          (string_to_bytes claimMnemonic))
       (string_to_bytes (Itoa i))).

(** [html.EscapeString]. *)
Definition EscapeString (s : string) : string :=
  chars_string
    (flat_map (fun c =>
       if Ascii.eqb c "&"%char then string_chars "&amp;"
       else if Ascii.eqb c "'"%char then string_chars "&#39;"
       else if Ascii.eqb c "<"%char then string_chars "&lt;"
       else if Ascii.eqb c ">"%char then string_chars "&gt;"
       else if Ascii.eqb c "034"%char then string_chars "&#34;"
       else [c]) (string_chars s)).

Definition en (s : string) : gmap string string := {[ "en" := s ]}.

(** A reference to a standard property as the bootstrap spells it out:
    identifier from the mnemonic, English name, score zero. *)
Definition standardReference (mnemonic name : string) : DocumentReference.t :=
  DocumentReference.mk (getPropertyID mnemonic) (en name) 0%Qc ∅.

Definition isRelation (mnemonic targetMnemonic targetName : string) : RelationClaim.t :=
  RelationClaim.mk
    (CoreClaim.mk (getPropertyClaimID mnemonic targetMnemonic 0) 1%Qc)
    (standardReference "IS" "is")
    (standardReference targetMnemonic targetName).

Definition descriptionClaim (mnemonic plain html : string) : TextClaim.t :=
  TextClaim.mk
    (CoreClaim.mk (getPropertyClaimID mnemonic "DESCRIPTION" 0) 1%Qc)
    (standardReference "DESCRIPTION" "description")
    (en plain) (en html).

(** The [Document] literal of both loops, up to its description and its
    relation claims. *)
Definition propertyDocument (id name mnemonic plain html : string)
    (relations : list RelationClaim.t) : Document.t :=
  Document.mk
    (CoreDocument.mk id (en name) 0%Qc ∅)
    mnemonic
    (Some (DocumentClaimTypes.mk
             (SimpleClaimTypes.mk [descriptionClaim mnemonic plain html] relations))).

(** [simple.Relation = append(simple.Relation, claim)] through the [Active]
    pointer of the stored document. *)
Definition appendRelation (claim : RelationClaim.t) (d : Document.t) : Document.t :=
  match Document.Active d with
  | None => d
  | Some a =>
      let s := DocumentClaimTypes.Simple a in
      Document.mk (Document.Core d) (Document.Mnemonic_ d)
        (Some (DocumentClaimTypes.mk
                 (SimpleClaimTypes.mk (SimpleClaimTypes.Text s)
                    (SimpleClaimTypes.Relation s ++ [claim]))))
  end.

Definition claimTypeName (claimType : string) : string :=
  quoted claimType +:+ " claim type".

Definition claimTypeDescription (claimType : string) : string :=
  "the property is useful with the " +:+ quoted claimType +:+ " claim type".

(** The body of the inner loop over [claimTypes]. *)
Definition storeClaimType (kp : gmap string Document.t) (claimType : string)
    : gmap string Document.t :=
  let name := claimTypeName claimType in
  let mnemonic := getMnemonic name in
  let id := getPropertyID mnemonic in
  let description := claimTypeDescription claimType in
  <[id := propertyDocument id name mnemonic description (EscapeString description)
            [ isRelation mnemonic "PROPERTY" "property";
              isRelation mnemonic "CLAIM_TYPE" "claim type" ]]> kp.

(** The loop over [builtinProperty.Is]. *)
Definition storeIsClaim (mnemonic id : string) (kp : gmap string Document.t)
    (isClaim : string) : gmap string Document.t :=
  let isClaimMnemonic := getMnemonic isClaim in
  alter (appendRelation (isRelation mnemonic isClaimMnemonic isClaim)) id kp.

(** One iteration of the outer loop: the property document, its extra
    is-relations, and then every claim-type document. *)
Definition storeBuiltinProperty (kp : gmap string Document.t)
    (builtinProperty : BuiltinProperty.t) : gmap string Document.t :=
  let mnemonic := getMnemonic (BuiltinProperty.Name builtinProperty) in
  let id := getPropertyID mnemonic in
  let kp1 :=
    <[id := propertyDocument id (BuiltinProperty.Name builtinProperty) mnemonic
              (BuiltinProperty.DescriptionPlain builtinProperty)
              (BuiltinProperty.DescriptionHTML builtinProperty)
              [ isRelation mnemonic "PROPERTY" "property" ]]> kp in
  let kp2 := fold_left (storeIsClaim mnemonic id) (BuiltinProperty.Is builtinProperty) kp1 in
  fold_left storeClaimType claimTypes kp2.

(** [populateStandardProperties], on the table [KnownProperties]. *)
Definition populateStandardProperties (KnownProperties : gmap string Document.t)
    : gmap string Document.t :=
  fold_left storeBuiltinProperty builtinProperties KnownProperties.

(** [init]: the table starts as the empty map literal. *)
Definition KnownProperties : gmap string Document.t :=
  populateStandardProperties ∅.

(** A call either returns or panics with a message. *)
Inductive outcome (A : Type) : Type :=
| Returned (a : A)
| Panicked (msg : string).
Arguments Returned {A} a.
Arguments Panicked {A} msg.

Definition GetStandardPropertyReference (kp : gmap string Document.t)
    (mnemonic : string) : outcome DocumentReference.t :=
  match kp !! getPropertyID mnemonic with
  | None =>
      Panicked ("standard property for mnemonic " +:+ quoted mnemonic
                +:+ " cannot be found")
  | Some property =>
      Returned
        (DocumentReference.mk
           (CoreDocument.ID (Document.Core property))
           (CoreDocument.Name (Document.Core property))
           (CoreDocument.Score (Document.Core property))
           (CoreDocument.Scores (Document.Core property)))
  end.

(** ** Content-encoding negotiation ([github.com/golang/gddo/httputil]) *)

Module header.
(** One element of a parsed [Accept-Encoding] header: a coding or [*], and
    its weight (1 when the element has no [q] parameter). *)
Record AcceptSpec := mk {
  Value : string;
  Q : Qc
}.
End header.

Module gddo.

Definition better (offer : string) (best : string * Qc) (spec : header.AcceptSpec)
    : string * Qc :=
  if bool_decide (snd best < header.Q spec)%Qc
     && (String.eqb (header.Value spec) "*" || String.eqb (header.Value spec) offer)
  then (offer, header.Q spec)
  else best.

(** [NegotiateContentEncoding]: the offer with the greatest weight, the
    earlier offer on a tie; [identity] when nothing matches; the empty string
    when the best weight is zero. *)
Definition NegotiateContentEncoding (specs : list header.AcceptSpec)
    (offers : list string) : string :=
  let best :=
    fold_left (fun best offer => fold_left (better offer) specs best)
              offers ("identity", (- 1)%Qc) in
  if bool_decide (snd best = 0%Qc) then "" else fst best.

End gddo.

(** ** Errors *)

(** The errors the handlers tell apart: the two context errors, the
    backend's not-found answer, anything else. [errors.WithStack] keeps the
    kind, so it is not modelled. *)
Inductive error : Type :=
| Canceled
| DeadlineExceeded
| NotFoundError
| OtherError (msg : string).

Module elastic.

Record PerformRequestOptions := mk {
  Method : string;
  Path : string;
  Headers : http.Header
}.

Record Response := mkResponse {
  ResponseHeader : http.Header;
  Body : bytes
}.

Definition IsNotFound (err : error) : bool :=
  match err with
  | NotFoundError => true
  | _ => false
  end.

End elastic.

(** ** Requests, response writers and the service ([utils.go]) *)

Definition compressionBrotli : string := "br".
Definition compressionGzip : string := "gzip".
Definition compressionDeflate : string := "deflate".
Definition compressionIdentity : string := "identity".

Definition minCompressionSize : nat := 1024.

Definition peerDBMetadataHeaderPrefix : string := "peerdb-".

Definition allCompressions : list string :=
  [compressionBrotli; compressionGzip; compressionDeflate; compressionIdentity].

(** The parts of [*http.Request] and of the router parameters the handlers
    read: the [id] path parameter, the parsed [Accept-Encoding] header, the
    parsed form, the request path and the request ID of its context. *)
Record Request := mkRequest {
  id_param : string;
  AcceptEncoding : list header.AcceptSpec;
  Form : gmap string (list string);
  URLPath : string;
  requestID : string
}.

(** What a handler has sent on its [http.ResponseWriter]. For
    [ServedContent] the header map is the one the handler hands over to
    [http.ServeContent] with the content; the conditional and range handling
    behind that call keeps the [Etag] it is given. *)
Inductive Written : Type :=
| NotWritten
| WroteError (code : Z) (text : string)
| WroteHeader (code : Z)
| ServedContent (content : bytes)
| Proxied.

Record ResponseWriter := mkWriter {
  Header : http.Header;
  written : Written
}.

(** A handler run: the response, and the requests made to the index engine,
    in order. *)
Record Exchange := mkExchange {
  response : ResponseWriter;
  backendCalls : list elastic.PerformRequestOptions
}.

(** The status line, where the handler chose it itself. [http.ServeContent]
    chooses among 200, 206, 304, 412 and 416 from the request's conditional
    and range headers; the reverse proxy relays the upstream status. *)
Definition statusCode (w : Written) : option Z :=
  match w with
  | WroteError code _ => Some code
  | WroteHeader code => Some code
  | _ => None
  end.

(** A codec run on a buffer: the error of [Write], the error of [Close], and
    the bytes in the buffer. *)
Record CodecRun := mkRun {
  writeErr : option error;
  closeErr : option error;
  output : bytes
}.

(** The search state [getSearch] resolves to; only its ID is read. *)
Record SearchState := mkSearch {
  SearchID : string
}.

(** The [Service] receiver ([ESClient], [Development]) and, as parameters,
    the collaborators that are not among the sources: the router's [path],
    [getSearch], the tables [compressedFiles] and [compressedFilesEtags],
    the MIME type of a path ([mime.TypeByExtension] of [filepath.Ext]), the
    JSON marshaller [x.MarshalWithoutEscapeHTML] on the payloads it accepts,
    and the brotli, gzip and flate writers. *)
Record Service := mkService {
  Payload : Type;
  ESClient : elastic.PerformRequestOptions -> elastic.Response + error;
  Development : string;
  path : string -> string -> string -> string + error;
  getSearch : gmap string (list string) -> option SearchState;
  compressedFiles : gmap string (gmap string bytes);
  compressedFilesEtags : gmap string (gmap string string);
  contentTypeOf : string -> string;
  MarshalWithoutEscapeHTML : Payload -> bytes + error;
  brotliWriter : bytes -> CodecRun;
  gzipWriter : bytes -> CodecRun;
  flateNewWriter : option error;
  flateWriter : bytes -> CodecRun
}.

Module httpx.

(** [http.Error]. *)
Definition Error (h : http.Header) (text : string) (code : Z) : ResponseWriter :=
  mkWriter
    (http.Set_ (http.Set_ h "Content-Type" "text/plain; charset=utf-8")
               "X-Content-Type-Options" "nosniff")
    (WroteError code text).

(** [http.NotFound]. *)
Definition NotFound (h : http.Header) : ResponseWriter :=
  Error h "404 page not found" http.StatusNotFound.

(** [http.ServeContent] with an empty name and the zero time, on a request
    without conditional or range headers and a header map that holds a
    Content-Type: the header map it sends with the 200. It announces byte
    ranges and, unless a Content-Encoding is set, overwrites Content-Length
    with the size of the content. *)
Definition ServeContent (h : http.Header) (content : bytes) : http.Header :=
  let h := http.Set_ h "Accept-Ranges" "bytes" in
  if String.eqb (http.Get h "Content-Encoding") ""
  then http.Set_ h "Content-Length" (Itoa (length content))
  else h.

(** The header map that goes out: the writer's own, passed through
    [ServeContent] where the handler ended in that call. *)
Definition sent (w : ResponseWriter) : http.Header :=
  match written w with
  | ServedContent content => ServeContent (Header w) content
  | _ => Header w
  end.

End httpx.

(** [internalServerError]: a cancelled or timed-out request gets no
    response; any other error a 500. *)
Definition internalServerError (h : http.Header) (err : error) : ResponseWriter :=
  match err with
  | Canceled | DeadlineExceeded => mkWriter h NotWritten
  | _ => httpx.Error h "500 internal server error" http.StatusInternalServerError
  end.

Definition finish (err : option error) (closeErr : option error) : option error :=
  match err with
  | None => closeErr
  | Some _ => err
  end.

Definition codecResult (r : CodecRun) : bytes + error :=
  match finish (writeErr r) (closeErr r) with
  | Some err => inr err
  | None => inl (output r)
  end.

(** [compress]. *)
Definition compress (s : Service) (compression : string) (data : bytes) : bytes + error :=
  if String.eqb compression compressionBrotli then codecResult (brotliWriter s data)
  else if String.eqb compression compressionGzip then codecResult (gzipWriter s data)
  else if String.eqb compression compressionDeflate then
    match flateNewWriter s with
    | Some err => inr err
    | None => codecResult (flateWriter s data)
    end
  else if String.eqb compression compressionIdentity then inl data
  else inr (OtherError ("unknown compression: " +:+ compression)).

(** A running [hash.Hash]: the bytes written so far. *)
Module sha256.
Record digest := mk { absorbed : bytes }.
Definition New : digest := mk [].
Definition Write (d : digest) (p : bytes) : digest := mk (absorbed d ++ p).
Definition Sum (d : digest) : bytes := SHA256.Sum256 (absorbed d).
End sha256.

Definition etagOf (sum : bytes) : string := quoted (Base64.EncodeToString sum).

(** One iteration of [for key, value := range metadata]: the response header
    and the digest after it. *)
Definition writeMetadata (st : http.Header * sha256.digest)
    (entry : string * list string) : http.Header * sha256.digest :=
  let key := fst entry in
  let value := snd entry in
  (<[textproto.CanonicalMIMEHeaderKey (peerDBMetadataHeaderPrefix +:+ key) := value]> (fst st),
   fold_left (fun d v => sha256.Write d (string_to_bytes v)) value
             (sha256.Write (snd st) (string_to_bytes key))).

(** The bytes the metadata loop feeds the digest: for each entry the key
    and then each of its values, with nothing in between. *)
Definition metadataBytes (metadata : list (string * list string)) : bytes :=
  flat_map (fun entry => string_to_bytes (fst entry)
                         ++ flat_map string_to_bytes (snd entry)) metadata.

(** [for key, value := range metadata] on the Go map [metadata]: every entry
    is visited once, in an order the runtime chooses anew for each loop;
    [visited] is one such order. *)
Definition ranges (metadata : http.Header) (visited : list (string * list string)) : Prop :=
  visited ≡ₚ map_to_list metadata.

(** [writeJSON], for one run of its [range] loop: [metadata] lists the
    entries of the [http.Header] map in the order in which this run visits
    them. A call with a map is [writeJSONCall] below. *)
Definition writeJSON (s : Service) (h : http.Header) (contentEncoding : string)
    (data : Payload s) (metadata : list (string * list string)) : ResponseWriter :=
  match MarshalWithoutEscapeHTML s data with
  | inr err => internalServerError h err
  | inl encoded =>
      let contentEncoding :=
        if (length encoded <=? minCompressionSize)%nat then compressionIdentity
        else contentEncoding in
      match compress s contentEncoding encoded with
      | inr errE => internalServerError h errE
      | inl encoded =>
          let hash := sha256.Write sha256.New encoded in
          let st := fold_left writeMetadata metadata (h, hash) in
          let etag := etagOf (sha256.Sum (snd st)) in
          let h := http.Set_ (fst st) "Content-Type" "application/json" in
          let h :=
            if negb (String.eqb contentEncoding compressionIdentity)
            then http.Set_ h "Content-Encoding" contentEncoding
            else http.Set_ h "Content-Length" (Itoa (length encoded)) in
          let h := http.Set_ h "Cache-Control" "no-cache" in
          let h := http.Add h "Vary" "Accept-Encoding" in
          let h := http.Set_ h "Etag" etag in
          let h := http.Set_ h "X-Content-Type-Options" "nosniff" in
          mkWriter h (ServedContent encoded)
      end
  end.

(** A call of [writeJSON] with the map [metadata] leaves [w] on the writer:
    [w] is the result for one of the orders in which the loop may visit the
    map. *)
Definition writeJSONCall (s : Service) (h : http.Header) (contentEncoding : string)
    (data : Payload s) (metadata : http.Header) (w : ResponseWriter) : Prop :=
  exists visited,
    ranges metadata visited /\ w = writeJSON s h contentEncoding data visited.

Definition lookup2 {A} (t : gmap string (gmap string A)) (encoding path : string)
    : option A :=
  t !! encoding ≫= fun files => files !! path.

Definition noData (contentEncoding path : string) : error :=
  OtherError ("no data for compression " +:+ contentEncoding +:+ " and file " +:+ quoted path).

Definition noEtag (contentEncoding path : string) : error :=
  OtherError ("no etag for compression " +:+ contentEncoding +:+ " and file " +:+ quoted path).

(** [staticFile]. *)
Definition staticFile (s : Service) (h : http.Header) (req : Request)
    (path : string) (immutable : bool) : ResponseWriter :=
  let contentEncoding := gddo.NegotiateContentEncoding (AcceptEncoding req) allCompressions in
  if String.eqb contentEncoding "" then
    httpx.Error h "406 not acceptable" http.StatusNotAcceptable
  else
    match lookup2 (compressedFiles s) contentEncoding path with
    | None => internalServerError h (noData contentEncoding path)
    | Some data =>
        let small := (length data <=? minCompressionSize)%nat in
        let contentEncoding := if small then compressionIdentity else contentEncoding in
        match (if small then lookup2 (compressedFiles s) contentEncoding path else Some data) with
        | None => internalServerError h (noData contentEncoding path)
        | Some data =>
            match lookup2 (compressedFilesEtags s) contentEncoding path with
            | None => internalServerError h (noEtag contentEncoding path)
            | Some etag =>
                let contentType := contentTypeOf s path in
                if String.eqb contentType "" then
                  internalServerError h
                    (OtherError ("unable to determine content type for file " +:+ quoted path))
                else
                  let h := http.Set_ h "Content-Type" contentType in
                  let h :=
                    if negb (String.eqb contentEncoding compressionIdentity)
                    then http.Set_ h "Content-Encoding" contentEncoding
                    else http.Set_ h "Content-Length" (Itoa (length data)) in
                  let h :=
                    if immutable
                    then http.Set_ h "Cache-Control"
                           "public,max-age=31536000,immutable,stale-while-revalidate=86400"
                    else http.Set_ h "Cache-Control" "no-cache" in
                  let h := http.Add h "Vary" "Accept-Encoding" in
                  let h := http.Set_ h "Etag" etag in
                  let h := http.Set_ h "X-Content-Type-Options" "nosniff" in
                  mkWriter h (ServedContent data)
            end
        end
    end.

(** [StaticFile]. *)
Definition StaticFile (s : Service) (h : http.Header) (req : Request) : ResponseWriter :=
  staticFile s h req (URLPath req) true.

(** ** Document handlers ([DocumentGetGetHTML], [DocumentGetGetJSON]) *)

(** [url.QueryEscape]: unreserved characters stay, a space becomes [+],
    any other byte its percent escape. *)
Definition upper_hex_digit (n : Z) : ascii :=
  ascii_of_N (Z.to_N (if (n <? 10)%Z then 48 + n else 55 + n)%Z).

Definition QueryEscape (s : string) : string :=
  chars_string
    (flat_map (fun c =>
       if textproto.is_lower c || textproto.is_upper c || textproto.is_digit c
          || existsb (Ascii.eqb c) (string_chars "-_.~")
       then [c]
       else if Ascii.eqb c " "%char then ["+"%char]
       else ["%"%char; upper_hex_digit (byte_of_ascii c / 16)%Z;
             upper_hex_digit (byte_of_ascii c mod 16)%Z]) (string_chars s)).

(** [url.Values.Has]. *)
Definition Has (form : gmap string (list string)) (key : string) : bool :=
  bool_decide (is_Some (form !! key)).

(** [s.ESClient.PerformRequest]: the answer, and the call appended to the
    record of backend calls. *)
Definition PerformRequest (s : Service) (calls : list elastic.PerformRequestOptions)
    (opts : elastic.PerformRequestOptions)
    : (elastic.Response + error) * list elastic.PerformRequestOptions :=
  (ESClient s opts, calls ++ [opts]).

(** The redirects of [DocumentGetGetHTML]: 303 to the document path with
    the given query string. *)
Definition redirectToDocument (s : Service) (h : http.Header) (id query : string)
    : ResponseWriter :=
  match path s "DocumentGet" id query with
  | inr err => internalServerError h err
  | inl p => mkWriter (http.Set_ h "Location" p) (WroteHeader http.StatusSeeOther)
  end.

(** The rest of [DocumentGetGetHTML] once the parameters are settled: the
    existence check against the index engine, then the frontend. *)
Definition serveDocumentPage (s : Service) (h : http.Header) (req : Request)
    (id : string) : Exchange :=
  let headers := http.Set_ ∅ "X-Opaque-ID" (requestID req) in
  let '(res, calls) :=
    PerformRequest s [] (elastic.mk "HEAD" ("/docs/_doc/" +:+ id) headers) in
  match res with
  | inr err =>
      if elastic.IsNotFound err then mkExchange (httpx.NotFound h) calls
      else mkExchange (internalServerError h err) calls
  | inl _ =>
      if negb (String.eqb (Development s) "") then mkExchange (mkWriter h Proxied) calls
      else mkExchange (staticFile s h req "/index.html" false) calls
  end.

(** [DocumentGetGetHTML]. *)
Definition DocumentGetGetHTML (s : Service) (h : http.Header) (req : Request) : Exchange :=
  let id := id_param req in
  if negb (identifier.Valid id) then
    mkExchange (httpx.Error h "400 bad request" http.StatusBadRequest) []
  else if Has (Form req) "s" || Has (Form req) "q" then
    match getSearch s (Form req) with
    | None => mkExchange (redirectToDocument s h id "") []
    | Some sh =>
        if Has (Form req) "q" then
          mkExchange (redirectToDocument s h id ("s=" +:+ QueryEscape (SearchID sh))) []
        else serveDocumentPage s h req id
    end
  else serveDocumentPage s h req id.

(** The encodings [DocumentGetGetJSON] offers: the list literal of its
    first statement. *)
Definition documentEncodings : list string :=
  [compressionGzip; compressionDeflate; compressionIdentity].

(** [DocumentGetGetJSON]. *)
Definition DocumentGetGetJSON (s : Service) (h : http.Header) (req : Request) : Exchange :=
  let contentEncoding :=
    gddo.NegotiateContentEncoding (AcceptEncoding req) documentEncodings in
  if String.eqb contentEncoding "" then
    mkExchange (httpx.Error h "406 not acceptable" http.StatusNotAcceptable) []
  else
    let id := id_param req in
    if negb (identifier.Valid id) then
      mkExchange (httpx.Error h "400 bad request" http.StatusBadRequest) []
    else
      let headers := http.Set_ ∅ "Accept-Encoding" contentEncoding in
      let headers := http.Set_ headers "X-Opaque-ID" (requestID req) in
      let '(res, calls) :=
        PerformRequest s []
          (elastic.mk "GET" ("/docs/_source/" +:+ id) headers) in
      match res with
      | inr err =>
          if elastic.IsNotFound err then mkExchange (httpx.NotFound h) calls
          else mkExchange (internalServerError h err) calls
      | inl resp =>
          let hash := SHA256.Sum256 (elastic.Body resp) in
          let etag := etagOf hash in
          let h := http.Set_ h "Content-Type"
                     (http.Get (elastic.ResponseHeader resp) "Content-Type") in
          let h :=
            if negb (String.eqb contentEncoding compressionIdentity)
            then http.Set_ h "Content-Encoding" contentEncoding
            else http.Set_ h "Content-Length"
                   (http.Get (elastic.ResponseHeader resp) "Content-Length") in
          let h := http.Set_ h "Cache-Control" "no-cache" in
          let h := http.Add h "Vary" "Accept-Encoding" in
          let h := http.Set_ h "Etag" etag in
          let h := http.Set_ h "X-Content-Type-Options" "nosniff" in
          mkExchange (mkWriter h (ServedContent (elastic.Body resp))) calls
      end.

(** ** The certificate manager ([cmd/search/manager.go]) *)

Module CertificateManager.

(** A loaded [tls.Certificate], named by its content. *)
Definition Certificate := bytes.

(** The state of a [sync.RWMutex]. *)
Inductive RWMutex : Type :=
| Unlocked
| WriteLocked
| ReadLocked (readers : nat).

(** The fields the reload and the lookup touch. *)
Record t := mk {
  CertFile : string;
  KeyFile : string;
  certificate : option Certificate;
  mu : RWMutex
}.

(** The memory and lock operations of the two methods. *)
Inductive op : Type :=
| Lock
| Unlock
| RLock
| RUnlock
| Assign (cert : Certificate).

(** One operation on the manager; [None] when the lock cannot be taken in
    this state (the caller would block) or is released without being held. *)
Definition step (c : t) (o : op) : option t :=
  match o, mu c with
  | Lock, Unlocked => Some (mk (CertFile c) (KeyFile c) (certificate c) WriteLocked)
  | Unlock, WriteLocked => Some (mk (CertFile c) (KeyFile c) (certificate c) Unlocked)
  | RLock, Unlocked => Some (mk (CertFile c) (KeyFile c) (certificate c) (ReadLocked 1))
  | RLock, ReadLocked n => Some (mk (CertFile c) (KeyFile c) (certificate c) (ReadLocked (S n)))
  | RUnlock, ReadLocked (S O) => Some (mk (CertFile c) (KeyFile c) (certificate c) Unlocked)
  | RUnlock, ReadLocked (S (S n)) =>
      Some (mk (CertFile c) (KeyFile c) (certificate c) (ReadLocked (S n)))
  | Assign cert, m => Some (mk (CertFile c) (KeyFile c) (Some cert) m)
  | _, _ => None
  end.

(** Run operations in order, keeping the state each one started from. *)
Fixpoint run (c : t) (ops : list op) (seen : list (t * op)) : option (t * list (t * op)) :=
  match ops with
  | [] => Some (c, seen)
  | o :: rest =>
      match step c o with
      | None => None
      | Some c' => run c' rest (seen ++ [(c, o)])
      end
  end.

(** The operations of [reloadCertificate], given what [tls.LoadX509KeyPair]
    answers for the two files: none and the error when the load fails; lock,
    assignment and the deferred unlock otherwise. *)
Definition reloadOps (loaded : Certificate + error) : list op * option error :=
  match loaded with
  | inr err => ([], Some err)
  | inl cert => ([Lock; Assign cert; Unlock], None)
  end.

(** [reloadCertificate]: the manager afterwards, the error returned, and
    the trace of operations. [LoadX509KeyPair] stands for the key files as
    they are when the reload runs. *)
Definition reloadCertificate (LoadX509KeyPair : string -> string -> Certificate + error)
    (c : t) : option (t * option error * list (t * op)) :=
  let '(ops, err) := reloadOps (LoadX509KeyPair (CertFile c) (KeyFile c)) in
  match run c ops [] with
  | None => None
  | Some (c', seen) => Some (c', err, seen)
  end.

(** [GetCertificate]: read lock, read, deferred read unlock. *)
Definition GetCertificate (c : t) : option (t * option Certificate) :=
  match step c RLock with
  | None => None
  | Some c1 =>
      let result := certificate c1 in
      match step c1 RUnlock with
      | None => None
      | Some c2 => Some (c2, result)
      end
  end.

(** [Start]: the first, synchronous load; its error is returned. *)
Definition Start (LoadX509KeyPair : string -> string -> Certificate + error)
    (c : t) : option (t * option error) :=
  match reloadCertificate LoadX509KeyPair c with
  | None => None
  | Some (c', err, _) => Some (c', err)
  end.

(** One tick of the background loop: reload, and log the error if any. The
    log is the list of errors sent to [c.Log]. *)
Definition tick (st : t * list error)
    (LoadX509KeyPair : string -> string -> Certificate + error) : t * list error :=
  match reloadCertificate LoadX509KeyPair (fst st) with
  | Some (c', Some err, _) => (c', snd st ++ [err])
  | Some (c', None, _) => (c', snd st)
  | None => st
  end.

(** The ticks of the loop, each with the key files as they are then. *)
Definition ticks (c : t)
    (loads : list (string -> string -> Certificate + error)) : t * list error :=
  fold_left tick loads (c, []).

(** The certificate of the last load that succeeded, or the one held
    before when none did. *)
Definition lastLoaded (c : t)
    (loads : list (string -> string -> Certificate + error)) : option Certificate :=
  fold_left (fun held load =>
               match load (CertFile c) (KeyFile c) with
               | inl cert => Some cert
               | inr _ => held
               end) loads (certificate c).

End CertificateManager.

(** ** Stub collaborators, for concrete runs *)

Module Stub.

(** A stored document, and the same document as gzip delivers it. *)
Definition document : bytes := string_to_bytes ("{" +:+ quoted "a" +:+ ":1}").

Definition gzippedDocument : bytes :=
  [31; 139; 8; 0; 0; 0; 0; 0; 2; 3; 171; 86; 74; 84; 178; 50; 172; 5; 0;
   175; 172; 27; 86; 7; 0; 0; 0]%Z.

Definition jsonHeader (length : string) : http.Header :=
  http.Set_ (http.Set_ ∅ "Content-Type" "application/json") "Content-Length" length.

(** An index engine that holds [document] under every ID and ignores the
    [Accept-Encoding] it is sent. *)
Definition plainBackend (opts : elastic.PerformRequestOptions) : elastic.Response + error :=
  inl (elastic.mkResponse (jsonHeader "7") document).

(** An index engine with HTTP compression on: it answers a request that
    accepts gzip with the gzip encoding of the document. *)
Definition compressingBackend (opts : elastic.PerformRequestOptions)
    : elastic.Response + error :=
  if String.eqb (http.Get (elastic.Headers opts) "Accept-Encoding") compressionGzip
  then inl (elastic.mkResponse
              (http.Set_ (jsonHeader "27") "Content-Encoding" compressionGzip)
              gzippedDocument)
  else inl (elastic.mkResponse (jsonHeader "7") document).

(** A codec whose output is its input behind a one-byte tag. *)
Definition taggedCodec (tag : Z) (data : bytes) : CodecRun :=
  mkRun None None (tag :: data).

(** A service around a backend: payloads are already bytes, no search
    state, no precompressed files. *)
Definition service (backend : elastic.PerformRequestOptions -> elastic.Response + error)
    : Service :=
  mkService bytes backend ""
    (fun _ id query => inl ("/d/" +:+ id +:+ "?" +:+ query))
    (fun _ => None) ∅ ∅ (fun _ => "text/html")
    inl (taggedCodec 1) (taggedCodec 2) None (taggedCodec 3).

Definition request (id : string) (accept : list header.AcceptSpec) : Request :=
  mkRequest id accept ∅ ("/d/" +:+ id) "req-1".

Definition validID : string := "2fjzZyP7rv8E4aHnBc6KAa".

(** A manager before [Start], key files that load, and key files that
    cannot be read. *)
Definition manager : CertificateManager.t :=
  CertificateManager.mk "cert.pem" "key.pem" None CertificateManager.Unlocked.

Definition firstCertificate : CertificateManager.Certificate := [48; 130; 1; 10]%Z.

Definition readableFiles (certFile keyFile : string)
    : CertificateManager.Certificate + error :=
  inl firstCertificate.

Definition unreadableFiles (certFile keyFile : string)
    : CertificateManager.Certificate + error :=
  inr (OtherError ("open " +:+ keyFile +:+ ": no such file or directory")).

End Stub.

(** ** Vocabulary for the statements about the bootstrap *)

(** The document the bootstrap is to leave in the table for a built-in
    property: its description, [is -> property], and one more is-relation
    for each entry of its [Is] list. *)
Definition builtinDocument (p : BuiltinProperty.t) : Document.t :=
  let mnemonic := getMnemonic (BuiltinProperty.Name p) in
  propertyDocument (getPropertyID mnemonic) (BuiltinProperty.Name p) mnemonic
    (BuiltinProperty.DescriptionPlain p) (BuiltinProperty.DescriptionHTML p)
    (isRelation mnemonic "PROPERTY" "property"
     :: map (fun isClaim => isRelation mnemonic (getMnemonic isClaim) isClaim)
            (BuiltinProperty.Is p)).

(** The marker document of a claim type. *)
Definition claimTypeDocument (claimType : string) : Document.t :=
  let name := claimTypeName claimType in
  let mnemonic := getMnemonic name in
  propertyDocument (getPropertyID mnemonic) name mnemonic
    (claimTypeDescription claimType) (EscapeString (claimTypeDescription claimType))
    [ isRelation mnemonic "PROPERTY" "property";
      isRelation mnemonic "CLAIM_TYPE" "claim type" ].

(** What the bootstrap registers: each name with its document, the
    built-in properties first, then the claim-type markers. *)
Definition registered : list (string * Document.t) :=
  map (fun p => (BuiltinProperty.Name p, builtinDocument p)) builtinProperties
  ++ map (fun claimType => (claimTypeName claimType, claimTypeDocument claimType))
         claimTypes.

Definition registeredNames : list string := map fst registered.

Definition registeredMnemonics : list string := map getMnemonic registeredNames.

(** [r] refers to the standard property called [name], of mnemonic
    [mnemonic]: it carries the identifier derived from the mnemonic, the
    English name, score zero and no sub-scores, and the table of the process
    holds under that identifier the document of that identifier and name. *)
Definition refersTo (mnemonic name : string) (r : DocumentReference.t) : Prop :=
  DocumentReference.ID r = getPropertyID mnemonic
  /\ DocumentReference.Name r = {[ "en"%string := name ]}
  /\ DocumentReference.Score r = 0%Qc
  /\ DocumentReference.Scores r = ∅
  /\ exists d,
       KnownProperties !! DocumentReference.ID r = Some d
       /\ CoreDocument.ID (Document.Core d) = DocumentReference.ID r
       /\ CoreDocument.Name (Document.Core d) = {[ "en"%string := name ]}.

(** A relation claim [is -> target], with confidence 1: its property is
    the [is] property, its target the property called [name]. *)
Definition isClaimTo (mnemonic name : string) (r : RelationClaim.t) : Prop :=
  CoreClaim.Confidence (RelationClaim.Core r) = 1%Qc
  /\ refersTo "IS" "is" (RelationClaim.Prop_ r)
  /\ refersTo mnemonic name (RelationClaim.To r).

(** A description: a text claim of the [description] property, with
    confidence 1. *)
Definition isDescription (c : TextClaim.t) : Prop :=
  CoreClaim.Confidence (TextClaim.Core c) = 1%Qc
  /\ refersTo "DESCRIPTION" "description" (TextClaim.Prop_ c).

(** The one text claim of [d] is a description that reads [plain], and
    [html] as HTML, in English. *)
Definition describedBy (plain html : string) (d : Document.t) : Prop :=
  exists a c,
    Document.Active d = Some a
    /\ SimpleClaimTypes.Text (DocumentClaimTypes.Simple a) = [c]
    /\ isDescription c
    /\ TextClaim.Plain c = {[ "en"%string := plain ]}
    /\ TextClaim.HTML c = {[ "en"%string := html ]}.

(** Exactly one text claim, the description, and among the relation claims
    one [is -> property]. *)
Definition describedProperty (d : Document.t) : Prop :=
  exists a,
    Document.Active d = Some a
    /\ (exists c,
          SimpleClaimTypes.Text (DocumentClaimTypes.Simple a) = [c] /\ isDescription c)
    /\ (exists r,
          r ∈ SimpleClaimTypes.Relation (DocumentClaimTypes.Simple a)
          /\ isClaimTo "PROPERTY" "property" r).

(** A relation claim [is -> "claim type"] among the relation claims. *)
Definition markedClaimType (d : Document.t) : Prop :=
  exists a,
    Document.Active d = Some a
    /\ exists r,
         r ∈ SimpleClaimTypes.Relation (DocumentClaimTypes.Simple a)
         /\ isClaimTo "CLAIM_TYPE" "claim type" r.

(** A claim-type marker document goes by its name. *)
Definition claimTypeMarker (d : Document.t) : Prop :=
  exists claimType,
    claimType ∈ claimTypes
    /\ CoreDocument.Name (Document.Core d) = en (claimTypeName claimType).

(** What the bootstrap keeps true of every stored document. *)
Definition shaped (d : Document.t) : Prop :=
  describedProperty d /\ (claimTypeMarker d -> markedClaimType d).

(** ** Routing helpers of [utils.go] *)

(** [serveStaticFiles]: the routes it registers, as method and path, for the
    paths of [compressedFiles[compressionIdentity]] in the order the [range]
    loop visits them (here the order of [map_to_list]); a missing identity
    table is a nil map, with nothing to visit. Each route is handled by
    [StaticFile]. *)
Definition serveStaticFiles (s : Service) : list (string * string) :=
  flat_map (fun path =>
              if String.eqb path "/index.html" then []
              else [("GET", path); ("HEAD", path)]%string)
           (map fst (map_to_list (default ∅ (compressedFiles s !! compressionIdentity)))).

(** [badRequest]. *)
Definition badRequest (h : http.Header) (err : error) : ResponseWriter :=
  httpx.Error h "400 bad request" http.StatusBadRequest.

(** [parseForm]: [parsed] is what [req.ParseForm] answers, the request with
    its form filled or the error; [next] is the wrapped handler. *)
Definition parseForm (next : http.Header -> Request -> Exchange)
    (h : http.Header) (parsed : Request + error) : Exchange :=
  match parsed with
  | inr err => mkExchange (badRequest h err) []
  | inl req => next h req
  end.

(** [contentTypeMux]: a [nil] handler is [None]. *)
Module contentTypeMux.

Record t := mk {
  HTML : option (http.Header -> Request -> Exchange);
  JSON : option (http.Header -> Request -> Exchange)
}.

Definition IsEmpty (m : t) : bool :=
  bool_decide (HTML m = None) && bool_decide (JSON m = None).

Definition offers (m : t) : list string :=
  match HTML m with Some _ => ["text/html"%string] | None => [] end
  ++ match JSON m with Some _ => ["application/json"%string] | None => [] end.

(** [Handle]. [negotiate] is [gddo.NegotiateContentType] on the request: it
    is given the offers and the default. [offers[0]] panics on an empty
    list, and a call of a [nil] handler panics. *)
Definition Handle (negotiate : list string -> string -> string) (m : t)
    (h : http.Header) (req : Request) : outcome Exchange :=
  match offers m with
  | [] => Panicked "index out of range [0] with length 0"
  | first :: _ =>
      let contentType := negotiate (offers m) first in
      let h := http.Add h "Vary" "Accept" in
      if String.eqb contentType "text/html" then
        match HTML m with
        | Some handler => Returned (handler h req)
        | None => Panicked "invalid memory address or nil pointer dereference"
        end
      else if String.eqb contentType "application/json" then
        match JSON m with
        | Some handler => Returned (handler h req)
        | None => Panicked "invalid memory address or nil pointer dereference"
        end
      else Returned (mkExchange (mkWriter h NotWritten) [])
  end.

End contentTypeMux.

(** ** Logging set-up (package [cli]) *)

Module cli.

(** [zerolog.Level]: trace is -1, debug 0, info 1, warn 2, error 3, fatal 4,
    panic 5, no level 6, disabled 7. *)
Definition TraceLevel : Z := (-1)%Z.
Definition DebugLevel : Z := 0%Z.
Definition InfoLevel : Z := 1%Z.
Definition WarnLevel : Z := 2%Z.
Definition ErrorLevel : Z := 3%Z.
Definition FatalLevel : Z := 4%Z.
Definition PanicLevel : Z := 5%Z.
Definition Disabled : Z := 7%Z.

Definition colorRed : nat := 31.
Definition colorGreen : nat := 32.
Definition colorYellow : nat := 33.
Definition colorBlue : nat := 34.
Definition colorBold : nat := 1.
Definition colorDarkGray : nat := 90.

Definition escape : string := String "027"%char EmptyString.

(** [colorize], on a string. *)
Definition colorize (s : string) (c : nat) (disabled : bool) : string :=
  if disabled then s
  else escape +:+ "[" +:+ Itoa c +:+ "m" +:+ s +:+ escape +:+ "[0m".

(** The value a formatter is given: a string, [nil], or anything else, by
    what [fmt.Sprintf("%s", i)] renders it as. *)
Inductive field : Type :=
| StringField (s : string)
| NilField
| OtherField (rendered : string).

(** [s[0:3]]: out of range on a string of fewer than three bytes. *)
Definition firstThree (s : string) : outcome string :=
  match string_chars s with
  | a :: b :: c :: _ => Returned (chars_string [a; b; c])
  | _ => Panicked "slice bounds out of range"
  end.

(** [strings.ToUpper] on its ASCII path: the code's result on every
    [isASCII] string. On other strings Go maps runes by the Unicode tables,
    which can change the number of bytes; a statement about arbitrary
    renderings assumes [isASCII]. *)
Definition upper (s : string) : string :=
  chars_string (map textproto.to_upper (string_chars s)).

(** [formatLevel]. *)
Definition formatLevel (noColor : bool) (i : field) : outcome string :=
  match i with
  | StringField ll =>
      Returned
        (if String.eqb ll "trace" then colorize "TRC" colorBlue noColor
         else if String.eqb ll "debug" then "DBG"
         else if String.eqb ll "info" then colorize "INF" colorGreen noColor
         else if String.eqb ll "warn" then colorize "WRN" colorYellow noColor
         else if String.eqb ll "error" then colorize "ERR" colorRed noColor
         else if String.eqb ll "fatal" then colorize "FTL" colorRed noColor
         else if String.eqb ll "panic" then colorize "PNC" colorRed noColor
         else "???")
  | NilField => Returned "???"
  | OtherField rendered => firstThree (upper rendered)
  end.

(** [filteredWriter]: [Writer] is what the wrapped writer answers for a
    buffer; the sink lists what reached it, with the level when it came
    through [WriteLevel]. *)
Record filteredWriter := mkFiltered {
  Writer : bytes -> nat * option error;
  Level : Z
}.

Definition Write (w : filteredWriter) (sink : list (option Z * bytes)) (p : bytes)
    : (nat * option error) * list (option Z * bytes) :=
  (Writer w p, sink ++ [(None, p)]).

Definition WriteLevel (w : filteredWriter) (sink : list (option Z * bytes))
    (level : Z) (p : bytes) : (nat * option error) * list (option Z * bytes) :=
  if (Level w <=? level)%Z then (Writer w p, sink ++ [(Some level, p)])
  else ((length p, None), sink).

(** Events written one after the other through [WriteLevel]. *)
Definition writeEvents (w : filteredWriter) (events : list (Z * bytes))
    : list (nat * option error) * list (option Z * bytes) :=
  fold_left (fun st e =>
               let r := WriteLevel w (snd st) (fst e) (snd e) in
               (fst st ++ [fst r], snd r))
            events ([], []).

(** The part of [LoggingConfig] that [Run] reads. *)
Record LoggingConfig := mkConfig {
  ConsoleType : string;
  ConsoleLevel : Z;
  FilePath : string;
  FileLevel : Z
}.

(** Where a writer of [Run] writes. *)
Inductive target : Type :=
| Console (noColor : bool)
| Stdout
| File (path : string).

(** The logging set-up of [Run], from the extracted configuration to the
    logger: the logger's level and the filtered writers, or the exit code 1
    when the log file cannot be opened. [openFile] is what [os.OpenFile]
    answers for the path. *)
Definition loggingSetup (openFile : string -> option error) (cfg : LoggingConfig)
    : Z * list (target * Z) + Z :=
  let level := Disabled in
  let writers := [] in
  let '(level, writers) :=
    if String.eqb (ConsoleType cfg) "color" || String.eqb (ConsoleType cfg) "nocolor" then
      (if (ConsoleLevel cfg <? level)%Z then ConsoleLevel cfg else level,
       writers ++ [(Console (String.eqb (ConsoleType cfg) "nocolor"), ConsoleLevel cfg)])
    else if String.eqb (ConsoleType cfg) "json" then
      (if (ConsoleLevel cfg <? level)%Z then ConsoleLevel cfg else level,
       writers ++ [(Stdout, ConsoleLevel cfg)])
    else (level, writers) in
  if negb (String.eqb (FilePath cfg) "") then
    match openFile (FilePath cfg) with
    | Some _ => inr 1%Z
    | None =>
        inl (if (ConsoleLevel cfg <? level)%Z then FileLevel cfg else level,
             writers ++ [(File (FilePath cfg), FileLevel cfg)])
    end
  else inl (level, writers).

(** The writers an event of a level reaches: the logger lets it through
    when it is at or above the logger's level, and each filtered writer when
    it is at or above the writer's. *)
Definition reached (setup : Z * list (target * Z)) (eventLevel : Z) : list target :=
  if (fst setup <=? eventLevel)%Z
  then map fst (List.filter (fun w => (snd w <=? eventLevel)%Z) (snd setup))
  else [].

End cli.

(** ** Stub files, for concrete runs of the static file server *)

Module StubFiles.

Definition appPlain : bytes := repeat 97%Z 2000.
Definition appGzip : bytes := repeat 98%Z 1500.
Definition iconPlain : bytes := repeat 99%Z 1100.
Definition iconGzip : bytes := repeat 100%Z 900.
Definition indexPlain : bytes := repeat 101%Z 500.

Definition files : gmap string (gmap string bytes) :=
  {[ compressionIdentity := {[ "/app.js"%string := appPlain;
                               "/icon.svg"%string := iconPlain;
                               "/index.html"%string := indexPlain ]};
     compressionGzip := {[ "/app.js"%string := appGzip;
                           "/icon.svg"%string := iconGzip;
                           "/index.html"%string := indexPlain ]} ]}.

Definition etags : gmap string (gmap string string) :=
  {[ compressionIdentity := {[ "/app.js"%string := quoted "app-identity";
                               "/icon.svg"%string := quoted "icon-identity";
                               "/index.html"%string := quoted "index-identity" ]};
     compressionGzip := {[ "/app.js"%string := quoted "app-gzip";
                           "/icon.svg"%string := quoted "icon-gzip";
                           "/index.html"%string := quoted "index-gzip" ]} ]}.

(** A service with these files, a backend that holds every document, and
    a search that resolves every form to one state. *)
Definition service : Service :=
  mkService bytes Stub.plainBackend ""
    (fun _ id query => inl ("/d/" +:+ id +:+ "?" +:+ query))
    (fun _ => Some (mkSearch "a b")) files etags (fun _ => "text/javascript")
    inl (Stub.taggedCodec 1) (Stub.taggedCodec 2) None (Stub.taggedCodec 3).

Definition gzipRequest (path : string) : Request :=
  mkRequest "" [header.mk "gzip" 1%Qc] ∅ path "req-2".

End StubFiles.

(** ** The backend calls of the document handlers *)

(** The call of the existence check of [DocumentGetGetHTML]. *)
Definition headCall (req : Request) : elastic.PerformRequestOptions :=
  elastic.mk "HEAD" ("/docs/_doc/" +:+ id_param req)
             (http.Set_ ∅ "X-Opaque-ID" (requestID req)).

(** The call of [DocumentGetGetJSON]. *)
Definition sourceCall (req : Request) : elastic.PerformRequestOptions :=
  elastic.mk "GET" ("/docs/_source/" +:+ id_param req)
    (http.Set_
       (http.Set_ ∅ "Accept-Encoding"
          (gddo.NegotiateContentEncoding (AcceptEncoding req) documentEncodings))
       "X-Opaque-ID" (requestID req)).

(** ** More vocabulary for the bootstrap *)

(** What a mnemonic is made of: no space, no double quote, no lower-case
    letter. *)
Definition mnemonicChar (c : ascii) : Prop :=
  c <> " "%char /\ c <> "034"%char /\ textproto.is_lower c = false.

(** A stored document sits under its own identifier, which its mnemonic
    derives. *)
Definition selfKeyed (id : string) (d : Document.t) : Prop :=
  CoreDocument.ID (Document.Core d) = id
  /\ id = getPropertyID (Document.Mnemonic_ d).

(** The identifiers of all claims of a document, text claims first. *)
Definition claimIDs (d : Document.t) : list string :=
  match Document.Active d with
  | None => []
  | Some a =>
      map (fun c => CoreClaim.ID (TextClaim.Core c))
          (SimpleClaimTypes.Text (DocumentClaimTypes.Simple a))
      ++ map (fun r => CoreClaim.ID (RelationClaim.Core r))
             (SimpleClaimTypes.Relation (DocumentClaimTypes.Simple a))
  end.

(** The references a document's claims make: the property of each claim,
    and the target of each relation. *)
Definition references (d : Document.t) : list DocumentReference.t :=
  match Document.Active d with
  | None => []
  | Some a =>
      map TextClaim.Prop_ (SimpleClaimTypes.Text (DocumentClaimTypes.Simple a))
      ++ flat_map (fun r => [RelationClaim.Prop_ r; RelationClaim.To r])
                  (SimpleClaimTypes.Relation (DocumentClaimTypes.Simple a))
  end.

(** ** More vocabulary for the certificate manager *)

(** The errors of the loads that fail, in order. *)
Definition failures (c : CertificateManager.t)
    (loads : list (string -> string -> CertificateManager.Certificate + error))
    : list error :=
  flat_map (fun load =>
              match load (CertificateManager.CertFile c) (CertificateManager.KeyFile c) with
              | inl _ => []
              | inr err => [err]
              end) loads.

(** One of the documents the bootstrap writes, under its identifier. *)
Definition bootstrapDocument (id : string) (d : Document.t) : Prop :=
  (exists p,
     p ∈ builtinProperties
     /\ id = getPropertyID (getMnemonic (BuiltinProperty.Name p))
     /\ d = builtinDocument p)
  \/ (exists claimType,
        claimType ∈ claimTypes
        /\ id = getPropertyID (getMnemonic (claimTypeName claimType))
        /\ d = claimTypeDocument claimType).
(** * Part II: properties of the embedding *)

(** ** Known-answer checks of the digests *)

Example sha256_abc :
  hex (SHA256.Sum256 (string_to_bytes "abc"))
  = "ba7816bf8f01cfea414140de5dae2223b00361a396177a9cb410ff61f20015ad"%string.
Proof. vm_compute. reflexivity. Qed.

Example sha256_empty :
  hex (SHA256.Sum256 [])
  = "e3b0c44298fc1c149afbf4c8996fb92427ae41e4649b934ca495991b7852b855"%string.
Proof. vm_compute. reflexivity. Qed.

Example sha1_abc :
  hex (SHA1.Sum (string_to_bytes "abc"))
  = "a9993e364706816aba3e25717850c26c9cd0d89d"%string.
Proof. vm_compute. reflexivity. Qed.

Example uuid5_is :
  hex (uuid.NewSHA1
         [0x34; 0xcd; 0x10; 0xb4; 0x57; 0x31; 0x46; 0xb8;
          0xa6; 0xdd; 0x45; 0x44; 0x46; 0x80; 0xca; 0x62]%Z
         (string_to_bytes "IS"))
  = "0d81e5a387a2510ebf34add938b6ff2b"%string.
Proof. vm_compute. reflexivity. Qed.

Example base64_tail :
  Base64.EncodeToString (string_to_bytes "abc" ++ [255; 254]%Z) = "YWJj__4"%string.
Proof. vm_compute. reflexivity. Qed.

Example canonical_key :
  textproto.CanonicalMIMEHeaderKey "X-Opaque-ID" = "X-Opaque-Id"%string
  /\ textproto.CanonicalMIMEHeaderKey "peerdb-total" = "Peerdb-Total"%string
  /\ textproto.CanonicalMIMEHeaderKey "peerdb-a b" = "peerdb-a b"%string.
Proof. vm_compute. auto. Qed.

Example property_identifier :
  getPropertyID "IS" = "2fjzZyP7rv8E4aHnBc6KAa"%string
  /\ getPropertyClaimID "IS" "PROPERTY" 0 = "LHhdJFR7BWbjmjLFNvpXsr"%string
  /\ identifier.Valid (getPropertyID "IS") = true.
Proof. vm_compute. auto. Qed.

Example document_etag :
  etagOf (SHA256.Sum256 Stub.document)
  = quoted "AVq9f1zFei3ZS3WQ8ErYCEJzkF7jPsXOvq5iJ2qX-GI".
Proof. vm_compute. reflexivity. Qed.

Example negotiation_samples :
  gddo.NegotiateContentEncoding [] allCompressions = "identity"%string
  /\ gddo.NegotiateContentEncoding
       [header.mk "gzip" (Q2Qc (1 # 2)); header.mk "deflate" 1%Qc] allCompressions
     = "deflate"%string
  /\ gddo.NegotiateContentEncoding [header.mk "*" 1%Qc] allCompressions = "br"%string
  /\ gddo.NegotiateContentEncoding [header.mk "gzip" 0%Qc] allCompressions = ""%string.
Proof. vm_compute. auto. Qed.

(** ** Header keys *)

(** Digests, encoders and negotiation stay folded under [simpl] and [cbn]. *)
Arguments SHA256.Sum256 : simpl never.
Arguments SHA1.Sum : simpl never.
Arguments etagOf : simpl never.
Arguments Itoa : simpl never.
Arguments string_to_bytes : simpl never.
Arguments textproto.CanonicalMIMEHeaderKey : simpl never.
Arguments gddo.NegotiateContentEncoding : simpl never.
Arguments identifier.Valid : simpl never.
Arguments identifier.FromUUID : simpl never.
Arguments uuid.NewSHA1 : simpl never.
Arguments String.append : simpl never.
Arguments http.Set_ : simpl never.
Arguments http.Add : simpl never.
Arguments http.Get : simpl never.

Lemma canonical_content_type :
  textproto.CanonicalMIMEHeaderKey "Content-Type" = "Content-Type"%string.
Proof. reflexivity. Qed.

Lemma canonical_content_encoding :
  textproto.CanonicalMIMEHeaderKey "Content-Encoding" = "Content-Encoding"%string.
Proof. reflexivity. Qed.

Lemma canonical_content_length :
  textproto.CanonicalMIMEHeaderKey "Content-Length" = "Content-Length"%string.
Proof. reflexivity. Qed.

Lemma canonical_cache_control :
  textproto.CanonicalMIMEHeaderKey "Cache-Control" = "Cache-Control"%string.
Proof. reflexivity. Qed.

Lemma canonical_vary : textproto.CanonicalMIMEHeaderKey "Vary" = "Vary"%string.
Proof. reflexivity. Qed.

Lemma canonical_etag : textproto.CanonicalMIMEHeaderKey "Etag" = "Etag"%string.
Proof. reflexivity. Qed.

Lemma canonical_nosniff :
  textproto.CanonicalMIMEHeaderKey "X-Content-Type-Options" = "X-Content-Type-Options"%string.
Proof. reflexivity. Qed.

Lemma canonical_accept_encoding :
  textproto.CanonicalMIMEHeaderKey "Accept-Encoding" = "Accept-Encoding"%string.
Proof. reflexivity. Qed.

Lemma canonical_opaque_id :
  textproto.CanonicalMIMEHeaderKey "X-Opaque-ID" = "X-Opaque-Id"%string.
Proof. reflexivity. Qed.

Create Rewrite HintDb canon.
#[local] Hint Rewrite canonical_content_type canonical_content_encoding
  canonical_content_length canonical_cache_control canonical_vary canonical_etag
  canonical_nosniff canonical_accept_encoding canonical_opaque_id : canon.

(** Unfold the header operations down to map inserts on literal keys. *)
Ltac header_ops :=
  unfold http.Set_, http.Add, http.Get in *; autorewrite with canon in *.

(** Reduce record projections and pairs, and nothing else. *)
Ltac projections :=
  cbn [response backendCalls written Header fst snd negb andb orb statusCode
       elastic.Body elastic.ResponseHeader elastic.Headers elastic.IsNotFound].

(** Settle a lookup through inserts on keys that differ from the one read. *)
Ltac skip_inserts :=
  repeat (rewrite lookup_insert_ne by discriminate).

(** A metadata header key starts with the prefix, in either case, so it is
    none of the headers [writeJSON] sets itself. *)
Lemma metadata_key_first (key : string) :
  exists rest,
    textproto.CanonicalMIMEHeaderKey (peerDBMetadataHeaderPrefix +:+ key) = String "P" rest
    \/ textproto.CanonicalMIMEHeaderKey (peerDBMetadataHeaderPrefix +:+ key) = String "p" rest.
Proof.
  unfold textproto.CanonicalMIMEHeaderKey, peerDBMetadataHeaderPrefix.
  destruct (forallb _ _); [| eexists; right; reflexivity].
  eexists; left. reflexivity.
Qed.

Lemma metadata_key_not (key k : string) (c : ascii) (rest : string) :
  k = String c rest -> c <> "P"%char -> c <> "p"%char ->
  textproto.CanonicalMIMEHeaderKey (peerDBMetadataHeaderPrefix +:+ key) <> k.
Proof.
  intros -> HP Hp Heq.
  destruct (metadata_key_first key) as [r [H | H]]; rewrite H in Heq; congruence.
Qed.

(** ** The JSON and HTML document handlers *)

Lemma eqb_empty (x : string) : String.eqb x "" = false <-> x <> ""%string.
Proof. apply String.eqb_neq. Qed.

(** The negotiation never leaves the offers: its answer is an offer, or
    [identity] when nothing matched, or the empty string. *)
Lemma better_fst (Q : string -> Prop) (offer : string) (best : string * Qc)
    (spec : header.AcceptSpec) :
  Q offer -> Q (fst best) -> Q (fst (gddo.better offer best spec)).
Proof.
  intros Hoffer Hbest. unfold gddo.better.
  destruct (_ && _); [exact Hoffer | exact Hbest].
Qed.

Lemma fold_better_fst (Q : string -> Prop) (offer : string)
    (specs : list header.AcceptSpec) (best : string * Qc) :
  Q offer -> Q (fst best) -> Q (fst (fold_left (gddo.better offer) specs best)).
Proof.
  intros Hoffer. revert best.
  induction specs as [| spec specs IH]; intros best Hbest; [exact Hbest |].
  cbn [fold_left]. apply IH, better_fst; assumption.
Qed.

Lemma fold_offers_fst (Q : string -> Prop) (specs : list header.AcceptSpec)
    (offers : list string) (best : string * Qc) :
  Forall Q offers -> Q (fst best) ->
  Q (fst (fold_left (fun best offer => fold_left (gddo.better offer) specs best)
                    offers best)).
Proof.
  intros Hoffers. revert best.
  induction Hoffers as [| offer offers Hoffer Hoffers IH]; intros best Hbest;
    [exact Hbest |].
  cbn [fold_left]. apply IH, fold_better_fst; assumption.
Qed.

Lemma NegotiateContentEncoding_among (specs : list header.AcceptSpec)
    (offers : list string) :
  gddo.NegotiateContentEncoding specs offers = ""%string
  \/ gddo.NegotiateContentEncoding specs offers = "identity"%string
  \/ gddo.NegotiateContentEncoding specs offers ∈ offers.
Proof.
  unfold gddo.NegotiateContentEncoding. cbv zeta.
  destruct (bool_decide _); [left; reflexivity | right].
  apply (fold_offers_fst (fun x => x = "identity"%string \/ x ∈ offers)).
  - apply Forall_forall. intros x Hx. right. apply list_elem_of_In. exact Hx.
  - left. reflexivity.
Qed.

(** What [DocumentGetGetJSON] does once an encoding is negotiated and the
    identifier is valid. *)
Lemma DocumentGetGetJSON_backend (s : Service) (h : http.Header) (req : Request) :
  let contentEncoding :=
    gddo.NegotiateContentEncoding (AcceptEncoding req) documentEncodings in
  let opts :=
    elastic.mk "GET" ("/docs/_source/" +:+ id_param req)
      (http.Set_ (http.Set_ ∅ "Accept-Encoding" contentEncoding)
                 "X-Opaque-ID" (requestID req)) in
  contentEncoding <> ""%string ->
  identifier.Valid (id_param req) = true ->
  backendCalls (DocumentGetGetJSON s h req) = [opts]
  /\ match ESClient s opts with
     | inr err =>
         response (DocumentGetGetJSON s h req)
         = if elastic.IsNotFound err then httpx.NotFound h else internalServerError h err
     | inl resp =>
         written (response (DocumentGetGetJSON s h req)) = ServedContent (elastic.Body resp)
         /\ Header (response (DocumentGetGetJSON s h req)) !! "Etag"
            = Some [etagOf (SHA256.Sum256 (elastic.Body resp))]
         /\ Header (response (DocumentGetGetJSON s h req)) !! "Content-Encoding"
            = if String.eqb contentEncoding compressionIdentity
              then h !! "Content-Encoding" else Some [contentEncoding]
     end.
Proof.
  intros contentEncoding opts Hne Hvalid.
  unfold DocumentGetGetJSON. fold contentEncoding.
  apply eqb_empty in Hne. rewrite Hne, Hvalid. projections.
  unfold PerformRequest. fold opts.
  destruct (ESClient s opts) as [resp | err]; projections.
  - split; [reflexivity |]. split; [reflexivity |]. split.
    + header_ops. skip_inserts. apply lookup_insert_eq.
    + header_ops. skip_inserts.
      destruct (String.eqb contentEncoding compressionIdentity); projections.
      * skip_inserts. reflexivity.
      * apply lookup_insert_eq.
  - destruct err; projections; auto.
Qed.

Lemma DocumentGetGetJSON_not_acceptable (s : Service) (h : http.Header) (req : Request) :
  gddo.NegotiateContentEncoding (AcceptEncoding req) documentEncodings = ""%string ->
  DocumentGetGetJSON s h req
  = mkExchange (httpx.Error h "406 not acceptable" http.StatusNotAcceptable) [].
Proof.
  intros Hnone. unfold DocumentGetGetJSON. rewrite Hnone. reflexivity.
Qed.

Lemma DocumentGetGetJSON_bad_request (s : Service) (h : http.Header) (req : Request) :
  gddo.NegotiateContentEncoding (AcceptEncoding req) documentEncodings <> ""%string ->
  identifier.Valid (id_param req) = false ->
  DocumentGetGetJSON s h req
  = mkExchange (httpx.Error h "400 bad request" http.StatusBadRequest) [].
Proof.
  intros Hsome Hinvalid. unfold DocumentGetGetJSON.
  apply eqb_empty in Hsome. rewrite Hsome, Hinvalid. reflexivity.
Qed.

(** The status [DocumentGetGetJSON] writes itself after a backend call is
    404 or 500, never 400. *)
Lemma DocumentGetGetJSON_status_after_call (s : Service) (h : http.Header) (req : Request) :
  gddo.NegotiateContentEncoding (AcceptEncoding req) documentEncodings <> ""%string ->
  identifier.Valid (id_param req) = true ->
  statusCode (written (response (DocumentGetGetJSON s h req))) <> Some http.StatusBadRequest.
Proof.
  intros Hsome Hvalid.
  destruct (DocumentGetGetJSON_backend s h req Hsome Hvalid) as [_ Hres].
  destruct (ESClient s _) as [resp | err].
  - destruct Hres as [-> _]. discriminate.
  - rewrite Hres. destruct err; cbn; discriminate.
Qed.

(** C1 (amended): [DocumentGetGetJSON] negotiates the response encoding
    from the client's Accept-Encoding against the ordered list gzip, deflate,
    identity; brotli is not offered on this path. When the negotiation
    yields no encoding the handler answers 406 and makes no backend call;
    otherwise, for a valid identifier, the one backend call asks for the
    negotiated encoding and a served response carries it as
    Content-Encoding unless it is identity. *)
Theorem DocumentGetGetJSON_negotiation (s : Service) (h : http.Header) (req : Request) :
  let contentEncoding :=
    gddo.NegotiateContentEncoding (AcceptEncoding req)
      [compressionGzip; compressionDeflate; compressionIdentity] in
  contentEncoding ∈ [""; compressionGzip; compressionDeflate; compressionIdentity]%string
  /\ (contentEncoding = ""%string ->
      DocumentGetGetJSON s h req
      = mkExchange (httpx.Error h "406 not acceptable" http.StatusNotAcceptable) [])
  /\ (contentEncoding <> ""%string -> identifier.Valid (id_param req) = true ->
      exists opts,
        backendCalls (DocumentGetGetJSON s h req) = [opts]
        /\ elastic.Headers opts !! "Accept-Encoding" = Some [contentEncoding]
        /\ forall content,
             written (response (DocumentGetGetJSON s h req)) = ServedContent content ->
             Header (response (DocumentGetGetJSON s h req)) !! "Content-Encoding"
             = if String.eqb contentEncoding compressionIdentity
               then h !! "Content-Encoding" else Some [contentEncoding]).
Proof.
  intros contentEncoding. split; [| split].
  - destruct (NegotiateContentEncoding_among (AcceptEncoding req)
                [compressionGzip; compressionDeflate; compressionIdentity])
      as [H | [H | H]]; fold contentEncoding in H.
    + rewrite H. apply list_elem_of_here.
    + rewrite H. do 3 apply list_elem_of_further. apply list_elem_of_here.
    + apply list_elem_of_further. exact H.
  - apply DocumentGetGetJSON_not_acceptable.
  - intros Hsome Hvalid.
    destruct (DocumentGetGetJSON_backend s h req Hsome Hvalid) as [Hcalls Hres].
    eexists. split; [exact Hcalls |]. split.
    + cbn [elastic.Headers]. header_ops. skip_inserts. apply lookup_insert_eq.
    + intros content Hserved.
      destruct (ESClient s _) as [resp | err].
      * destruct Hres as (_ & _ & Hce). exact Hce.
      * rewrite Hres in Hserved. destruct err; discriminate.
Qed.

(** C6: a request whose identifier fails the validity check gets a 4xx
    answer and no call to the index engine, on the HTML branch (400) and on
    the JSON branch (406 when no encoding is negotiable, 400 otherwise). *)
Theorem invalid_identifier_rejected (s : Service) (h : http.Header) (req : Request) :
  identifier.Valid (id_param req) = false ->
  DocumentGetGetHTML s h req
  = mkExchange (httpx.Error h "400 bad request" http.StatusBadRequest) []
  /\ exists code text,
       DocumentGetGetJSON s h req = mkExchange (httpx.Error h text code) []
       /\ (400 <= code < 500)%Z.
Proof.
  intros Hinvalid. split.
  { unfold DocumentGetGetHTML. rewrite Hinvalid. reflexivity. }
  destruct (decide (gddo.NegotiateContentEncoding (AcceptEncoding req) documentEncodings
                    = ""%string)) as [Hnone | Hsome].
  - exists http.StatusNotAcceptable, "406 not acceptable"%string.
    rewrite (DocumentGetGetJSON_not_acceptable s h req Hnone).
    split; [reflexivity | unfold http.StatusNotAcceptable; lia].
  - exists http.StatusBadRequest, "400 bad request"%string.
    rewrite (DocumentGetGetJSON_bad_request s h req Hsome Hinvalid).
    split; [reflexivity | unfold http.StatusBadRequest; lia].
Qed.

(** C10: in [DocumentGetGetJSON] the encoding is negotiated before the
    identifier is checked: when the Accept-Encoding rules out every offered
    encoding the answer is 406 whatever the identifier, and a 400 is written
    exactly when an encoding was negotiable and the identifier is invalid. *)
Theorem negotiation_precedes_validation (s : Service) (h : http.Header) (req : Request) :
  (gddo.NegotiateContentEncoding (AcceptEncoding req) documentEncodings = ""%string ->
   DocumentGetGetJSON s h req
   = mkExchange (httpx.Error h "406 not acceptable" http.StatusNotAcceptable) [])
  /\ (statusCode (written (response (DocumentGetGetJSON s h req))) = Some http.StatusBadRequest
      <-> gddo.NegotiateContentEncoding (AcceptEncoding req) documentEncodings <> ""%string
          /\ identifier.Valid (id_param req) = false).
Proof.
  split; [apply DocumentGetGetJSON_not_acceptable |]. split.
  - intros Hstatus.
    destruct (decide (gddo.NegotiateContentEncoding (AcceptEncoding req) documentEncodings
                      = ""%string)) as [Hnone | Hsome].
    + rewrite (DocumentGetGetJSON_not_acceptable s h req Hnone) in Hstatus. discriminate.
    + split; [exact Hsome |].
      destruct (identifier.Valid (id_param req)) eqn:Hvalid; [| reflexivity].
      exfalso. exact (DocumentGetGetJSON_status_after_call s h req Hsome Hvalid Hstatus).
  - intros [Hsome Hinvalid].
    rewrite (DocumentGetGetJSON_bad_request s h req Hsome Hinvalid). reflexivity.
Qed.

(** A served response of [DocumentGetGetJSON] is the body the index engine
    returned to the one call made, which asked for the negotiated encoding;
    its ETag is the digest of exactly those bytes. *)
Lemma DocumentGetGetJSON_served (s : Service) (h : http.Header) (req : Request)
    (content : bytes) :
  written (response (DocumentGetGetJSON s h req)) = ServedContent content ->
  exists opts resp,
    backendCalls (DocumentGetGetJSON s h req) = [opts]
    /\ elastic.Headers opts !! "Accept-Encoding"
       = Some [gddo.NegotiateContentEncoding (AcceptEncoding req) documentEncodings]
    /\ ESClient s opts = inl resp
    /\ elastic.Body resp = content
    /\ Header (response (DocumentGetGetJSON s h req)) !! "Etag"
       = Some [etagOf (SHA256.Sum256 content)].
Proof.
  intros Hserved.
  destruct (decide (gddo.NegotiateContentEncoding (AcceptEncoding req) documentEncodings
                    = ""%string)) as [Hnone | Hsome].
  { rewrite (DocumentGetGetJSON_not_acceptable s h req Hnone) in Hserved. discriminate. }
  destruct (identifier.Valid (id_param req)) eqn:Hvalid.
  2: { rewrite (DocumentGetGetJSON_bad_request s h req Hsome Hvalid) in Hserved.
       discriminate. }
  destruct (DocumentGetGetJSON_backend s h req Hsome Hvalid) as [Hcalls Hres].
  destruct (ESClient s _) as [resp | err] eqn:Hanswer.
  - destruct Hres as (Hw & Hetag & _).
    rewrite Hw in Hserved. injection Hserved as <-.
    eexists _, resp. split; [exact Hcalls |]. split.
    + cbn [elastic.Headers]. header_ops. skip_inserts. apply lookup_insert_eq.
    + split; [exact Hanswer |]. split; [reflexivity | exact Hetag].
  - rewrite Hres in Hserved. destruct err; discriminate.
Qed.

(** C2 (amended): the ETag of a served JSON document is the quoted
    base64url SHA-256 digest of the body bytes the index engine returned for
    this request, a request that asked the engine for the negotiated
    encoding; two requests that are served the same body bytes receive the
    same ETag, whatever encodings they negotiated. *)
Theorem DocumentGetGetJSON_etag (s1 s2 : Service) (h1 h2 : http.Header)
    (req1 req2 : Request) (content : bytes) :
  written (response (DocumentGetGetJSON s1 h1 req1)) = ServedContent content ->
  written (response (DocumentGetGetJSON s2 h2 req2)) = ServedContent content ->
  Header (response (DocumentGetGetJSON s1 h1 req1)) !! "Etag"
  = Some [quoted (Base64.EncodeToString (SHA256.Sum256 content))]
  /\ Header (response (DocumentGetGetJSON s2 h2 req2)) !! "Etag"
     = Header (response (DocumentGetGetJSON s1 h1 req1)) !! "Etag"
  /\ exists opts resp,
       backendCalls (DocumentGetGetJSON s1 h1 req1) = [opts]
       /\ elastic.Headers opts !! "Accept-Encoding"
          = Some [gddo.NegotiateContentEncoding (AcceptEncoding req1) documentEncodings]
       /\ ESClient s1 opts = inl resp
       /\ elastic.Body resp = content.
Proof.
  intros Hserved1 Hserved2.
  destruct (DocumentGetGetJSON_served s1 h1 req1 content Hserved1)
    as (opts & resp & Hcalls & Haccept & Hanswer & Hbody & Hetag1).
  destruct (DocumentGetGetJSON_served s2 h2 req2 content Hserved2)
    as (_ & _ & _ & _ & _ & _ & Hetag2).
  split; [exact Hetag1 |]. split; [congruence |].
  exists opts, resp. auto.
Qed.

(** ** The generic JSON writer *)

Lemma fold_writeMetadata_header (metadata : list (string * list string))
    (h : http.Header) (d : sha256.digest) (k : string) (c : ascii) (rest : string) :
  k = String c rest -> c <> "P"%char -> c <> "p"%char ->
  fst (fold_left writeMetadata metadata (h, d)) !! k = h !! k.
Proof.
  intros Hk HP Hp. revert h d.
  induction metadata as [| [key value] metadata IH]; intros h d; [reflexivity |].
  cbn [fold_left]. unfold writeMetadata at 2. cbn [fst snd]. rewrite IH.
  apply lookup_insert_ne. exact (metadata_key_not key k c rest Hk HP Hp).
Qed.

Lemma fold_Write_values (value : list string) (d : sha256.digest) :
  fold_left (fun d v => sha256.Write d (string_to_bytes v)) value d
  = sha256.mk (sha256.absorbed d ++ flat_map string_to_bytes value).
Proof.
  revert d. induction value as [| v value IH]; intros d; cbn [fold_left flat_map].
  - rewrite app_nil_r. destruct d; reflexivity.
  - rewrite IH. unfold sha256.Write. cbn [sha256.absorbed].
    rewrite <- app_assoc. reflexivity.
Qed.

Lemma fold_writeMetadata_digest (metadata : list (string * list string))
    (h : http.Header) (d : sha256.digest) :
  snd (fold_left writeMetadata metadata (h, d))
  = sha256.mk (sha256.absorbed d ++ metadataBytes metadata).
Proof.
  revert h d. induction metadata as [| [key value] metadata IH]; intros h d.
  - cbn [fold_left snd metadataBytes flat_map]. rewrite app_nil_r. destruct d; reflexivity.
  - cbn [fold_left]. unfold writeMetadata at 2. cbn [fst snd]. rewrite IH.
    rewrite fold_Write_values. unfold sha256.Write. cbn [sha256.absorbed metadataBytes flat_map fst snd].
    rewrite <- !app_assoc. reflexivity.
Qed.

Lemma compress_identity (s : Service) (data : bytes) :
  compress s compressionIdentity data = inl data.
Proof. reflexivity. Qed.

(** A served response of [writeJSON]: its ETag is the digest of the served
    bytes followed by the metadata bytes. *)
Lemma writeJSON_served (s : Service) (h : http.Header) (contentEncoding : string)
    (data : Payload s) (metadata : list (string * list string)) (content : bytes) :
  written (writeJSON s h contentEncoding data metadata) = ServedContent content ->
  Header (writeJSON s h contentEncoding data metadata) !! "Etag"
  = Some [etagOf (SHA256.Sum256 (content ++ metadataBytes metadata))].
Proof.
  unfold writeJSON.
  destruct (MarshalWithoutEscapeHTML s data) as [encoded | err].
  2: { destruct err; discriminate. }
  destruct (compress s _ encoded) as [encoded' | err].
  2: { destruct err; discriminate. }
  cbn [written Header]. intros [= <-].
  header_ops. skip_inserts. rewrite lookup_insert_eq.
  rewrite fold_writeMetadata_digest. reflexivity.
Qed.




(** C5: a payload whose serialized size is at most 1024 bytes is served by
    [writeJSON] as it was marshalled, whatever encoding the caller asked
    for: the Content-Encoding header is left as the writer found it (absent
    when it was absent) and Content-Length is the size of the payload. *)
Theorem writeJSON_small_identity (s : Service) (h : http.Header)
    (contentEncoding : string) (data : Payload s)
    (metadata : list (string * list string)) (encoded : bytes) :
  MarshalWithoutEscapeHTML s data = inl encoded ->
  length encoded <= 1024 ->
  written (writeJSON s h contentEncoding data metadata) = ServedContent encoded
  /\ Header (writeJSON s h contentEncoding data metadata) !! "Content-Encoding"
     = h !! "Content-Encoding"
  /\ (h !! "Content-Encoding" = None ->
      Header (writeJSON s h contentEncoding data metadata) !! "Content-Encoding" = None)
  /\ Header (writeJSON s h contentEncoding data metadata) !! "Content-Length"
     = Some [Itoa (length encoded)].
Proof.
  intros Hmarshal Hsmall.
  assert (Hce : Header (writeJSON s h contentEncoding data metadata) !! "Content-Encoding"
                = h !! "Content-Encoding").
  { unfold writeJSON. rewrite Hmarshal.
    replace (length encoded <=? minCompressionSize) with true
      by (symmetry; apply Nat.leb_le; exact Hsmall).
    rewrite compress_identity. cbn [Header negb]. rewrite String.eqb_refl. cbn [negb].
    header_ops. skip_inserts.
    apply (fold_writeMetadata_header metadata h _ _ "C"%char "ontent-Encoding");
      [reflexivity | discriminate | discriminate]. }
  unfold writeJSON in *. rewrite Hmarshal in *.
  replace (length encoded <=? minCompressionSize) with true in *
    by (symmetry; apply Nat.leb_le; exact Hsmall).
  rewrite compress_identity in *. cbn [Header written negb] in *.
  rewrite String.eqb_refl in *. cbn [negb] in *.
  split; [reflexivity |]. split; [exact Hce |]. split; [congruence |].
  header_ops. skip_inserts. apply lookup_insert_eq.
Qed.

(** ** Concrete runs of the handlers *)

(** C1, as stated, fails: with [Accept-Encoding: br, *;q=0] brotli is
    acceptable under the list brotli, gzip, deflate, identity, yet the handler
    answers 406; with [Accept-Encoding: br] that list negotiates brotli, yet
    the handler asks the backend for identity and sets no Content-Encoding. *)
Lemma brotli_not_offered_for_documents :
  let s := Stub.service Stub.plainBackend in
  let only_br := [header.mk "br" 1%Qc; header.mk "*" 0%Qc] in
  let br := [header.mk "br" 1%Qc] in
  gddo.NegotiateContentEncoding only_br allCompressions = compressionBrotli
  /\ DocumentGetGetJSON s ∅ (Stub.request Stub.validID only_br)
     = mkExchange (httpx.Error ∅ "406 not acceptable" http.StatusNotAcceptable) []
  /\ gddo.NegotiateContentEncoding br allCompressions = compressionBrotli
  /\ written (response (DocumentGetGetJSON s ∅ (Stub.request Stub.validID br)))
     = ServedContent Stub.document
  /\ Header (response (DocumentGetGetJSON s ∅ (Stub.request Stub.validID br)))
       !! "Content-Encoding" = None
  /\ map (fun opts => elastic.Headers opts !! "Accept-Encoding")
         (backendCalls (DocumentGetGetJSON s ∅ (Stub.request Stub.validID br)))
     = [Some [compressionIdentity]].
Proof. vm_compute. repeat split. Qed.

Lemma DocumentGetGetJSON_negotiation_witness :
  DocumentGetGetJSON (Stub.service Stub.plainBackend) ∅
    (Stub.request Stub.validID [header.mk "gzip" 0%Qc])
  = mkExchange (httpx.Error ∅ "406 not acceptable" http.StatusNotAcceptable) []
  /\ exists opts,
       backendCalls (DocumentGetGetJSON (Stub.service Stub.plainBackend) ∅
                       (Stub.request Stub.validID [header.mk "deflate" 1%Qc])) = [opts]
       /\ elastic.Headers opts !! "Accept-Encoding" = Some ["deflate"%string].
Proof.
  split.
  - apply (proj1 (proj2 (DocumentGetGetJSON_negotiation (Stub.service Stub.plainBackend) ∅
                           (Stub.request Stub.validID [header.mk "gzip" 0%Qc])))).
    vm_compute. reflexivity.
  - destruct (proj2 (proj2 (DocumentGetGetJSON_negotiation
                              (Stub.service Stub.plainBackend) ∅
                              (Stub.request Stub.validID [header.mk "deflate" 1%Qc]))))
      as (opts & Hcalls & Haccept & _).
    + vm_compute. discriminate.
    + vm_compute. reflexivity.
    + exists opts. split; [exact Hcalls | exact Haccept].
Defined.

Lemma invalid_identifier_rejected_witness :
  identifier.Valid "not-an-id" = false
  /\ DocumentGetGetHTML (Stub.service Stub.plainBackend) ∅ (Stub.request "not-an-id" [])
     = mkExchange (httpx.Error ∅ "400 bad request" http.StatusBadRequest) []
  /\ exists code text,
       DocumentGetGetJSON (Stub.service Stub.plainBackend) ∅ (Stub.request "not-an-id" [])
       = mkExchange (httpx.Error ∅ text code) []
       /\ (400 <= code < 500)%Z.
Proof.
  split; [vm_compute; reflexivity |].
  apply (invalid_identifier_rejected (Stub.service Stub.plainBackend) ∅
           (Stub.request "not-an-id" [])).
  vm_compute. reflexivity.
Defined.

Lemma negotiation_precedes_validation_witness :
  DocumentGetGetJSON (Stub.service Stub.plainBackend) ∅
    (Stub.request "not-an-id" [header.mk "*" 0%Qc])
  = mkExchange (httpx.Error ∅ "406 not acceptable" http.StatusNotAcceptable) []
  /\ statusCode (written (response
       (DocumentGetGetJSON (Stub.service Stub.plainBackend) ∅
          (Stub.request "not-an-id" [header.mk "gzip" 1%Qc]))))
     = Some http.StatusBadRequest.
Proof.
  split.
  - apply (proj1 (negotiation_precedes_validation (Stub.service Stub.plainBackend) ∅
                    (Stub.request "not-an-id" [header.mk "*" 0%Qc]))).
    vm_compute. reflexivity.
  - apply (proj2 (negotiation_precedes_validation (Stub.service Stub.plainBackend) ∅
                    (Stub.request "not-an-id" [header.mk "gzip" 1%Qc]))).
    split; vm_compute; [discriminate | reflexivity].
Defined.

(** C2, as stated, fails: the index engine is asked for the negotiated
    encoding, so with HTTP compression on it returns the gzip bytes of the
    document to a gzip request; the ETag is the digest of those bytes, not of
    the unencoded document, and differs from the ETag of the identity
    request for the same document. *)
Lemma gzip_request_changes_etag :
  let s := Stub.service Stub.compressingBackend in
  let gz := DocumentGetGetJSON s ∅ (Stub.request Stub.validID [header.mk "gzip" 1%Qc]) in
  let plain := DocumentGetGetJSON s ∅ (Stub.request Stub.validID [header.mk "identity" 1%Qc]) in
  written (response gz) = ServedContent Stub.gzippedDocument
  /\ written (response plain) = ServedContent Stub.document
  /\ Header (response plain) !! "Etag" = Some [etagOf (SHA256.Sum256 Stub.document)]
  /\ Header (response gz) !! "Etag" <> Some [etagOf (SHA256.Sum256 Stub.document)]
  /\ Header (response gz) !! "Etag" <> Header (response plain) !! "Etag".
Proof.
  vm_compute. repeat split; discriminate.
Qed.

Lemma DocumentGetGetJSON_etag_witness :
  Header (response (DocumentGetGetJSON (Stub.service Stub.plainBackend) ∅
                      (Stub.request Stub.validID [header.mk "gzip" 1%Qc]))) !! "Etag"
  = Some [quoted (Base64.EncodeToString (SHA256.Sum256 Stub.document))]
  /\ Header (response (DocumentGetGetJSON (Stub.service Stub.plainBackend) ∅
                         (Stub.request Stub.validID []))) !! "Etag"
     = Header (response (DocumentGetGetJSON (Stub.service Stub.plainBackend) ∅
                           (Stub.request Stub.validID [header.mk "gzip" 1%Qc]))) !! "Etag".
Proof.
  destruct (DocumentGetGetJSON_etag
              (Stub.service Stub.plainBackend) (Stub.service Stub.plainBackend) ∅ ∅
              (Stub.request Stub.validID [header.mk "gzip" 1%Qc])
              (Stub.request Stub.validID []) Stub.document)
    as (Hformula & Hsame & _).
  - vm_compute. reflexivity.
  - vm_compute. reflexivity.
  - split; [exact Hformula | exact Hsame].
Defined.


(** With two keys the digest follows the order in which the loop happens to
    visit the map: one map and one body give two ETags. *)
Lemma visiting_order_changes_etag :
  let s := Stub.service Stub.plainBackend in
  let ab := [("a", ["1"]); ("b", ["2"])]%string in
  let ba := [("b", ["2"]); ("a", ["1"])]%string in
  let metadata : http.Header := list_to_map ab in
  writeJSONCall s ∅ compressionIdentity Stub.document metadata
    (writeJSON s ∅ compressionIdentity Stub.document ab)
  /\ writeJSONCall s ∅ compressionIdentity Stub.document metadata
       (writeJSON s ∅ compressionIdentity Stub.document ba)
  /\ Header (writeJSON s ∅ compressionIdentity Stub.document ab) !! "Etag"
     <> Header (writeJSON s ∅ compressionIdentity Stub.document ba) !! "Etag".
Proof.
  cbv zeta.
  assert (Hab : ranges (list_to_map [("a", ["1"]); ("b", ["2"])]%string)
                       [("a", ["1"]); ("b", ["2"])]%string).
  { unfold ranges. symmetry. apply map_to_list_to_map.
    cbn [fmap list_fmap fst]. apply NoDup_cons_2; [| apply NoDup_singleton].
    intros Hin. apply list_elem_of_singleton in Hin. discriminate. }
  split; [| split].
  - eexists. split; [exact Hab | reflexivity].
  - eexists. split; [| reflexivity]. unfold ranges in *. rewrite <- Hab. apply perm_swap.
  - vm_compute. discriminate.
Qed.


Lemma writeJSON_small_identity_witness :
  written (writeJSON (Stub.service Stub.plainBackend) ∅ compressionGzip Stub.document [])
  = ServedContent Stub.document
  /\ Header (writeJSON (Stub.service Stub.plainBackend) ∅ compressionGzip Stub.document [])
       !! "Content-Encoding" = None.
Proof.
  destruct (writeJSON_small_identity (Stub.service Stub.plainBackend) ∅ compressionGzip
              Stub.document [] Stub.document) as (Hserved & _ & Hnone & _).
  - reflexivity.
  - vm_compute. lia.
  - split; [exact Hserved | apply Hnone; reflexivity].
Defined.

(** ** The property bootstrap *)

Arguments getPropertyID : simpl never.
Arguments getPropertyClaimID : simpl never.
Arguments getMnemonic : simpl never.
Arguments EscapeString : simpl never.

(** Every store of the bootstrap commutes with a union on the right: what
    it writes does not depend on what the table held. *)
Lemma storeClaimType_union (m1 m2 : gmap string Document.t) (claimType : string) :
  storeClaimType (m1 ∪ m2) claimType = storeClaimType m1 claimType ∪ m2.
Proof. unfold storeClaimType. apply insert_union_l. Qed.

Lemma fold_storeClaimType_union (l : list string) (m1 m2 : gmap string Document.t) :
  fold_left storeClaimType l (m1 ∪ m2) = fold_left storeClaimType l m1 ∪ m2.
Proof.
  revert m1. induction l as [| claimType l IH]; intros m1; [reflexivity |].
  cbn [fold_left]. rewrite storeClaimType_union. apply IH.
Qed.

Lemma alter_union_present {A} (f : A -> A) (id : string) (m1 m2 : gmap string A) :
  is_Some (m1 !! id) -> alter f id (m1 ∪ m2) = alter f id m1 ∪ m2.
Proof.
  intros Hin. apply map_eq. intros j.
  destruct (decide (id = j)) as [<- | Hne].
  - rewrite lookup_alter_eq, !lookup_union_l', lookup_alter_eq; try done.
    rewrite lookup_alter_eq. destruct Hin as [x ->]. eauto.
  - rewrite lookup_alter_ne, !lookup_union, lookup_alter_ne; done.
Qed.

Lemma fold_storeIsClaim_union (mnemonic id : string) (l : list string)
    (m1 m2 : gmap string Document.t) :
  is_Some (m1 !! id) ->
  fold_left (storeIsClaim mnemonic id) l (m1 ∪ m2)
  = fold_left (storeIsClaim mnemonic id) l m1 ∪ m2.
Proof.
  revert m1. induction l as [| isClaim l IH]; intros m1 Hin; [reflexivity |].
  cbn [fold_left]. unfold storeIsClaim at 2 4.
  rewrite alter_union_present by exact Hin.
  apply IH. rewrite lookup_alter_eq. destruct Hin as [x ->]. eauto.
Qed.

Lemma storeBuiltinProperty_union (m1 m2 : gmap string Document.t)
    (builtinProperty : BuiltinProperty.t) :
  storeBuiltinProperty (m1 ∪ m2) builtinProperty
  = storeBuiltinProperty m1 builtinProperty ∪ m2.
Proof.
  unfold storeBuiltinProperty. cbv zeta.
  rewrite insert_union_l, fold_storeIsClaim_union, fold_storeClaimType_union.
  - reflexivity.
  - rewrite lookup_insert_eq. eauto.
Qed.

Lemma fold_storeBuiltinProperty_union (l : list BuiltinProperty.t)
    (m1 m2 : gmap string Document.t) :
  fold_left storeBuiltinProperty l (m1 ∪ m2) = fold_left storeBuiltinProperty l m1 ∪ m2.
Proof.
  revert m1. induction l as [| p l IH]; intros m1; [reflexivity |].
  cbn [fold_left]. rewrite storeBuiltinProperty_union. apply IH.
Qed.

(** A run over any table is the run over the empty table, laid over it. *)
Lemma populateStandardProperties_over (kp : gmap string Document.t) :
  populateStandardProperties kp = KnownProperties ∪ kp.
Proof.
  unfold KnownProperties, populateStandardProperties.
  rewrite <- fold_storeBuiltinProperty_union. rewrite (left_id_L ∅ (∪)). reflexivity.
Qed.

(** C4: the bootstrap is idempotent: a second run of
    [populateStandardProperties] over the table the first run produced
    yields that table again, key by key and document by document; so the
    table built at start-up is a fixed point. *)
Theorem populateStandardProperties_idempotent :
  (forall kp : gmap string Document.t,
     populateStandardProperties (populateStandardProperties kp)
     = populateStandardProperties kp)
  /\ populateStandardProperties KnownProperties = KnownProperties.
Proof.
  assert (Hidem : forall kp : gmap string Document.t,
             populateStandardProperties (populateStandardProperties kp)
             = populateStandardProperties kp).
  { intros kp. rewrite (populateStandardProperties_over (populateStandardProperties kp)).
    rewrite (populateStandardProperties_over kp).
    rewrite (assoc_L (∪)), (idemp_L (∪)). reflexivity. }
  split; [exact Hidem |]. exact (Hidem ∅).
Qed.

(** *** What the table holds under each registered name *)

(** The table of the process, evaluated: under the identifier of each
    registered name is the document of that name, so the twenty-five
    identifiers are distinct. *)
Lemma KnownProperties_documents :
  map (fun e => KnownProperties !! getPropertyID (getMnemonic (fst e))) registered
  = map (fun e => Some (snd e)) registered.
Proof. vm_compute. reflexivity. Qed.

Lemma map_eq_pointwise {A B} (f g : A -> B) (l : list A) :
  map f l = map g l -> forall x, x ∈ l -> f x = g x.
Proof.
  induction l as [| a l IH]; intros Heq x Hin.
  - apply elem_of_nil in Hin. contradiction.
  - cbn in Heq. injection Heq as Hhead Htail.
    apply elem_of_cons in Hin as [-> | Hin]; [exact Hhead | exact (IH Htail x Hin)].
Qed.

Lemma KnownProperties_registered (name : string) (d : Document.t) :
  (name, d) ∈ registered ->
  KnownProperties !! getPropertyID (getMnemonic name) = Some d.
Proof.
  intros Hin. exact (map_eq_pointwise _ _ _ KnownProperties_documents (name, d) Hin).
Qed.

Lemma registered_builtin (p : BuiltinProperty.t) :
  p ∈ builtinProperties -> (BuiltinProperty.Name p, builtinDocument p) ∈ registered.
Proof.
  intros Hin. unfold registered. apply elem_of_app. left.
  apply list_elem_of_fmap. exists p. auto.
Qed.

Lemma registered_claimType (claimType : string) :
  claimType ∈ claimTypes ->
  (claimTypeName claimType, claimTypeDocument claimType) ∈ registered.
Proof.
  intros Hin. unfold registered. apply elem_of_app. right.
  apply list_elem_of_fmap. exists claimType. auto.
Qed.

(** Every registered document carries its own name, score zero and no
    sub-scores. *)
Lemma registered_core (name : string) (d : Document.t) :
  (name, d) ∈ registered ->
  Document.Core d = CoreDocument.mk (getPropertyID (getMnemonic name)) (en name) 0%Qc ∅
  /\ Document.Mnemonic_ d = getMnemonic name.
Proof.
  unfold registered. intros Hin. apply elem_of_app in Hin as [Hin | Hin];
    apply list_elem_of_fmap in Hin as (x & [= -> ->] & _); split; reflexivity.
Qed.

Lemma registeredNames_registered (name : string) :
  name ∈ registeredNames -> exists d, (name, d) ∈ registered.
Proof.
  unfold registeredNames. intros Hin.
  apply list_elem_of_fmap in Hin as ([name' d] & -> & Hin). exists d. exact Hin.
Qed.

(** *** The shape of the stored documents *)

Lemma en_inj (a b : string) : en a = en b -> a = b.
Proof.
  intros Heq. assert (H : en a !! "en" = en b !! "en") by (rewrite Heq; reflexivity).
  unfold en in H. rewrite !lookup_singleton_eq in H. congruence.
Qed.

(** The reference the bootstrap spells out for a registered name does refer
    to the document the table holds for that name. *)
Lemma refersTo_registered (name : string) (d : Document.t) :
  (name, d) ∈ registered ->
  refersTo (getMnemonic name) name (standardReference (getMnemonic name) name).
Proof.
  intros Hin. destruct (registered_core name d Hin) as [Hcore _].
  unfold refersTo, standardReference.
  cbn [DocumentReference.ID DocumentReference.Name DocumentReference.Score
       DocumentReference.Scores].
  do 4 (split; [reflexivity |]).
  exists d. rewrite Hcore. cbn [CoreDocument.ID CoreDocument.Name].
  split; [exact (KnownProperties_registered name d Hin) |]. split; reflexivity.
Qed.

Ltac among_builtinProperties :=
  unfold builtinProperties;
  repeat first [apply list_elem_of_here | apply list_elem_of_further].

Lemma refersTo_is : refersTo "IS" "is" (standardReference "IS" "is").
Proof.
  refine (refersTo_registered "is" _ (registered_builtin (BuiltinProperty.mk "is" _ _ _) _)).
  among_builtinProperties.
Qed.

Lemma refersTo_property : refersTo "PROPERTY" "property" (standardReference "PROPERTY" "property").
Proof.
  refine (refersTo_registered "property" _
            (registered_builtin (BuiltinProperty.mk "property" _ _ _) _)).
  among_builtinProperties.
Qed.

Lemma refersTo_claim_type :
  refersTo "CLAIM_TYPE" "claim type" (standardReference "CLAIM_TYPE" "claim type").
Proof.
  refine (refersTo_registered "claim type" _
            (registered_builtin (BuiltinProperty.mk "claim type" _ _ _) _)).
  among_builtinProperties.
Qed.

Lemma refersTo_description :
  refersTo "DESCRIPTION" "description" (standardReference "DESCRIPTION" "description").
Proof.
  refine (refersTo_registered "description" _
            (registered_builtin (BuiltinProperty.mk "description" _ _ _) _)).
  among_builtinProperties.
Qed.

Lemma isClaimTo_property (mnemonic : string) :
  isClaimTo "PROPERTY" "property" (isRelation mnemonic "PROPERTY" "property").
Proof. split; [reflexivity |]. split; [exact refersTo_is | exact refersTo_property]. Qed.

Lemma isClaimTo_claim_type (mnemonic : string) :
  isClaimTo "CLAIM_TYPE" "claim type" (isRelation mnemonic "CLAIM_TYPE" "claim type").
Proof. split; [reflexivity |]. split; [exact refersTo_is | exact refersTo_claim_type]. Qed.

Lemma isDescription_descriptionClaim (mnemonic plain html : string) :
  isDescription (descriptionClaim mnemonic plain html).
Proof. split; [reflexivity | exact refersTo_description]. Qed.

Lemma describedProperty_propertyDocument (id name mnemonic plain html : string)
    (relations : list RelationClaim.t) :
  isRelation mnemonic "PROPERTY" "property" ∈ relations ->
  describedProperty (propertyDocument id name mnemonic plain html relations).
Proof.
  intros Hin. eexists. split; [reflexivity |]. split.
  - eexists. split; [reflexivity |]. apply isDescription_descriptionClaim.
  - eexists. split; [exact Hin |]. apply isClaimTo_property.
Qed.

Lemma describedBy_propertyDocument (id name mnemonic plain html : string)
    (relations : list RelationClaim.t) :
  describedBy plain html (propertyDocument id name mnemonic plain html relations).
Proof.
  eexists _, _. split; [reflexivity |]. split; [reflexivity |].
  split; [apply isDescription_descriptionClaim |]. split; reflexivity.
Qed.

Lemma describedProperty_appendRelation (claim : RelationClaim.t) (d : Document.t) :
  describedProperty d -> describedProperty (appendRelation claim d).
Proof.
  intros (a & Ha & Htext & r & Hr & Hclaim). unfold appendRelation. rewrite Ha.
  eexists. split; [reflexivity |]. split; [exact Htext |].
  exists r. split; [| exact Hclaim]. cbn. apply elem_of_app. left. exact Hr.
Qed.

Lemma markedClaimType_appendRelation (claim : RelationClaim.t) (d : Document.t) :
  markedClaimType d -> markedClaimType (appendRelation claim d).
Proof.
  intros (a & Ha & r & Hr & Hclaim). unfold appendRelation. rewrite Ha.
  eexists. split; [reflexivity |].
  exists r. split; [| exact Hclaim]. cbn. apply elem_of_app. left. exact Hr.
Qed.

Lemma appendRelation_Core (claim : RelationClaim.t) (d : Document.t) :
  Document.Core (appendRelation claim d) = Document.Core d.
Proof. unfold appendRelation. destruct (Document.Active d); reflexivity. Qed.

Lemma shaped_appendRelation (claim : RelationClaim.t) (d : Document.t) :
  shaped d -> shaped (appendRelation claim d).
Proof.
  intros [Hdesc Hmark]. split.
  - apply describedProperty_appendRelation, Hdesc.
  - intros (claimType & Hin & Hname). rewrite appendRelation_Core in Hname.
    apply markedClaimType_appendRelation, Hmark. exists claimType. auto.
Qed.

(** The names of the claim-type documents start with a double quote; no
    built-in property's name does. *)
Lemma claimTypeName_head (claimType : string) :
  exists rest, claimTypeName claimType = String "034"%char rest.
Proof. eexists. reflexivity. Qed.

Lemma builtin_names_unquoted :
  Forall (fun p => forall claimType,
            BuiltinProperty.Name p <> claimTypeName claimType) builtinProperties.
Proof.
  unfold builtinProperties.
  repeat constructor; intros claimType Heq;
    destruct (claimTypeName_head claimType) as [rest Hhead];
    rewrite Hhead in Heq; cbn in Heq; discriminate.
Qed.

Lemma shaped_builtin (id mnemonic : string) (p : BuiltinProperty.t) :
  (forall claimType, BuiltinProperty.Name p <> claimTypeName claimType) ->
  shaped (propertyDocument id (BuiltinProperty.Name p) mnemonic
            (BuiltinProperty.DescriptionPlain p) (BuiltinProperty.DescriptionHTML p)
            [isRelation mnemonic "PROPERTY" "property"]).
Proof.
  intros Hname. split.
  - apply describedProperty_propertyDocument. apply list_elem_of_singleton. reflexivity.
  - intros (claimType & _ & Heq). cbn in Heq. apply en_inj in Heq.
    exfalso. exact (Hname claimType Heq).
Qed.

Lemma shaped_claimType (id name mnemonic plain html : string) :
  shaped (propertyDocument id name mnemonic plain html
            [isRelation mnemonic "PROPERTY" "property";
             isRelation mnemonic "CLAIM_TYPE" "claim type"]).
Proof.
  split.
  - apply describedProperty_propertyDocument. apply list_elem_of_here.
  - intros _. eexists. split; [reflexivity |].
    eexists. split; [| apply isClaimTo_claim_type].
    cbn. apply list_elem_of_further, list_elem_of_here.
Qed.

Lemma map_Forall_alter_shaped (f : Document.t -> Document.t) (id : string)
    (m : gmap string Document.t) :
  (forall d, shaped d -> shaped (f d)) ->
  map_Forall (fun _ d => shaped d) m ->
  map_Forall (fun _ d => shaped d) (alter f id m).
Proof.
  intros Hf Hm k d Hlookup.
  destruct (decide (id = k)) as [<- | Hne].
  - rewrite lookup_alter_eq in Hlookup.
    destruct (m !! id) as [d0 |] eqn:Hd0; [| discriminate].
    injection Hlookup as <-. apply Hf. exact (Hm id d0 Hd0).
  - rewrite lookup_alter_ne in Hlookup by exact Hne. exact (Hm k d Hlookup).
Qed.

Lemma shaped_fold_storeClaimType (l : list string) (m : gmap string Document.t) :
  map_Forall (fun _ d => shaped d) m ->
  map_Forall (fun _ d => shaped d) (fold_left storeClaimType l m).
Proof.
  revert m. induction l as [| claimType l IH]; intros m Hm; [exact Hm |].
  cbn [fold_left]. apply IH. unfold storeClaimType.
  apply map_Forall_insert_2; [apply shaped_claimType | exact Hm].
Qed.

Lemma shaped_fold_storeIsClaim (mnemonic id : string) (l : list string)
    (m : gmap string Document.t) :
  map_Forall (fun _ d => shaped d) m ->
  map_Forall (fun _ d => shaped d) (fold_left (storeIsClaim mnemonic id) l m).
Proof.
  revert m. induction l as [| isClaim l IH]; intros m Hm; [exact Hm |].
  cbn [fold_left]. apply IH. unfold storeIsClaim.
  apply map_Forall_alter_shaped; [apply shaped_appendRelation | exact Hm].
Qed.

Lemma shaped_fold_storeBuiltinProperty (l : list BuiltinProperty.t)
    (m : gmap string Document.t) :
  Forall (fun p => forall claimType,
            BuiltinProperty.Name p <> claimTypeName claimType) l ->
  map_Forall (fun _ d => shaped d) m ->
  map_Forall (fun _ d => shaped d) (fold_left storeBuiltinProperty l m).
Proof.
  intros Hl. revert m. induction Hl as [| p l Hp Hl IH]; intros m Hm; [exact Hm |].
  cbn [fold_left]. apply IH. unfold storeBuiltinProperty. cbv zeta.
  apply shaped_fold_storeClaimType, shaped_fold_storeIsClaim.
  apply map_Forall_insert_2; [apply shaped_builtin, Hp | exact Hm].
Qed.

Lemma KnownProperties_shaped : map_Forall (fun _ d => shaped d) KnownProperties.
Proof.
  apply shaped_fold_storeBuiltinProperty;
    [exact builtin_names_unquoted | apply map_Forall_empty].
Qed.

(** Keys that are no registered identifier are left alone. *)
Lemma fold_storeClaimType_other (k : string) (l : list string)
    (m : gmap string Document.t) :
  Forall (fun claimType => getPropertyID (getMnemonic (claimTypeName claimType)) <> k) l ->
  fold_left storeClaimType l m !! k = m !! k.
Proof.
  intros Hl. revert m. induction Hl as [| claimType l Hne Hl IH]; intros m; [reflexivity |].
  cbn [fold_left]. rewrite IH. unfold storeClaimType. apply lookup_insert_ne. exact Hne.
Qed.

Lemma fold_storeIsClaim_other (mnemonic id k : string) (l : list string)
    (m : gmap string Document.t) :
  id <> k -> fold_left (storeIsClaim mnemonic id) l m !! k = m !! k.
Proof.
  intros Hne. revert m. induction l as [| isClaim l IH]; intros m; [reflexivity |].
  cbn [fold_left]. rewrite IH. unfold storeIsClaim. apply lookup_alter_ne. exact Hne.
Qed.

Lemma fold_storeBuiltinProperty_other (k : string) (l : list BuiltinProperty.t)
    (m : gmap string Document.t) :
  Forall (fun p => getPropertyID (getMnemonic (BuiltinProperty.Name p)) <> k) l ->
  Forall (fun claimType => getPropertyID (getMnemonic (claimTypeName claimType)) <> k)
         claimTypes ->
  fold_left storeBuiltinProperty l m !! k = m !! k.
Proof.
  intros Hl Htypes. revert m.
  induction Hl as [| p l Hne Hl IH]; intros m; [reflexivity |].
  cbn [fold_left]. rewrite IH. unfold storeBuiltinProperty. cbv zeta.
  rewrite fold_storeClaimType_other by exact Htypes.
  rewrite fold_storeIsClaim_other by exact Hne.
  apply lookup_insert_ne. exact Hne.
Qed.

Lemma KnownProperties_unregistered (mnemonic : string) :
  Forall (fun m => getPropertyID m <> getPropertyID mnemonic) registeredMnemonics ->
  KnownProperties !! getPropertyID mnemonic = None.
Proof.
  unfold registeredMnemonics, registeredNames, registered.
  rewrite !map_app, !map_map. cbn [fst].
  intros Hall. apply Forall_app in Hall as [Hbuiltin Htypes].
  rewrite Forall_map in Hbuiltin. rewrite Forall_map in Htypes.
  unfold KnownProperties, populateStandardProperties.
  rewrite fold_storeBuiltinProperty_other; [apply lookup_empty | exact Hbuiltin | exact Htypes].
Qed.

(** C7: after the bootstrap every document of the table has exactly one
    text claim, its description with confidence 1, and among its relation
    claims one whose property is the [is] property and whose target is the
    [property] document; every claim-type marker document has in addition a
    relation claim [is] whose target is the [claim type] document. The
    property and the targets are references to the documents the table
    itself holds under the names [is], [property], [claim type] and
    [description]. The table holds each built-in property's document under
    the property's identifier, with its name and that property's own
    description, and each claim type's marker document under the marker's
    identifier. *)
Theorem bootstrap_documents_shape :
  (forall id d, KnownProperties !! id = Some d ->
     describedProperty d /\ (claimTypeMarker d -> markedClaimType d))
  /\ (forall p, p ∈ builtinProperties ->
        KnownProperties !! getPropertyID (getMnemonic (BuiltinProperty.Name p))
        = Some (builtinDocument p)
        /\ describedProperty (builtinDocument p)
        /\ CoreDocument.Name (Document.Core (builtinDocument p))
           = {[ "en"%string := BuiltinProperty.Name p ]}
        /\ describedBy (BuiltinProperty.DescriptionPlain p)
                       (BuiltinProperty.DescriptionHTML p) (builtinDocument p))
  /\ (forall claimType, claimType ∈ claimTypes ->
        KnownProperties !! getPropertyID (getMnemonic (claimTypeName claimType))
        = Some (claimTypeDocument claimType)
        /\ claimTypeMarker (claimTypeDocument claimType)
        /\ describedProperty (claimTypeDocument claimType)
        /\ markedClaimType (claimTypeDocument claimType)
        /\ CoreDocument.Name (Document.Core (claimTypeDocument claimType))
           = {[ "en"%string := quoted claimType +:+ " claim type" ]}
        /\ describedBy
             ("the property is useful with the " +:+ quoted claimType +:+ " claim type")
             (EscapeString
                ("the property is useful with the " +:+ quoted claimType +:+ " claim type"))
             (claimTypeDocument claimType)).
Proof.
  split; [| split].
  - intros id d Hlookup. exact (KnownProperties_shaped id d Hlookup).
  - intros p Hin.
    pose proof (KnownProperties_registered _ _ (registered_builtin p Hin)) as Hlookup.
    split; [exact Hlookup |].
    split; [exact (proj1 (KnownProperties_shaped _ _ Hlookup)) |].
    split; [reflexivity |]. apply describedBy_propertyDocument.
  - intros claimType Hin.
    pose proof (KnownProperties_registered _ _ (registered_claimType claimType Hin))
      as Hlookup.
    assert (Hmarker : claimTypeMarker (claimTypeDocument claimType)).
    { exists claimType. split; [exact Hin | reflexivity]. }
    destruct (KnownProperties_shaped _ _ Hlookup) as [Hdesc Hmark].
    split; [exact Hlookup |]. split; [exact Hmarker |]. split; [exact Hdesc |].
    split; [exact (Hmark Hmarker) |]. split; [reflexivity |].
    apply describedBy_propertyDocument.
Qed.

(** C8: [GetStandardPropertyReference] returns, for every mnemonic
    registered during the bootstrap, the reference to that property (its
    identifier, its name, score zero and no sub-scores); for a mnemonic that
    was not registered, that is, one whose derived identifier is none of the
    registered identifiers, it panics. *)
Theorem GetStandardPropertyReference_contract :
  (forall mnemonic, mnemonic ∈ registeredMnemonics ->
     exists name,
       name ∈ registeredNames /\ mnemonic = getMnemonic name
       /\ GetStandardPropertyReference KnownProperties mnemonic
          = Returned (DocumentReference.mk (getPropertyID mnemonic) (en name) 0%Qc ∅))
  /\ (forall mnemonic,
        Forall (fun m => getPropertyID m <> getPropertyID mnemonic) registeredMnemonics ->
        GetStandardPropertyReference KnownProperties mnemonic
        = Panicked ("standard property for mnemonic " +:+ quoted mnemonic
                    +:+ " cannot be found")).
Proof.
  split.
  - intros mnemonic Hin. unfold registeredMnemonics in Hin.
    apply list_elem_of_fmap in Hin as (name & -> & Hname).
    exists name. split; [exact Hname |]. split; [reflexivity |].
    destruct (registeredNames_registered name Hname) as [d Hd].
    destruct (registered_core name d Hd) as [Hcore _].
    unfold GetStandardPropertyReference.
    rewrite (KnownProperties_registered name d Hd), Hcore. reflexivity.
  - intros mnemonic Hfresh. unfold GetStandardPropertyReference.
    rewrite (KnownProperties_unregistered mnemonic Hfresh). reflexivity.
Qed.

Lemma bootstrap_documents_shape_witness :
  KnownProperties !! getPropertyID (getMnemonic (claimTypeName "text"))
  = Some (claimTypeDocument "text")
  /\ claimTypeMarker (claimTypeDocument "text")
  /\ describedProperty (claimTypeDocument "text")
  /\ markedClaimType (claimTypeDocument "text")
  /\ CoreDocument.Name (Document.Core (claimTypeDocument "text"))
     = {[ "en"%string := quoted "text" +:+ " claim type" ]}
  /\ describedBy
       ("the property is useful with the " +:+ quoted "text" +:+ " claim type")
       (EscapeString ("the property is useful with the " +:+ quoted "text" +:+ " claim type"))
       (claimTypeDocument "text").
Proof.
  apply (proj2 (proj2 bootstrap_documents_shape) "text"%string).
  apply (bool_decide_unpack _). vm_compute. exact I.
Defined.

Lemma GetStandardPropertyReference_contract_witness :
  (exists name,
     name ∈ registeredNames /\ "DESCRIPTION"%string = getMnemonic name
     /\ GetStandardPropertyReference KnownProperties "DESCRIPTION"
        = Returned (DocumentReference.mk (getPropertyID "DESCRIPTION") (en name) 0%Qc ∅))
  /\ GetStandardPropertyReference KnownProperties "FOO"
     = Panicked ("standard property for mnemonic " +:+ quoted "FOO" +:+ " cannot be found").
Proof.
  split.
  - apply (proj1 GetStandardPropertyReference_contract "DESCRIPTION"%string).
    apply (bool_decide_unpack _). vm_compute. exact I.
  - apply (proj2 GetStandardPropertyReference_contract "FOO"%string).
    apply (bool_decide_unpack _). vm_compute. exact I.
Defined.

(** ** The certificate manager *)

Module CertificateFacts.
Import CertificateManager.

Lemma unlocked_eta (c : t) :
  mu c = Unlocked -> mk (CertFile c) (KeyFile c) (certificate c) Unlocked = c.
Proof. destruct c; cbn; intros ->; reflexivity. Qed.

Lemma reload_failed (load : string -> string -> Certificate + error) (c : t) (err : error) :
  load (CertFile c) (KeyFile c) = inr err ->
  reloadCertificate load c = Some (c, Some err, []).
Proof. intros Hload. unfold reloadCertificate. rewrite Hload. reflexivity. Qed.

Lemma reload_loaded (load : string -> string -> Certificate + error) (c : t)
    (cert : Certificate) :
  mu c = Unlocked ->
  load (CertFile c) (KeyFile c) = inl cert ->
  reloadCertificate load c
  = Some (mk (CertFile c) (KeyFile c) (Some cert) Unlocked, None,
          [ (c, Lock);
            (mk (CertFile c) (KeyFile c) (certificate c) WriteLocked, Assign cert);
            (mk (CertFile c) (KeyFile c) (Some cert) WriteLocked, Unlock) ]).
Proof.
  intros Hmu Hload. unfold reloadCertificate. rewrite Hload.
  cbn [reloadOps run]. unfold step at 1. rewrite Hmu. reflexivity.
Qed.

Lemma GetCertificate_unlocked (c : t) :
  mu c = Unlocked -> GetCertificate c = Some (c, certificate c).
Proof.
  intros Hmu. unfold GetCertificate, step. rewrite Hmu. cbn.
  rewrite (unlocked_eta c Hmu). reflexivity.
Qed.

(** A reload that returns has assigned the certificate only while holding
    the write lock, and only a certificate that was loaded. *)
Lemma reload_assigns_locked (load : string -> string -> Certificate + error) (c c' : t)
    (err : option error) (seen : list (t * op)) :
  reloadCertificate load c = Some (c', err, seen) ->
  Forall (fun so =>
            forall cert, snd so = Assign cert ->
              mu (fst so) = WriteLocked /\ load (CertFile c) (KeyFile c) = inl cert) seen
  /\ (err <> None -> c' = c)
  /\ (certificate c' <> certificate c ->
      err = None /\ load (CertFile c) (KeyFile c) = inl (default [] (certificate c'))).
Proof.
  unfold reloadCertificate.
  destruct (load (CertFile c) (KeyFile c)) as [cert | e] eqn:Hload; cbn [reloadOps run].
  - unfold step at 1. destruct (mu c) eqn:Hmu; try discriminate.
    cbn. intros [= <- <- <-]. split; [| split].
    + repeat apply Forall_cons; [| | | apply Forall_nil];
        cbn; intros cert0 Heq; try discriminate.
      injection Heq as ->. auto.
    + intros Hne. congruence.
    + intros _. auto.
  - intros [= <- <- <-]. split; [constructor |]. split; [reflexivity |].
    intros Hne. congruence.
Qed.

(** Reading and reloading exclude each other: a reload finds the lock
    taken while a reader holds it, and a reader while the reload holds it. *)
Lemma reload_waits_for_readers (load : string -> string -> Certificate + error) (c : t)
    (cert : Certificate) (readers : nat) :
  mu c = ReadLocked readers ->
  load (CertFile c) (KeyFile c) = inl cert ->
  reloadCertificate load c = None.
Proof.
  intros Hmu Hload. unfold reloadCertificate. rewrite Hload.
  cbn [reloadOps run]. unfold step. rewrite Hmu. reflexivity.
Qed.

Lemma read_waits_for_writer (c : t) :
  mu c = WriteLocked -> GetCertificate c = None.
Proof. intros Hmu. unfold GetCertificate, step. rewrite Hmu. reflexivity. Qed.

(** One tick keeps the lock free and the file names, and holds the
    certificate it loaded, or the one before when the load failed. *)
Lemma tick_state (load : string -> string -> Certificate + error) (c : t)
    (log : list error) :
  mu c = Unlocked ->
  exists c1 log1,
    tick (c, log) load = (c1, log1)
    /\ mu c1 = Unlocked /\ CertFile c1 = CertFile c /\ KeyFile c1 = KeyFile c
    /\ certificate c1
       = match load (CertFile c) (KeyFile c) with
         | inl cert => Some cert
         | inr _ => certificate c
         end.
Proof.
  intros Hmu. unfold tick. cbn [fst snd].
  destruct (load (CertFile c) (KeyFile c)) as [cert | err] eqn:Hload.
  - rewrite (reload_loaded load c cert Hmu Hload). eexists _, _.
    split; [reflexivity |]. cbn. auto.
  - rewrite (reload_failed load c err Hload). eexists _, _.
    split; [reflexivity |]. auto.
Qed.

Lemma ticks_state (loads : list (string -> string -> Certificate + error))
    (c : t) (log : list error) :
  mu c = Unlocked ->
  mu (fst (fold_left tick loads (c, log))) = Unlocked
  /\ certificate (fst (fold_left tick loads (c, log))) = lastLoaded c loads.
Proof.
  revert c log. induction loads as [| load loads IH]; intros c log Hmu.
  - cbn. auto.
  - cbn [fold_left].
    destruct (tick_state load c log Hmu) as (c1 & log1 & -> & Hmu1 & Hcert & Hkey & Hheld).
    destruct (IH c1 log1 Hmu1) as [H1 H2].
    split; [exact H1 |]. rewrite H2. unfold lastLoaded. cbn [fold_left].
    rewrite Hcert, Hkey, Hheld. reflexivity.
Qed.

(** C9: a reload whose key pair fails to load returns the error and leaves
    the manager as it was, so [GetCertificate] still returns the certificate
    held before; a reload assigns the certificate field only after a
    successful load and only while it holds the write lock; and after any
    number of reload cycles [GetCertificate] returns the certificate of the
    last load that succeeded. *)
Theorem failed_reload_keeps_certificate
    (c : t) (load : string -> string -> Certificate + error) :
  (forall err,
     load (CertFile c) (KeyFile c) = inr err ->
     reloadCertificate load c = Some (c, Some err, [])
     /\ (mu c = Unlocked -> GetCertificate c = Some (c, certificate c)))
  /\ (forall c' err seen,
        reloadCertificate load c = Some (c', err, seen) ->
        Forall (fun so =>
                  forall cert, snd so = Assign cert ->
                    mu (fst so) = WriteLocked
                    /\ load (CertFile c) (KeyFile c) = inl cert) seen
        /\ (err <> None -> c' = c))
  /\ (forall loads,
        mu c = Unlocked ->
        GetCertificate (fst (ticks c loads))
        = Some (fst (ticks c loads), lastLoaded c loads)).
Proof.
  split; [| split].
  - intros err Hload. split; [exact (reload_failed load c err Hload) |].
    apply GetCertificate_unlocked.
  - intros c' err seen Hreload.
    destruct (reload_assigns_locked load c c' err seen Hreload) as (H1 & H2 & _). auto.
  - intros loads Hmu. unfold ticks.
    destruct (ticks_state loads c [] Hmu) as [H1 H2].
    rewrite (GetCertificate_unlocked _ H1). rewrite H2. reflexivity.
Qed.

Lemma failed_reload_keeps_certificate_witness :
  (exists c1,
     Start Stub.readableFiles Stub.manager = Some (c1, None)
     /\ reloadCertificate Stub.unreadableFiles c1
        = Some (c1, Some (OtherError "open key.pem: no such file or directory"), [])
     /\ GetCertificate c1 = Some (c1, Some Stub.firstCertificate))
  /\ snd <$> GetCertificate
               (fst (ticks Stub.manager [Stub.readableFiles; Stub.unreadableFiles]))
     = Some (Some Stub.firstCertificate).
Proof.
  split.
  - exists (mk "cert.pem" "key.pem" (Some Stub.firstCertificate) Unlocked).
    split; [reflexivity |].
    destruct (proj1 (failed_reload_keeps_certificate
                       (mk "cert.pem" "key.pem" (Some Stub.firstCertificate) Unlocked)
                       Stub.unreadableFiles)
                (OtherError "open key.pem: no such file or directory") eq_refl)
      as [Hreload Hget].
    split; [exact Hreload | exact (Hget eq_refl)].
  - rewrite (proj2 (proj2 (failed_reload_keeps_certificate Stub.manager Stub.readableFiles))
               [Stub.readableFiles; Stub.unreadableFiles] eq_refl).
    reflexivity.
Defined.

End CertificateFacts.

(** ** More on [compress] and [writeJSON] *)

(** Walk the four comparisons of [compress] for an encoding outside
    [allCompressions]. *)
Ltac outside_allCompressions Hnot :=
  unfold compress;
  repeat match goal with
         | |- context [String.eqb ?a ?b] =>
             destruct (String.eqb_spec a b) as [-> | _];
             [exfalso; apply Hnot; apply (bool_decide_unpack _); vm_compute; exact I |]
         end;
  reflexivity.

Lemma compress_unknown (s : Service) (compression : string) (data : bytes) :
  compression ∉ allCompressions ->
  compress s compression data = inr (OtherError ("unknown compression: " +:+ compression)).
Proof. intros Hnot. outside_allCompressions Hnot. Qed.

(** X1: an encoding that is none of brotli, gzip, deflate and identity is
    an error of [compress], whatever the data and the codecs: the data is
    never passed through. *)
Theorem compress_unknown_encoding (s : Service) (compression : string) (data : bytes) :
  compression ∉ allCompressions ->
  compress s compression data = inr (OtherError ("unknown compression: " +:+ compression)).
Proof.
  intros Hnot. unfold compress.
  destruct (String.eqb_spec compression compressionBrotli) as [-> | _].
  { exfalso. apply Hnot. apply list_elem_of_here. }
  destruct (String.eqb_spec compression compressionGzip) as [-> | _].
  { exfalso. apply Hnot. apply list_elem_of_further, list_elem_of_here. }
  destruct (String.eqb_spec compression compressionDeflate) as [-> | _].
  { exfalso. apply Hnot. do 2 apply list_elem_of_further. apply list_elem_of_here. }
  destruct (String.eqb_spec compression compressionIdentity) as [-> | _].
  { exfalso. apply Hnot. do 3 apply list_elem_of_further. apply list_elem_of_here. }
  reflexivity.
Qed.

Lemma compress_unknown_encoding_witness :
  compress (Stub.service Stub.plainBackend) "zstd" Stub.document
  = inr (OtherError "unknown compression: zstd").
Proof.
  apply (compress_unknown_encoding (Stub.service Stub.plainBackend) "zstd" Stub.document).
  apply (bool_decide_unpack _). vm_compute. exact I.
Defined.

(** X2: in [compress] a failed [Write] decides the result: its error is
    returned whether or not [Close] fails too, for each of the three codecs;
    the error of [Close] is returned only when [Write] succeeded; and data
    comes back only when both succeeded, and then it is the codec's buffer. *)
Theorem compress_write_error_first (s : Service) (data : bytes) :
  let result (r : CodecRun) : bytes + error :=
    match writeErr r, closeErr r with
    | Some err, _ => inr err
    | None, Some err => inr err
    | None, None => inl (output r)
    end in
  compress s compressionBrotli data = result (brotliWriter s data)
  /\ compress s compressionGzip data = result (gzipWriter s data)
  /\ compress s compressionDeflate data
     = match flateNewWriter s with
       | Some err => inr err
       | None => result (flateWriter s data)
       end.
Proof.
  intros result. unfold compress, codecResult, finish, result. cbn.
  repeat split.
  - destruct (writeErr (brotliWriter s data)), (closeErr (brotliWriter s data)); reflexivity.
  - destruct (writeErr (gzipWriter s data)), (closeErr (gzipWriter s data)); reflexivity.
  - destruct (flateNewWriter s); [reflexivity |].
    destruct (writeErr (flateWriter s data)), (closeErr (flateWriter s data)); reflexivity.
Qed.

Lemma writeJSON_after_compress (s : Service) (h : http.Header) (contentEncoding : string)
    (data : Payload s) (metadata : list (string * list string)) (encoded : bytes) :
  MarshalWithoutEscapeHTML s data = inl encoded ->
  minCompressionSize < length encoded ->
  writeJSON s h contentEncoding data metadata
  = match compress s contentEncoding encoded with
    | inr errE => internalServerError h errE
    | inl out =>
        let st := fold_left writeMetadata metadata (h, sha256.Write sha256.New out) in
        mkWriter
          (http.Set_
             (http.Set_
                (http.Add
                   (http.Set_
                      (if negb (String.eqb contentEncoding compressionIdentity)
                       then http.Set_ (http.Set_ (fst st) "Content-Type" "application/json")
                              "Content-Encoding" contentEncoding
                       else http.Set_ (http.Set_ (fst st) "Content-Type" "application/json")
                              "Content-Length" (Itoa (length out)))
                      "Cache-Control" "no-cache")
                   "Vary" "Accept-Encoding")
                "Etag" (etagOf (sha256.Sum (snd st))))
             "X-Content-Type-Options" "nosniff")
          (ServedContent out)
    end.
Proof.
  intros Hmarshal Hlarge. unfold writeJSON. rewrite Hmarshal.
  replace (length encoded <=? minCompressionSize) with false
    by (symmetry; apply Nat.leb_gt; exact Hlarge).
  destruct (compress s contentEncoding encoded); reflexivity.
Qed.

(** X3: a payload of more than 1024 bytes that the negotiated codec
    compresses is served compressed: the content is the codec's output, the
    Content-Encoding header names the encoding, and Content-Length is left
    as the writer found it. *)
Theorem writeJSON_large_compressed (s : Service) (h : http.Header)
    (contentEncoding : string) (data : Payload s)
    (metadata : list (string * list string)) (encoded out : bytes) :
  MarshalWithoutEscapeHTML s data = inl encoded ->
  1024 < length encoded ->
  contentEncoding <> compressionIdentity ->
  compress s contentEncoding encoded = inl out ->
  written (writeJSON s h contentEncoding data metadata) = ServedContent out
  /\ Header (writeJSON s h contentEncoding data metadata) !! "Content-Encoding"
     = Some [contentEncoding]
  /\ Header (writeJSON s h contentEncoding data metadata) !! "Content-Length"
     = h !! "Content-Length".
Proof.
  intros Hmarshal Hlarge Hne Hcompress.
  rewrite (writeJSON_after_compress s h contentEncoding data metadata encoded Hmarshal Hlarge).
  rewrite Hcompress. apply String.eqb_neq in Hne. rewrite Hne. cbn [negb written Header].
  split; [reflexivity |]. split.
  - header_ops. skip_inserts. apply lookup_insert_eq.
  - header_ops. skip_inserts.
    apply (fold_writeMetadata_header metadata h _ _ "C"%char "ontent-Length");
      [reflexivity | discriminate | discriminate].
Qed.

Lemma writeJSON_large_compressed_witness :
  written (writeJSON (Stub.service Stub.plainBackend) ∅ compressionGzip
             (repeat 97%Z 1025) [])
  = ServedContent (2%Z :: repeat 97%Z 1025)
  /\ Header (writeJSON (Stub.service Stub.plainBackend) ∅ compressionGzip
               (repeat 97%Z 1025) []) !! "Content-Encoding" = Some [compressionGzip].
Proof.
  destruct (writeJSON_large_compressed (Stub.service Stub.plainBackend) ∅ compressionGzip
              (repeat 97%Z 1025) [] (repeat 97%Z 1025) (2%Z :: repeat 97%Z 1025))
    as (Hserved & Hencoding & _).
  - reflexivity.
  - rewrite repeat_length. lia.
  - discriminate.
  - reflexivity.
  - split; [exact Hserved | exact Hencoding].
Defined.

(** X4: an encoding [compress] does not know is only found out on a payload
    of more than 1024 bytes, which gets a 500; at or below the threshold the
    same call serves the payload uncompressed. *)
Theorem writeJSON_unknown_encoding (s : Service) (h : http.Header)
    (contentEncoding : string) (data : Payload s)
    (metadata : list (string * list string)) (encoded : bytes) :
  contentEncoding ∉ allCompressions ->
  MarshalWithoutEscapeHTML s data = inl encoded ->
  (1024 < length encoded ->
   writeJSON s h contentEncoding data metadata
   = httpx.Error h "500 internal server error" http.StatusInternalServerError)
  /\ (length encoded <= 1024 ->
      written (writeJSON s h contentEncoding data metadata) = ServedContent encoded).
Proof.
  intros Hunknown Hmarshal. split.
  - intros Hlarge.
    rewrite (writeJSON_after_compress s h contentEncoding data metadata encoded Hmarshal Hlarge).
    rewrite (compress_unknown s contentEncoding encoded Hunknown). reflexivity.
  - intros Hsmall. unfold writeJSON. rewrite Hmarshal.
    replace (length encoded <=? minCompressionSize) with true
      by (symmetry; apply Nat.leb_le; exact Hsmall).
    rewrite compress_identity. reflexivity.
Qed.

Lemma writeJSON_unknown_encoding_witness :
  writeJSON (Stub.service Stub.plainBackend) ∅ "zstd" (repeat 97%Z 1025) []
  = httpx.Error ∅ "500 internal server error" http.StatusInternalServerError
  /\ written (writeJSON (Stub.service Stub.plainBackend) ∅ "zstd" Stub.document [])
     = ServedContent Stub.document.
Proof.
  assert (Hzstd : "zstd"%string ∉ allCompressions)
    by (apply (bool_decide_unpack _); vm_compute; exact I).
  split.
  - apply (proj1 (writeJSON_unknown_encoding (Stub.service Stub.plainBackend) ∅ "zstd"
                    (repeat 97%Z 1025) [] (repeat 97%Z 1025) Hzstd eq_refl)).
    rewrite repeat_length. lia.
  - apply (proj2 (writeJSON_unknown_encoding (Stub.service Stub.plainBackend) ∅ "zstd"
                    Stub.document [] Stub.document Hzstd eq_refl)).
    vm_compute. lia.
Defined.

(** A run of [writeJSON] that serves nothing is the error helper on the
    header as found. *)
Lemma writeJSON_not_served (s : Service) (h : http.Header) (contentEncoding : string)
    (data : Payload s) (metadata : list (string * list string)) :
  (forall content,
     written (writeJSON s h contentEncoding data metadata) <> ServedContent content) ->
  exists err, writeJSON s h contentEncoding data metadata = internalServerError h err.
Proof.
  unfold writeJSON.
  destruct (MarshalWithoutEscapeHTML s data) as [encoded | err]; [| eauto].
  destruct (compress s _ encoded) as [out | err]; [| eauto].
  cbn [written]. intros Hnot. exfalso. exact (Hnot out eq_refl).
Qed.

Lemma internalServerError_header (h : http.Header) (err : error) (k : string) :
  k <> "Content-Type"%string -> k <> "X-Content-Type-Options"%string ->
  Header (internalServerError h err) !! k = h !! k.
Proof.
  intros H1 H2. destruct err; cbn [internalServerError Header]; try reflexivity;
    unfold httpx.Error; cbn [Header]; header_ops;
    rewrite !lookup_insert_ne by congruence; reflexivity.
Qed.

(** X5: when [writeJSON] serves no content (the payload does not marshal,
    or the codec fails) it has written none of its own headers: no ETag, no
    cache policy, no metadata header; the response is a plain 500, or
    nothing at all when the request was cancelled or timed out. *)
Theorem writeJSON_failure_sets_nothing (s : Service) (h : http.Header)
    (contentEncoding : string) (data : Payload s)
    (metadata : list (string * list string)) :
  (forall content,
     written (writeJSON s h contentEncoding data metadata) <> ServedContent content) ->
  (written (writeJSON s h contentEncoding data metadata) = NotWritten
   /\ Header (writeJSON s h contentEncoding data metadata) = h
   \/ written (writeJSON s h contentEncoding data metadata)
      = WroteError 500 "500 internal server error")
  /\ forall k, k <> "Content-Type"%string -> k <> "X-Content-Type-Options"%string ->
       Header (writeJSON s h contentEncoding data metadata) !! k = h !! k.
Proof.
  intros Hnot.
  destruct (writeJSON_not_served s h contentEncoding data metadata Hnot) as [err ->].
  split.
  - destruct err; cbn; auto.
  - intros k. apply internalServerError_header.
Qed.

Lemma writeJSON_failure_sets_nothing_witness :
  Header (writeJSON (Stub.service Stub.plainBackend) (http.Set_ ∅ "Vary" "Accept") "zstd"
            (repeat 97%Z 1025) [("total", ["12"])]%string) !! "Etag" = None.
Proof.
  rewrite (proj2 (writeJSON_failure_sets_nothing (Stub.service Stub.plainBackend)
                    (http.Set_ ∅ "Vary" "Accept") "zstd" (repeat 97%Z 1025)
                    [("total", ["12"])]%string
                    ltac:(intros content; vm_compute; discriminate))
             "Etag"%string ltac:(discriminate) ltac:(discriminate)).
  reflexivity.
Defined.

(** The header map [writeJSON] hands over with the content. *)
Lemma writeJSON_served_header (s : Service) (h : http.Header) (contentEncoding : string)
    (data : Payload s) (metadata : list (string * list string)) (content : bytes) :
  written (writeJSON s h contentEncoding data metadata) = ServedContent content ->
  exists (h1 : http.Header) (d : sha256.digest) (viaLength : bool) (v etag : string),
    Header (writeJSON s h contentEncoding data metadata)
    = http.Set_
        (http.Set_
           (http.Add
              (http.Set_
                 (http.Set_ (http.Set_ (fst (fold_left writeMetadata metadata (h, d)))
                                       "Content-Type" "application/json")
                            (if viaLength then "Content-Length" else "Content-Encoding") v)
                 "Cache-Control" "no-cache")
              "Vary" "Accept-Encoding")
           "Etag" etag)
        "X-Content-Type-Options" "nosniff".
Proof.
  unfold writeJSON.
  destruct (MarshalWithoutEscapeHTML s data) as [encoded | err].
  2: { destruct err; discriminate. }
  destruct (compress s _ encoded) as [out | err].
  2: { destruct err; discriminate. }
  intros _. cbn [Header]. exists h.
  destruct (negb (String.eqb _ compressionIdentity)).
  - eexists _, false, _, _. reflexivity.
  - eexists _, true, _, _. reflexivity.
Qed.

(** X6: every response [writeJSON] serves is JSON, must be revalidated,
    must not be sniffed, and varies by Accept-Encoding in addition to
    whatever the Vary header already listed; no metadata entry can displace
    these headers. *)
Theorem writeJSON_fixed_headers (s : Service) (h : http.Header)
    (contentEncoding : string) (data : Payload s)
    (metadata : list (string * list string)) (content : bytes) :
  written (writeJSON s h contentEncoding data metadata) = ServedContent content ->
  let w := writeJSON s h contentEncoding data metadata in
  Header w !! "Content-Type" = Some ["application/json"%string]
  /\ Header w !! "Cache-Control" = Some ["no-cache"%string]
  /\ Header w !! "X-Content-Type-Options" = Some ["nosniff"%string]
  /\ Header w !! "Vary" = Some (default [] (h !! "Vary") ++ ["Accept-Encoding"%string]).
Proof.
  intros Hserved w. unfold w.
  destruct (writeJSON_served_header s h contentEncoding data metadata content Hserved)
    as (h1 & d & viaLength & v & etag & ->).
  repeat split.
  - header_ops. skip_inserts. destruct viaLength; autorewrite with canon;
      skip_inserts; apply lookup_insert_eq.
  - header_ops. skip_inserts. apply lookup_insert_eq.
  - header_ops. apply lookup_insert_eq.
  - header_ops. skip_inserts. rewrite lookup_insert_eq. do 3 f_equal. skip_inserts.
    destruct viaLength; autorewrite with canon; skip_inserts;
      apply (fold_writeMetadata_header metadata h _ _ "V"%char "ary");
      reflexivity || discriminate.
Qed.

Lemma writeJSON_fixed_headers_witness :
  Header (writeJSON (Stub.service Stub.plainBackend) (http.Set_ ∅ "Vary" "Accept")
            compressionGzip Stub.document [("vary", ["x"])]%string) !! "Vary"
  = Some ["Accept"; "Accept-Encoding"]%string.
Proof.
  destruct (writeJSON_fixed_headers (Stub.service Stub.plainBackend)
              (http.Set_ ∅ "Vary" "Accept") compressionGzip Stub.document
              [("vary", ["x"])]%string Stub.document) as (_ & _ & _ & Hvary).
  - vm_compute. reflexivity.
  - exact Hvary.
Defined.

Lemma metadata_key_other (key k : string) (c : ascii) (rest : string) :
  k = String c rest -> c <> "P"%char -> c <> "p"%char ->
  k <> textproto.CanonicalMIMEHeaderKey (peerDBMetadataHeaderPrefix +:+ key).
Proof.
  intros Hk HP Hp Heq. symmetry in Heq. revert Heq.
  exact (metadata_key_not key k c rest Hk HP Hp).
Qed.

Lemma fold_writeMetadata_untouched (metadata : list (string * list string))
    (h : http.Header) (d : sha256.digest) (k : string) :
  Forall (fun e => textproto.CanonicalMIMEHeaderKey (peerDBMetadataHeaderPrefix +:+ fst e)
                   <> k) metadata ->
  fst (fold_left writeMetadata metadata (h, d)) !! k = h !! k.
Proof.
  intros Hall. revert h d.
  induction Hall as [| [key value] metadata Hne Hall IH]; intros h d; [reflexivity |].
  cbn [fold_left]. unfold writeMetadata at 2. cbn [fst snd]. rewrite IH.
  apply lookup_insert_ne. exact Hne.
Qed.

Lemma fold_writeMetadata_last (pre post : list (string * list string))
    (key : string) (value : list string) (h : http.Header) (d : sha256.digest) :
  let k := textproto.CanonicalMIMEHeaderKey (peerDBMetadataHeaderPrefix +:+ key) in
  Forall (fun e => textproto.CanonicalMIMEHeaderKey (peerDBMetadataHeaderPrefix +:+ fst e)
                   <> k) post ->
  fst (fold_left writeMetadata (pre ++ (key, value) :: post) (h, d)) !! k = Some value.
Proof.
  intros k Hpost. rewrite fold_left_app. cbn [fold_left].
  destruct (fold_left writeMetadata pre (h, d)) as [h1 d1].
  unfold writeMetadata at 2. cbn [fst snd].
  rewrite (fold_writeMetadata_untouched post _ _ k Hpost). apply lookup_insert_eq.
Qed.

(** X7: [writeJSON] sends each metadata entry as a header under the
    canonical form of its key behind the [peerdb-] prefix, with all its
    values; when two keys have the same canonical form, the one visited
    last is the one sent. *)
Theorem writeJSON_metadata_headers (s : Service) (h : http.Header)
    (contentEncoding : string) (data : Payload s)
    (pre post : list (string * list string)) (key : string) (value : list string)
    (content : bytes) :
  let k := textproto.CanonicalMIMEHeaderKey (peerDBMetadataHeaderPrefix +:+ key) in
  written (writeJSON s h contentEncoding data (pre ++ (key, value) :: post))
  = ServedContent content ->
  Forall (fun e => textproto.CanonicalMIMEHeaderKey (peerDBMetadataHeaderPrefix +:+ fst e)
                   <> k) post ->
  Header (writeJSON s h contentEncoding data (pre ++ (key, value) :: post)) !! k
  = Some value.
Proof.
  intros k Hserved Hpost.
  destruct (writeJSON_served_header s h contentEncoding data _ content Hserved)
    as (h1 & d & viaLength & v & etag & ->).
  header_ops. fold k.
  rewrite !lookup_insert_ne
    by (apply (metadata_key_other key _ _ _ eq_refl); discriminate).
  destruct viaLength; autorewrite with canon;
    rewrite !lookup_insert_ne
      by (apply (metadata_key_other key _ _ _ eq_refl); discriminate);
    apply (fold_writeMetadata_last pre post key value h d Hpost).
Qed.

Lemma writeJSON_metadata_headers_witness :
  Header (writeJSON (Stub.service Stub.plainBackend) ∅ compressionIdentity Stub.document
            [("Total", ["1"]); ("total", ["12"; "more"]); ("other", ["x"])]%string)
    !! "Peerdb-Total" = Some ["12"; "more"]%string.
Proof.
  apply (writeJSON_metadata_headers (Stub.service Stub.plainBackend) ∅ compressionIdentity
           Stub.document [("Total", ["1"])]%string [("other", ["x"])]%string
           "total" ["12"; "more"]%string Stub.document).
  - vm_compute. reflexivity.
  - repeat constructor. vm_compute. discriminate.
Defined.

(** ** Static files *)

(** The encoding, data and ETag [staticFile] ends up with. *)
Lemma staticFile_served (s : Service) (h : http.Header) (req : Request) (path : string)
    (immutable : bool) (encoding etag : string) (data : bytes) :
  let negotiated := gddo.NegotiateContentEncoding (AcceptEncoding req) allCompressions in
  negotiated <> ""%string ->
  (exists variant,
     lookup2 (compressedFiles s) negotiated path = Some variant
     /\ if (length variant <=? minCompressionSize)%nat
        then encoding = compressionIdentity
             /\ lookup2 (compressedFiles s) compressionIdentity path = Some data
        else encoding = negotiated /\ variant = data) ->
  lookup2 (compressedFilesEtags s) encoding path = Some etag ->
  contentTypeOf s path <> ""%string ->
  staticFile s h req path immutable
  = mkWriter
      (http.Set_
         (http.Set_
            (http.Add
               (http.Set_
                  (if negb (String.eqb encoding compressionIdentity)
                   then http.Set_ (http.Set_ h "Content-Type" (contentTypeOf s path))
                          "Content-Encoding" encoding
                   else http.Set_ (http.Set_ h "Content-Type" (contentTypeOf s path))
                          "Content-Length" (Itoa (length data)))
                  "Cache-Control"
                  (if immutable
                   then "public,max-age=31536000,immutable,stale-while-revalidate=86400"
                   else "no-cache"))
               "Vary" "Accept-Encoding")
            "Etag" etag)
         "X-Content-Type-Options" "nosniff")
      (ServedContent data).
Proof.
  intros negotiated Hsome (variant & Hvariant & Hfinal) Hetag Htype.
  unfold staticFile. fold negotiated.
  apply String.eqb_neq in Hsome. rewrite Hsome. rewrite Hvariant. cbv zeta.
  apply String.eqb_neq in Htype.
  destruct (length variant <=? minCompressionSize)%nat.
  - destruct Hfinal as [-> Hplain]. rewrite Hplain, Hetag, Htype.
    destruct immutable; reflexivity.
  - destruct Hfinal as [-> ->]. rewrite Hetag, Htype.
    destruct immutable; reflexivity.
Qed.

(** X8: when the variant of a file in the negotiated encoding is at most
    1024 bytes, [staticFile] serves the identity variant instead, whatever
    its size, with the identity variant's ETag and length and without a
    Content-Encoding of its own. *)
Theorem staticFile_small_variant (s : Service) (h : http.Header) (req : Request)
    (path : string) (immutable : bool) (variant plain : bytes) (etag : string) :
  let negotiated := gddo.NegotiateContentEncoding (AcceptEncoding req) allCompressions in
  negotiated <> ""%string ->
  lookup2 (compressedFiles s) negotiated path = Some variant ->
  length variant <= 1024 ->
  lookup2 (compressedFiles s) compressionIdentity path = Some plain ->
  lookup2 (compressedFilesEtags s) compressionIdentity path = Some etag ->
  contentTypeOf s path <> ""%string ->
  written (staticFile s h req path immutable) = ServedContent plain
  /\ Header (staticFile s h req path immutable) !! "Etag" = Some [etag]
  /\ Header (staticFile s h req path immutable) !! "Content-Length"
     = Some [Itoa (length plain)]
  /\ Header (staticFile s h req path immutable) !! "Content-Encoding"
     = h !! "Content-Encoding".
Proof.
  intros negotiated Hsome Hvariant Hsmall Hplain Hetag Htype.
  rewrite (staticFile_served s h req path immutable compressionIdentity etag plain
             Hsome); [| | exact Hetag | exact Htype].
  2: { exists variant. split; [exact Hvariant |].
       replace (length variant <=? minCompressionSize)%nat with true
         by (symmetry; apply Nat.leb_le; exact Hsmall).
       auto. }
  cbn [written Header negb]. rewrite String.eqb_refl. cbn [negb].
  repeat split; header_ops; skip_inserts; try apply lookup_insert_eq. reflexivity.
Qed.

(** X9: when the variant in the negotiated encoding is larger than 1024
    bytes it is served as stored, with the ETag stored for that encoding;
    a negotiated encoding other than identity is named in Content-Encoding;
    the cache policy is the long-lived immutable one exactly when the
    caller asks for it, and [no-cache] otherwise. *)
Theorem staticFile_large_variant (s : Service) (h : http.Header) (req : Request)
    (path : string) (immutable : bool) (variant : bytes) (etag : string) :
  let negotiated := gddo.NegotiateContentEncoding (AcceptEncoding req) allCompressions in
  negotiated <> ""%string ->
  lookup2 (compressedFiles s) negotiated path = Some variant ->
  1024 < length variant ->
  lookup2 (compressedFilesEtags s) negotiated path = Some etag ->
  contentTypeOf s path <> ""%string ->
  written (staticFile s h req path immutable) = ServedContent variant
  /\ Header (staticFile s h req path immutable) !! "Etag" = Some [etag]
  /\ (negotiated <> compressionIdentity ->
      Header (staticFile s h req path immutable) !! "Content-Encoding"
      = Some [negotiated])
  /\ Header (staticFile s h req path immutable) !! "Cache-Control"
     = Some [if immutable
             then "public,max-age=31536000,immutable,stale-while-revalidate=86400"
             else "no-cache"]%string.
Proof.
  intros negotiated Hsome Hvariant Hlarge Hetag Htype.
  rewrite (staticFile_served s h req path immutable negotiated etag variant
             Hsome); [| | exact Hetag | exact Htype].
  2: { exists variant. split; [exact Hvariant |].
       replace (length variant <=? minCompressionSize)%nat with false
         by (symmetry; apply Nat.leb_gt; exact Hlarge).
       auto. }
  cbn [written Header]. split; [reflexivity |]. split; [| split].
  - header_ops. skip_inserts. apply lookup_insert_eq.
  - intros Hne. apply String.eqb_neq in Hne. rewrite Hne. cbn [negb].
    header_ops. skip_inserts. apply lookup_insert_eq.
  - header_ops. skip_inserts. apply lookup_insert_eq.
Qed.

Lemma staticFile_small_variant_witness :
  written (staticFile StubFiles.service ∅ (StubFiles.gzipRequest "/icon.svg")
             "/icon.svg" true) = ServedContent StubFiles.iconPlain
  /\ Header (staticFile StubFiles.service ∅ (StubFiles.gzipRequest "/icon.svg")
               "/icon.svg" true) !! "Etag" = Some [quoted "icon-identity"]
  /\ Header (staticFile StubFiles.service ∅ (StubFiles.gzipRequest "/icon.svg")
               "/icon.svg" true) !! "Content-Length" = Some ["1100"%string].
Proof.
  destruct (staticFile_small_variant StubFiles.service ∅ (StubFiles.gzipRequest "/icon.svg")
              "/icon.svg" true StubFiles.iconGzip StubFiles.iconPlain
              (quoted "icon-identity")) as (H1 & H2 & H3 & _).
  - vm_compute. discriminate.
  - vm_compute. reflexivity.
  - unfold StubFiles.iconGzip. rewrite repeat_length. lia.
  - vm_compute. reflexivity.
  - vm_compute. reflexivity.
  - vm_compute. discriminate.
  - split; [exact H1 |]. split; [exact H2 |]. rewrite H3. vm_compute. reflexivity.
Defined.

Lemma staticFile_large_variant_witness :
  written (staticFile StubFiles.service ∅ (StubFiles.gzipRequest "/app.js")
             "/app.js" true) = ServedContent StubFiles.appGzip
  /\ Header (staticFile StubFiles.service ∅ (StubFiles.gzipRequest "/app.js")
               "/app.js" true) !! "Etag" = Some [quoted "app-gzip"]
  /\ Header (staticFile StubFiles.service ∅ (StubFiles.gzipRequest "/app.js")
               "/app.js" true) !! "Content-Encoding" = Some [compressionGzip].
Proof.
  destruct (staticFile_large_variant StubFiles.service ∅ (StubFiles.gzipRequest "/app.js")
              "/app.js" true StubFiles.appGzip (quoted "app-gzip")) as (H1 & H2 & H3 & _).
  - vm_compute. discriminate.
  - vm_compute. reflexivity.
  - unfold StubFiles.appGzip. rewrite repeat_length. lia.
  - vm_compute. reflexivity.
  - vm_compute. discriminate.
  - split; [exact H1 |]. split; [exact H2 |]. apply H3. vm_compute. discriminate.
Defined.

Lemma negotiated_all (specs : list header.AcceptSpec) :
  gddo.NegotiateContentEncoding specs allCompressions = ""%string
  \/ gddo.NegotiateContentEncoding specs allCompressions ∈ allCompressions.
Proof.
  destruct (NegotiateContentEncoding_among specs allCompressions) as [H | [H | H]]; auto.
  right. rewrite H. do 3 apply list_elem_of_further. apply list_elem_of_here.
Qed.

(** X10: whatever the tables hold, [staticFile] either serves bytes that
    [compressedFiles] stores for the path under one of the four encodings,
    together with the ETag that [compressedFilesEtags] stores for the path
    under that same encoding, or it answers 406 or 500; it never pairs the
    bytes of one encoding with the ETag of another. *)
Theorem staticFile_outcomes (s : Service) (h : http.Header) (req : Request)
    (path : string) (immutable : bool) :
  (exists encoding content etag,
     encoding ∈ allCompressions
     /\ lookup2 (compressedFiles s) encoding path = Some content
     /\ lookup2 (compressedFilesEtags s) encoding path = Some etag
     /\ written (staticFile s h req path immutable) = ServedContent content
     /\ Header (staticFile s h req path immutable) !! "Etag" = Some [etag])
  \/ staticFile s h req path immutable
     = httpx.Error h "406 not acceptable" http.StatusNotAcceptable
  \/ staticFile s h req path immutable
     = httpx.Error h "500 internal server error" http.StatusInternalServerError.
Proof.
  pose proof (negotiated_all (AcceptEncoding req)) as Hnegotiated.
  unfold staticFile.
  set (negotiated := gddo.NegotiateContentEncoding (AcceptEncoding req) allCompressions) in *.
  destruct (String.eqb_spec negotiated "") as [Hnone | Hsome]; [auto |].
  destruct Hnegotiated as [Hnone | Hin]; [contradiction |].
  destruct (lookup2 (compressedFiles s) negotiated path) as [variant |] eqn:Hvariant;
    [| right; right; reflexivity].
  cbv zeta.
  set (encoding := if (length variant <=? minCompressionSize)%nat
                   then compressionIdentity else negotiated).
  assert (Hencoding : encoding ∈ allCompressions).
  { unfold encoding. destruct (_ <=? _)%nat; [| exact Hin].
    do 3 apply list_elem_of_further. apply list_elem_of_here. }
  destruct (if (length variant <=? minCompressionSize)%nat
            then lookup2 (compressedFiles s) encoding path else Some variant)
    as [data |] eqn:Hdata; [| right; right; reflexivity].
  assert (Hstored : lookup2 (compressedFiles s) encoding path = Some data).
  { unfold encoding in *. destruct (_ <=? _)%nat; [exact Hdata |]. congruence. }
  destruct (lookup2 (compressedFilesEtags s) encoding path) as [etag |] eqn:Hetag;
    [| right; right; reflexivity].
  destruct (String.eqb (contentTypeOf s path) ""); [right; right; reflexivity |].
  left. exists encoding, data, etag. repeat split; try assumption.
  cbn [Header]. header_ops. skip_inserts. apply lookup_insert_eq.
Qed.

(** ** More on the document handlers *)





(** X13: once the existence check is made, the page depends on its answer
    alone: a not-found answer gives the 404 page, a cancelled or timed-out
    call gives no response at all, any other error a 500, and success gives
    the frontend: the development proxy when one is configured, and
    otherwise [/index.html] served with the [no-cache] policy. *)
Theorem DocumentGetGetHTML_page (s : Service) (h : http.Header) (req : Request) :
  identifier.Valid (id_param req) = true ->
  Has (Form req) "s" = false -> Has (Form req) "q" = false ->
  response (DocumentGetGetHTML s h req)
  = match ESClient s (headCall req) with
    | inr NotFoundError => httpx.Error h "404 page not found" http.StatusNotFound
    | inr Canceled | inr DeadlineExceeded => mkWriter h NotWritten
    | inr (OtherError _) =>
        httpx.Error h "500 internal server error" http.StatusInternalServerError
    | inl _ =>
        if String.eqb (Development s) "" then staticFile s h req "/index.html" false
        else mkWriter h Proxied
    end.
Proof.
  intros Hvalid Hs Hq. unfold DocumentGetGetHTML. rewrite Hvalid, Hs, Hq. cbn [negb orb].
  unfold serveDocumentPage, PerformRequest. fold (headCall req).
  destruct (ESClient s (headCall req)) as [resp | err]; cbn.
  - destruct (String.eqb (Development s) ""); reflexivity.
  - destruct err; reflexivity.
Qed.

Lemma DocumentGetGetHTML_page_witness :
  written (response (DocumentGetGetHTML StubFiles.service ∅
                       (mkRequest Stub.validID [] ∅ "/d" "req-4")))
  = ServedContent StubFiles.indexPlain
  /\ Header (response (DocumentGetGetHTML StubFiles.service ∅
                         (mkRequest Stub.validID [] ∅ "/d" "req-4"))) !! "Cache-Control"
     = Some ["no-cache"%string].
Proof.
  rewrite (DocumentGetGetHTML_page StubFiles.service ∅
             (mkRequest Stub.validID [] ∅ "/d" "req-4")
             ltac:(vm_compute; reflexivity) eq_refl eq_refl).
  vm_compute. split; reflexivity.
Defined.

(** X14: for a valid identifier and a negotiable encoding,
    [DocumentGetGetJSON] makes exactly one call, a GET of the document
    source, and when that call fails the answer depends on the error alone:
    not found gives the 404 page, a cancelled or timed-out call no response
    at all, any other error a 500; none of them carries an ETag or a cache
    policy of the handler. *)
Theorem DocumentGetGetJSON_backend_errors (s : Service) (h : http.Header) (req : Request)
    (err : error) :
  gddo.NegotiateContentEncoding (AcceptEncoding req) documentEncodings <> ""%string ->
  identifier.Valid (id_param req) = true ->
  ESClient s (sourceCall req) = inr err ->
  DocumentGetGetJSON s h req
  = mkExchange
      match err with
      | NotFoundError => httpx.Error h "404 page not found" http.StatusNotFound
      | Canceled | DeadlineExceeded => mkWriter h NotWritten
      | OtherError _ =>
          httpx.Error h "500 internal server error" http.StatusInternalServerError
      end
      [sourceCall req]
  /\ Header (response (DocumentGetGetJSON s h req)) !! "Etag" = h !! "Etag"
  /\ Header (response (DocumentGetGetJSON s h req)) !! "Cache-Control"
     = h !! "Cache-Control".
Proof.
  intros Hsome Hvalid Herr.
  assert (Hrun : DocumentGetGetJSON s h req
                 = mkExchange
                     match err with
                     | NotFoundError => httpx.Error h "404 page not found" http.StatusNotFound
                     | Canceled | DeadlineExceeded => mkWriter h NotWritten
                     | OtherError _ =>
                         httpx.Error h "500 internal server error"
                           http.StatusInternalServerError
                     end
                     [sourceCall req]).
  { unfold DocumentGetGetJSON. apply eqb_empty in Hsome. rewrite Hsome, Hvalid.
    cbn [negb]. unfold PerformRequest. fold (sourceCall req). rewrite Herr.
    destruct err; reflexivity. }
  rewrite Hrun. split; [reflexivity |].
  split; destruct err; cbn [response Header]; try reflexivity;
    unfold httpx.Error; cbn [Header]; header_ops; skip_inserts; try reflexivity.
Qed.

Lemma DocumentGetGetJSON_backend_errors_witness :
  DocumentGetGetJSON (Stub.service (fun _ => inr NotFoundError)) ∅
    (Stub.request Stub.validID [])
  = mkExchange (httpx.Error ∅ "404 page not found" http.StatusNotFound)
               [sourceCall (Stub.request Stub.validID [])].
Proof.
  apply (DocumentGetGetJSON_backend_errors (Stub.service (fun _ => inr NotFoundError)) ∅
           (Stub.request Stub.validID []) NotFoundError).
  - vm_compute. discriminate.
  - vm_compute. reflexivity.
  - reflexivity.
Defined.

Lemma canonical_accept_ranges :
  textproto.CanonicalMIMEHeaderKey "Accept-Ranges" = "Accept-Ranges"%string.
Proof. reflexivity. Qed.

(** Reading a header is not affected by setting or adding to another. *)
Lemma Get_Set_other (h : http.Header) (key value k : string) :
  textproto.CanonicalMIMEHeaderKey key <> textproto.CanonicalMIMEHeaderKey k ->
  http.Get (http.Set_ h key value) k = http.Get h k.
Proof. intros Hne. unfold http.Get, http.Set_. rewrite lookup_insert_ne by exact Hne. reflexivity. Qed.

Lemma Get_Add_other (h : http.Header) (key value k : string) :
  textproto.CanonicalMIMEHeaderKey key <> textproto.CanonicalMIMEHeaderKey k ->
  http.Get (http.Add h key value) k = http.Get h k.
Proof. intros Hne. unfold http.Get, http.Add. rewrite lookup_insert_ne by exact Hne. reflexivity. Qed.

Lemma Get_Set_same (h : http.Header) (key value : string) :
  http.Get (http.Set_ h key value) key = value.
Proof. unfold http.Get, http.Set_. rewrite lookup_insert_eq. reflexivity. Qed.

Ltac other_keys :=
  repeat first [rewrite Get_Set_other by (cbv; discriminate)
               | rewrite Get_Add_other by (cbv; discriminate)].

Ltac sent_lookup :=
  header_ops; rewrite ?canonical_accept_ranges; skip_inserts.

(** X15: a served JSON document goes out with the backend's Content-Type
    and with [Cache-Control: no-cache]. Under the identity encoding the
    handler copies the backend's Content-Length header, and
    [http.ServeContent] then overwrites it with the size of the body when
    the writer carries no Content-Encoding; under gzip and deflate the
    negotiated Content-Encoding goes out and neither the handler nor
    [http.ServeContent] sets a Content-Length. *)
Theorem DocumentGetGetJSON_relays_headers (s : Service) (h : http.Header) (req : Request)
    (resp : elastic.Response) :
  gddo.NegotiateContentEncoding (AcceptEncoding req) documentEncodings <> ""%string ->
  identifier.Valid (id_param req) = true ->
  ESClient s (sourceCall req) = inl resp ->
  let w := response (DocumentGetGetJSON s h req) in
  let negotiated := gddo.NegotiateContentEncoding (AcceptEncoding req) documentEncodings in
  written w = ServedContent (elastic.Body resp)
  /\ httpx.sent w !! "Content-Type"
     = Some [http.Get (elastic.ResponseHeader resp) "Content-Type"]
  /\ httpx.sent w !! "Cache-Control" = Some ["no-cache"%string]
  /\ httpx.sent w !! "Vary" = Some (default [] (h !! "Vary") ++ ["Accept-Encoding"%string])
  /\ (negotiated = compressionIdentity ->
      Header w !! "Content-Length"
      = Some [http.Get (elastic.ResponseHeader resp) "Content-Length"]
      /\ (http.Get h "Content-Encoding" = ""%string ->
          httpx.sent w !! "Content-Length" = Some [Itoa (length (elastic.Body resp))]))
  /\ (negotiated <> compressionIdentity ->
      httpx.sent w !! "Content-Encoding" = Some [negotiated]
      /\ httpx.sent w !! "Content-Length" = h !! "Content-Length").
Proof.
  intros Hsome Hvalid Hresp. cbv zeta.
  unfold DocumentGetGetJSON. pose proof Hsome as Hne. apply eqb_empty in Hsome.
  rewrite Hsome, Hvalid.
  cbn [negb]. unfold PerformRequest. fold (sourceCall req). rewrite Hresp.
  cbn [response written Header]. split; [reflexivity |].
  unfold httpx.sent, httpx.ServeContent. cbn [written Header].
  set (negotiated := gddo.NegotiateContentEncoding (AcceptEncoding req) documentEncodings) in *.
  set (backend := elastic.ResponseHeader resp).
  destruct (String.eqb_spec negotiated compressionIdentity) as [Hid | Hnid]; cbn [negb].
  - other_keys.
    destruct (String.eqb (http.Get h "Content-Encoding") "") eqn:Hce.
    + split; [sent_lookup; apply lookup_insert_eq |].
      split; [sent_lookup; apply lookup_insert_eq |].
      split; [sent_lookup; rewrite lookup_insert_eq; skip_inserts; reflexivity |].
      split; [| intros Hnot; contradiction].
      intros _. split; [sent_lookup; apply lookup_insert_eq |].
      intros _. sent_lookup. apply lookup_insert_eq.
    + split; [sent_lookup; apply lookup_insert_eq |].
      split; [sent_lookup; apply lookup_insert_eq |].
      split; [sent_lookup; rewrite lookup_insert_eq; skip_inserts; reflexivity |].
      split; [| intros Hnot; contradiction].
      intros _. split; [sent_lookup; apply lookup_insert_eq |].
      intros Hempty. rewrite Hempty in Hce. discriminate.
  - other_keys. rewrite Get_Set_same. rewrite Hsome.
    split; [sent_lookup; apply lookup_insert_eq |].
    split; [sent_lookup; apply lookup_insert_eq |].
    split; [sent_lookup; rewrite lookup_insert_eq; skip_inserts; reflexivity |].
    split; [intros Hid; contradiction |].
    intros _. split; [sent_lookup; apply lookup_insert_eq |].
    sent_lookup. reflexivity.
Qed.

Lemma DocumentGetGetJSON_relays_headers_witness :
  let backend := fun _ : elastic.PerformRequestOptions =>
    inl (elastic.mkResponse (Stub.jsonHeader "9") Stub.document) : elastic.Response + error in
  let w := response (DocumentGetGetJSON (Stub.service backend) ∅
                       (Stub.request Stub.validID [])) in
  Header w !! "Content-Length" = Some ["9"%string]
  /\ httpx.sent w !! "Content-Length" = Some ["7"%string]
  /\ httpx.sent w !! "Content-Type" = Some ["application/json"%string].
Proof.
  destruct (DocumentGetGetJSON_relays_headers
              (Stub.service (fun _ => inl (elastic.mkResponse (Stub.jsonHeader "9")
                                             Stub.document)))
              ∅ (Stub.request Stub.validID [])
              (elastic.mkResponse (Stub.jsonHeader "9") Stub.document))
    as (_ & Htype & _ & _ & Hidentity & _).
  - vm_compute. discriminate.
  - vm_compute. reflexivity.
  - reflexivity.
  - destruct Hidentity as [Hcopied Hsent]; [vm_compute; reflexivity |].
    cbv zeta. split; [exact Hcopied |]. split; [apply Hsent; reflexivity | exact Htype].
Defined.

(** ** More on the property bootstrap *)

Lemma string_chars_chars (l : list ascii) : string_chars (chars_string l) = l.
Proof. induction l as [| c l IH]; [reflexivity |]. cbn. rewrite IH. reflexivity. Qed.

Lemma to_upper_not_lower (c : ascii) : textproto.is_lower (textproto.to_upper c) = false.
Proof. destruct c as [[] [] [] [] [] [] [] []]; reflexivity. Qed.

Lemma to_upper_fixed (c : ascii) :
  textproto.is_lower c = false -> textproto.to_upper c = c.
Proof. intros H. unfold textproto.to_upper. rewrite H. reflexivity. Qed.

Lemma replace_space_chars (l : list ascii) :
  Forall (fun c => textproto.is_lower c = false) l ->
  Forall (fun c => c <> " "%char /\ textproto.is_lower c = false)
         (replace_char " "%char ["_"%char] l).
Proof.
  induction 1 as [| c l Hc Hl IH]; [constructor |].
  cbn [replace_char]. destruct (Ascii.eqb_spec c " "%char) as [-> | Hne]; cbn [app].
  - constructor; [split; [discriminate | reflexivity] | exact IH].
  - constructor; [split; assumption | exact IH].
Qed.

Lemma replace_quote_chars (l : list ascii) :
  Forall (fun c => c <> " "%char /\ textproto.is_lower c = false) l ->
  Forall mnemonicChar (replace_char "034"%char [] l).
Proof.
  induction 1 as [| c l [Hspace Hlower] Hl IH]; [constructor |].
  cbn [replace_char]. destruct (Ascii.eqb_spec c "034"%char) as [-> | Hne]; cbn [app].
  - exact IH.
  - constructor; [repeat split; assumption | exact IH].
Qed.

Lemma replace_char_absent (c : ascii) (by_ l : list ascii) :
  Forall (fun x => x <> c) l -> replace_char c by_ l = l.
Proof.
  induction 1 as [| x l Hx Hl IH]; [reflexivity |].
  cbn [replace_char]. apply Ascii.eqb_neq in Hx. rewrite Hx, IH. reflexivity.
Qed.

Lemma getMnemonic_chars (data : string) :
  Forall mnemonicChar (string_chars (getMnemonic data)).
Proof.
  unfold getMnemonic. rewrite string_chars_chars.
  apply replace_quote_chars, replace_space_chars.
  apply Forall_forall. intros c Hc. apply in_map_iff in Hc as (c0 & <- & _).
  apply to_upper_not_lower.
Qed.

(** A string literal is of ASCII only. *)
Ltac ascii_literal :=
  unfold isASCII; apply Forall_forall; intros ? Hc; cbn in Hc;
  repeat (destruct Hc as [<- | Hc]; [vm_compute; lia |]); destruct Hc.

Lemma to_upper_ascii (c : ascii) :
  nat_of_ascii c < 128 -> nat_of_ascii (textproto.to_upper c) < 128.
Proof.
  destruct c as [b0 b1 b2 b3 b4 b5 b6 []]; intros Hc.
  - exfalso. revert Hc. destruct b0, b1, b2, b3, b4, b5, b6; vm_compute; lia.
  - destruct b0, b1, b2, b3, b4, b5, b6; vm_compute; lia.
Qed.

Lemma replace_char_Forall (P : ascii -> Prop) (c : ascii) (by_ l : list ascii) :
  Forall P by_ -> Forall P l -> Forall P (replace_char c by_ l).
Proof.
  intros Hby. induction 1 as [| x l Hx Hl IH]; [constructor |].
  cbn [replace_char]. apply Forall_app. split; [| exact IH].
  destruct (Ascii.eqb x c); [exact Hby | constructor; [exact Hx | constructor]].
Qed.

Lemma getMnemonic_ascii (data : string) : isASCII data -> isASCII (getMnemonic data).
Proof.
  unfold isASCII, getMnemonic. intros Hdata. rewrite string_chars_chars.
  apply replace_char_Forall; [constructor |].
  apply replace_char_Forall; [constructor; [vm_compute; lia | constructor] |].
  apply Forall_forall. intros c Hc. apply in_map_iff in Hc as (c0 & <- & Hc0).
  apply to_upper_ascii. rewrite Forall_forall in Hdata. exact (Hdata c0 Hc0).
Qed.

(** X16: on a name of ASCII only, where the embedding is what the code
    does, the mnemonic is again of ASCII only, holds no space, no double
    quote and no lower-case letter, and deriving the mnemonic of a mnemonic
    changes nothing. *)
Theorem getMnemonic_normal_form (data : string) :
  isASCII data ->
  isASCII (getMnemonic data)
  /\ Forall (fun c => c <> " "%char /\ c <> "034"%char /\ textproto.is_lower c = false)
            (string_chars (getMnemonic data))
  /\ getMnemonic (getMnemonic data) = getMnemonic data.
Proof.
  intros Hascii. split; [exact (getMnemonic_ascii data Hascii) |].
  pose proof (getMnemonic_chars data) as Hchars. split; [exact Hchars |].
  unfold getMnemonic at 1. remember (string_chars (getMnemonic data)) as l eqn:Hl.
  assert (Hmap : map textproto.to_upper l = l).
  { clear Hl. induction Hchars as [| c l (_ & _ & Hlower) _ IH]; [reflexivity |].
    cbn. rewrite (to_upper_fixed c Hlower), IH. reflexivity. }
  rewrite Hmap.
  rewrite (replace_char_absent " "%char)
    by (eapply Forall_impl; [| exact Hchars]; intros c (H & _ & _); exact H).
  rewrite (replace_char_absent "034"%char)
    by (eapply Forall_impl; [| exact Hchars]; intros c (_ & H & _); exact H).
  subst l. unfold getMnemonic. rewrite string_chars_chars. reflexivity.
Qed.

Lemma getMnemonic_normal_form_witness :
  getMnemonic (claimTypeName "amount range") = "AMOUNT_RANGE_CLAIM_TYPE"%string
  /\ getMnemonic "AMOUNT_RANGE_CLAIM_TYPE" = "AMOUNT_RANGE_CLAIM_TYPE"%string.
Proof.
  destruct (getMnemonic_normal_form (claimTypeName "amount range")) as (_ & _ & Hfixed).
  - ascii_literal.
  - split; [reflexivity |]. exact Hfixed.
Defined.

Lemma fold_storeIsClaim_insert (mnemonic id name plain html : string)
    (l : list string) (relations : list RelationClaim.t) (m : gmap string Document.t) :
  fold_left (storeIsClaim mnemonic id) l
    (<[id := propertyDocument id name mnemonic plain html relations]> m)
  = <[id := propertyDocument id name mnemonic plain html
              (relations
               ++ map (fun isClaim => isRelation mnemonic (getMnemonic isClaim) isClaim) l)]> m.
Proof.
  revert relations. induction l as [| isClaim l IH]; intros relations.
  - cbn. rewrite app_nil_r. reflexivity.
  - cbn [fold_left map]. unfold storeIsClaim at 2. rewrite alter_insert_eq.
    change (appendRelation ?r (propertyDocument id name mnemonic plain html relations))
      with (propertyDocument id name mnemonic plain html (relations ++ [r])).
    rewrite IH, <- app_assoc. reflexivity.
Qed.

(** One iteration of the outer loop is the insert of the finished document
    of the property, followed by the inserts of the claim-type documents. *)
Lemma storeBuiltinProperty_inserts (m : gmap string Document.t) (p : BuiltinProperty.t) :
  storeBuiltinProperty m p
  = fold_left storeClaimType claimTypes
      (<[getPropertyID (getMnemonic (BuiltinProperty.Name p)) := builtinDocument p]> m).
Proof.
  unfold storeBuiltinProperty. cbv zeta. rewrite fold_storeIsClaim_insert. reflexivity.
Qed.

Lemma fold_storeClaimType_lookup (l : list string) (m : gmap string Document.t)
    (k : string) (d : Document.t) :
  fold_left storeClaimType l m !! k = Some d ->
  m !! k = Some d
  \/ exists claimType,
       claimType ∈ l
       /\ k = getPropertyID (getMnemonic (claimTypeName claimType))
       /\ d = claimTypeDocument claimType.
Proof.
  revert m. induction l as [| claimType l IH]; intros m Hlookup; [left; exact Hlookup |].
  cbn [fold_left] in Hlookup. apply IH in Hlookup as [Hlookup | (ct & Hin & Hk & Hd)].
  - unfold storeClaimType in Hlookup. cbv zeta in Hlookup.
    apply lookup_insert_Some in Hlookup as [[<- <-] | [_ Hlookup]].
    + right. exists claimType. split; [apply list_elem_of_here |]. split; reflexivity.
    + left. exact Hlookup.
  - right. exists ct. split; [apply list_elem_of_further; exact Hin | auto].
Qed.

Lemma fold_storeBuiltinProperty_lookup (l : list BuiltinProperty.t)
    (m : gmap string Document.t) (k : string) (d : Document.t) :
  fold_left storeBuiltinProperty l m !! k = Some d ->
  m !! k = Some d
  \/ (exists p, p ∈ l /\ k = getPropertyID (getMnemonic (BuiltinProperty.Name p))
                /\ d = builtinDocument p)
  \/ (exists claimType,
        claimType ∈ claimTypes
        /\ k = getPropertyID (getMnemonic (claimTypeName claimType))
        /\ d = claimTypeDocument claimType).
Proof.
  revert m. induction l as [| p l IH]; intros m Hlookup; [left; exact Hlookup |].
  cbn [fold_left] in Hlookup.
  apply IH in Hlookup as [Hlookup | [(p' & Hin & Hk & Hd) | Htype]].
  - rewrite storeBuiltinProperty_inserts in Hlookup.
    apply fold_storeClaimType_lookup in Hlookup as [Hlookup | Htype].
    + apply lookup_insert_Some in Hlookup as [[<- <-] | [_ Hlookup]].
      * right. left. exists p. split; [apply list_elem_of_here |]. split; reflexivity.
      * left. exact Hlookup.
    + right. right. exact Htype.
  - right. left. exists p'. split; [apply list_elem_of_further; exact Hin | auto].
  - right. right. exact Htype.
Qed.

Lemma bootstrapDocument_selfKeyed (id : string) (d : Document.t) :
  bootstrapDocument id d -> selfKeyed id d.
Proof.
  intros [(p & _ & -> & ->) | (claimType & _ & -> & ->)]; split; reflexivity.
Qed.

(** X17: whatever table the bootstrap runs over, every entry of the
    resulting table was either there before, or is the finished document of
    a built-in property or of a claim type, stored under the identifier its
    own mnemonic derives and carrying that identifier as its ID. *)
Theorem populateStandardProperties_entries (kp : gmap string Document.t)
    (id : string) (d : Document.t) :
  populateStandardProperties kp !! id = Some d ->
  kp !! id = Some d
  \/ (bootstrapDocument id d
      /\ CoreDocument.ID (Document.Core d) = id
      /\ id = getPropertyID (Document.Mnemonic_ d)).
Proof.
  intros Hlookup. unfold populateStandardProperties in Hlookup.
  apply fold_storeBuiltinProperty_lookup in Hlookup as [Hlookup | Hwritten];
    [left; exact Hlookup | right].
  assert (Hdoc : bootstrapDocument id d) by exact Hwritten.
  split; [exact Hdoc |]. exact (bootstrapDocument_selfKeyed id d Hdoc).
Qed.

Lemma populateStandardProperties_entries_witness :
  bootstrapDocument (getPropertyID "IS") (builtinDocument
    (BuiltinProperty.mk "is" "unspecified type relation between two entities"
       "unspecified type relation between two entities" [])).
Proof.
  destruct (populateStandardProperties_entries ∅ (getPropertyID "IS")
              (builtinDocument
                 (BuiltinProperty.mk "is" "unspecified type relation between two entities"
                    "unspecified type relation between two entities" [])))
    as [Hempty | [Hdoc _]].
  - apply (KnownProperties_registered "is").
    unfold registered. apply elem_of_app. left. apply list_elem_of_here.
  - rewrite lookup_empty in Hempty. discriminate.
  - exact Hdoc.
Defined.

(** X18: the bootstrap overwrites the entries under the registered
    identifiers and keeps every other entry of the table it runs over. *)
Theorem populateStandardProperties_overwrites (kp : gmap string Document.t) (k : string) :
  populateStandardProperties kp !! k
  = match KnownProperties !! k with
    | Some d => Some d
    | None => kp !! k
    end.
Proof.
  rewrite populateStandardProperties_over, lookup_union.
  destruct (KnownProperties !! k), (kp !! k); reflexivity.
Qed.

(** The documents of the start-up table are the bootstrap's own. *)
Lemma KnownProperties_bootstrapDocument (id : string) (d : Document.t) :
  KnownProperties !! id = Some d -> bootstrapDocument id d.
Proof.
  intros Hlookup. unfold KnownProperties, populateStandardProperties in Hlookup.
  apply fold_storeBuiltinProperty_lookup in Hlookup as [Hempty | Hwritten].
  - rewrite lookup_empty in Hempty. discriminate.
  - exact Hwritten.
Qed.

Lemma bootstrapDocument_registered (id : string) (d : Document.t) :
  bootstrapDocument id d -> exists name, (name, d) ∈ registered.
Proof.
  intros [(p & Hin & _ & ->) | (claimType & Hin & _ & ->)].
  - exists (BuiltinProperty.Name p). apply registered_builtin, Hin.
  - exists (claimTypeName claimType). apply registered_claimType, Hin.
Qed.

Lemma registered_resolves (name : string) :
  name ∈ registeredNames ->
  GetStandardPropertyReference KnownProperties (getMnemonic name)
  = Returned (standardReference (getMnemonic name) name).
Proof.
  intros Hname. destruct (registeredNames_registered name Hname) as [d Hd].
  destruct (registered_core name d Hd) as [Hcore _].
  unfold GetStandardPropertyReference.
  rewrite (KnownProperties_registered name d Hd), Hcore. reflexivity.
Qed.

(** The references of the registered documents name registered documents. *)
Lemma registered_references :
  Forall (fun e =>
            Forall (fun ref =>
                      Exists (fun name => ref = standardReference (getMnemonic name) name)
                             registeredNames)
                   (references (snd e))) registered.
Proof.
  unfold registered, builtinProperties, claimTypes. cbn [map app].
  repeat (apply Forall_cons; [| ]); try apply Forall_nil;
    cbn [snd references builtinDocument claimTypeDocument propertyDocument
         Document.Active DocumentClaimTypes.Simple SimpleClaimTypes.Text
         SimpleClaimTypes.Relation BuiltinProperty.Is BuiltinProperty.Name map
         flat_map app descriptionClaim isRelation TextClaim.Prop_
         RelationClaim.Prop_ RelationClaim.To];
    repeat (apply Forall_cons; [| ]); try apply Forall_nil;
    apply Exists_exists;
    first
      [ exists "is"%string; split; [vm_compute; tauto | reflexivity]
      | exists "property"%string; split; [vm_compute; tauto | reflexivity]
      | exists "description"%string; split; [vm_compute; tauto | reflexivity]
      | exists "claim type"%string; split; [vm_compute; tauto | reflexivity]
      | exists (claimTypeName "text"); split; [vm_compute; tauto | reflexivity]
      | exists (claimTypeName "identifier"); split; [vm_compute; tauto | reflexivity]
      | exists (claimTypeName "reference"); split; [vm_compute; tauto | reflexivity] ].
Qed.

(** X19: every reference made by a claim of a document of the start-up
    table, be it the property of the claim or the target of a relation,
    resolves: the table holds the referenced document, and
    [GetStandardPropertyReference] returns for its mnemonic exactly the
    reference the claim spells out. *)
Theorem bootstrap_references_resolve (id : string) (d : Document.t)
    (ref : DocumentReference.t) :
  KnownProperties !! id = Some d ->
  ref ∈ references d ->
  exists name,
    name ∈ registeredNames
    /\ GetStandardPropertyReference KnownProperties (getMnemonic name) = Returned ref
    /\ is_Some (KnownProperties !! DocumentReference.ID ref).
Proof.
  intros Hlookup Href.
  destruct (bootstrapDocument_registered id d (KnownProperties_bootstrapDocument id d Hlookup))
    as [name0 Hd].
  pose proof registered_references as Hall.
  rewrite Forall_forall in Hall. apply list_elem_of_In in Hd.
  specialize (Hall _ Hd). cbn [snd] in Hall.
  rewrite Forall_forall in Hall. apply list_elem_of_In in Href.
  specialize (Hall _ Href). apply Exists_exists in Hall as (name & Hname & ->).
  apply list_elem_of_In in Hname.
  exists name. split; [exact Hname |]. split; [exact (registered_resolves name Hname) |].
  destruct (registeredNames_registered name Hname) as [d' Hd'].
  cbn [standardReference DocumentReference.ID].
  exists d'. exact (KnownProperties_registered name d' Hd').
Qed.

Lemma bootstrap_references_resolve_witness :
  exists name,
    name ∈ registeredNames
    /\ GetStandardPropertyReference KnownProperties (getMnemonic name)
       = Returned (standardReference "TEXT_CLAIM_TYPE" (claimTypeName "text")).
Proof.
  destruct (bootstrap_references_resolve (getPropertyID "DESCRIPTION")
              (builtinDocument (BuiltinProperty.mk "description" "description" "description"
                                  [claimTypeName "text"]))
              (standardReference "TEXT_CLAIM_TYPE" (claimTypeName "text")))
    as (name & Hname & Hresolve & _).
  - apply (KnownProperties_registered "description").
    unfold registered. apply elem_of_app. left.
    do 4 apply list_elem_of_further. apply list_elem_of_here.
  - apply list_elem_of_In. vm_compute. tauto.
  - exists name. split; [exact Hname | exact Hresolve].
Defined.

Lemma registered_claimIDs :
  Forall (fun e => NoDup (claimIDs (snd e))) registered.
Proof. apply (bool_decide_unpack _). vm_compute. exact I. Qed.

(** X20: no document of the start-up table has two claims with the same
    identifier, across its text and relation claims. *)
Theorem bootstrap_claim_identifiers_distinct (id : string) (d : Document.t) :
  KnownProperties !! id = Some d -> NoDup (claimIDs d).
Proof.
  intros Hlookup.
  destruct (bootstrapDocument_registered id d (KnownProperties_bootstrapDocument id d Hlookup))
    as [name Hd].
  pose proof registered_claimIDs as Hall. rewrite Forall_forall in Hall.
  apply list_elem_of_In in Hd. exact (Hall _ Hd).
Qed.

Lemma bootstrap_claim_identifiers_distinct_witness :
  NoDup (claimIDs (claimTypeDocument "text")).
Proof.
  apply (bootstrap_claim_identifiers_distinct
           (getPropertyID (getMnemonic (claimTypeName "text")))).
  apply (KnownProperties_registered (claimTypeName "text")).
  apply registered_claimType. apply (bool_decide_unpack _). vm_compute. exact I.
Defined.

(** ** More on the certificate manager *)

Module MoreCertificateFacts.
Import CertificateManager CertificateFacts.

(** X21: [Start] returns the error of the first load and leaves the manager
    without a certificate when the key pair does not load; when it loads,
    [Start] returns no error, the lock is free again, and [GetCertificate]
    returns the loaded certificate. *)
Theorem Start_outcome (c : t) (load : string -> string -> Certificate + error) :
  mu c = Unlocked ->
  match load (CertFile c) (KeyFile c) with
  | inr err =>
      Start load c = Some (c, Some err)
      /\ GetCertificate c = Some (c, certificate c)
  | inl cert =>
      exists c',
        Start load c = Some (c', None)
        /\ mu c' = Unlocked
        /\ GetCertificate c' = Some (c', Some cert)
  end.
Proof.
  intros Hmu. unfold Start.
  destruct (load (CertFile c) (KeyFile c)) as [cert | err] eqn:Hload.
  - rewrite (reload_loaded load c cert Hmu Hload). eexists. split; [reflexivity |].
    split; [reflexivity |]. apply GetCertificate_unlocked. reflexivity.
  - rewrite (reload_failed load c err Hload). split; [reflexivity |].
    apply GetCertificate_unlocked, Hmu.
Qed.

Lemma Start_outcome_witness :
  Start Stub.unreadableFiles Stub.manager
  = Some (Stub.manager, Some (OtherError "open key.pem: no such file or directory"))
  /\ GetCertificate Stub.manager = Some (Stub.manager, None).
Proof. exact (Start_outcome Stub.manager Stub.unreadableFiles eq_refl). Defined.

Lemma ticks_log (loads : list (string -> string -> Certificate + error))
    (c : t) (log : list error) :
  mu c = Unlocked ->
  snd (fold_left tick loads (c, log)) = log ++ failures c loads.
Proof.
  revert c log. induction loads as [| load loads IH]; intros c log Hmu.
  - cbn. rewrite app_nil_r. reflexivity.
  - cbn [fold_left]. unfold failures. cbn [flat_map]. fold (failures c loads).
    unfold tick at 2. cbn [fst snd].
    destruct (load (CertFile c) (KeyFile c)) as [cert | err] eqn:Hload.
    + rewrite (reload_loaded load c cert Hmu Hload).
      rewrite (IH (mk (CertFile c) (KeyFile c) (Some cert) Unlocked) log eq_refl).
      reflexivity.
    + rewrite (reload_failed load c err Hload).
      rewrite (IH c (log ++ [err]) Hmu), <- app_assoc. reflexivity.
Qed.

(** X22: over any number of reload cycles the manager logs exactly the
    errors of the loads that failed, once each and in order; a load that
    succeeds logs nothing. *)
Theorem ticks_log_failures (c : t) (loads : list (string -> string -> Certificate + error)) :
  mu c = Unlocked ->
  snd (ticks c loads) = failures c loads.
Proof. intros Hmu. unfold ticks. rewrite (ticks_log loads c [] Hmu). reflexivity. Qed.

Lemma ticks_log_failures_witness :
  snd (ticks Stub.manager [Stub.readableFiles; Stub.unreadableFiles; Stub.readableFiles])
  = [OtherError "open key.pem: no such file or directory"].
Proof.
  exact (ticks_log_failures Stub.manager
           [Stub.readableFiles; Stub.unreadableFiles; Stub.readableFiles] eq_refl).
Defined.

End MoreCertificateFacts.

(** ** The logging set-up *)

Module LoggingFacts.
Import cli.

(** X23: through a filtered writer the wrapped writer receives exactly the
    events at or above the writer's level, in order; an event below the
    level is reported as written in full, without error, though nothing was
    written. *)
Theorem filteredWriter_filters (w : filteredWriter) (events : list (Z * bytes)) :
  snd (writeEvents w events)
  = map (fun e => (Some (fst e), snd e))
        (List.filter (fun e => (Level w <=? fst e)%Z) events)
  /\ fst (writeEvents w events)
     = map (fun e => if (Level w <=? fst e)%Z then Writer w (snd e)
                     else (length (snd e), None)) events.
Proof.
  unfold writeEvents.
  assert (H : forall results sink,
             fold_left (fun st e =>
                          let r := WriteLevel w (snd st) (fst e) (snd e) in
                          (fst st ++ [fst r], snd r)) events (results, sink)
             = (results ++ map (fun e => if (Level w <=? fst e)%Z then Writer w (snd e)
                                          else (length (snd e), None)) events,
                sink ++ map (fun e => (Some (fst e), snd e))
                            (List.filter (fun e => (Level w <=? fst e)%Z) events))).
  { induction events as [| [level p] events IH]; intros results sink.
    - cbn. rewrite !app_nil_r. reflexivity.
    - cbn [fold_left]. rewrite IH. unfold WriteLevel.
      cbn [fst snd List.filter map].
      destruct (Level w <=? level)%Z; cbn [fst snd map];
        rewrite <- !app_assoc; reflexivity. }
  rewrite H. split; reflexivity.
Qed.

Lemma loggingSetup_console (openFile : string -> option error) (cfg : LoggingConfig) :
  ConsoleType cfg ∈ ["color"; "nocolor"; "json"]%string ->
  (ConsoleLevel cfg < Disabled)%Z ->
  FilePath cfg <> ""%string ->
  openFile (FilePath cfg) = None ->
  exists console,
    (forall path, console <> File path)
    /\ loggingSetup openFile cfg
       = inl (ConsoleLevel cfg,
              [(console, ConsoleLevel cfg); (File (FilePath cfg), FileLevel cfg)]).
Proof.
  intros Htype Hlevel Hpath Hopen. unfold loggingSetup.
  apply String.eqb_neq in Hpath. apply Z.ltb_lt in Hlevel.
  assert (Hstay : (ConsoleLevel cfg <? ConsoleLevel cfg)%Z = false) by apply Z.ltb_irrefl.
  apply list_elem_of_In in Htype. cbn in Htype.
  destruct Htype as [<- | [<- | [<- | []]]];
    match goal with
    | |- context [String.eqb ?a "color"] =>
        let b := eval vm_compute in (String.eqb a "color") in
        change (String.eqb a "color") with b
    end;
    match goal with
    | |- context [String.eqb ?a "nocolor"] =>
        let b := eval vm_compute in (String.eqb a "nocolor") in
        change (String.eqb a "nocolor") with b
    end;
    try match goal with
    | |- context [String.eqb ?a "json"] =>
        let b := eval vm_compute in (String.eqb a "json") in
        change (String.eqb a "json") with b
    end;
    cbv beta iota zeta delta [orb app]; rewrite Hlevel, Hpath; cbn [negb];
    rewrite Hopen, Hstay; eexists; (split; [| reflexivity]); discriminate.
Qed.

(** X24: with the console enabled and a log file that opens, the logger's
    level is the console's level, whatever level the file asks for: an
    event reaches the file exactly when it is at or above both levels, so a
    file level below the console's has no effect. *)
Theorem loggingSetup_file_follows_console (openFile : string -> option error)
    (cfg : LoggingConfig) (eventLevel : Z) :
  ConsoleType cfg ∈ ["color"; "nocolor"; "json"]%string ->
  (ConsoleLevel cfg < Disabled)%Z ->
  FilePath cfg <> ""%string ->
  openFile (FilePath cfg) = None ->
  exists setup,
    loggingSetup openFile cfg = inl setup
    /\ fst setup = ConsoleLevel cfg
    /\ (File (FilePath cfg) ∈ reached setup eventLevel
        <-> (ConsoleLevel cfg <= eventLevel)%Z /\ (FileLevel cfg <= eventLevel)%Z).
Proof.
  intros Htype Hlevel Hpath Hopen.
  destruct (loggingSetup_console openFile cfg Htype Hlevel Hpath Hopen)
    as (console & Hconsole & ->).
  eexists. split; [reflexivity |]. split; [reflexivity |].
  unfold reached. cbn [fst snd List.filter].
  destruct (Z.leb_spec (ConsoleLevel cfg) eventLevel) as [Hc | Hc];
    destruct (Z.leb_spec (FileLevel cfg) eventLevel) as [Hf | Hf]; cbn [map fst].
  - split; [intros _; split; assumption |].
    intros _. apply list_elem_of_further, list_elem_of_here.
  - split; [| intros [_ H]; lia]. intros Hin.
    apply list_elem_of_singleton in Hin. symmetry in Hin.
    exfalso. exact (Hconsole _ Hin).
  - split; [| intros [H _]; lia]. intros Hin. apply elem_of_nil in Hin. contradiction.
  - split; [| intros [H _]; lia]. intros Hin. apply elem_of_nil in Hin. contradiction.
Qed.

Lemma loggingSetup_file_follows_console_witness :
  exists setup,
    loggingSetup (fun _ => None) (mkConfig "color" InfoLevel "/var/log/search.log" DebugLevel)
    = inl setup
    /\ fst setup = InfoLevel
    /\ ~ File "/var/log/search.log" ∈ reached setup DebugLevel.
Proof.
  destruct (loggingSetup_file_follows_console (fun _ => None)
              (mkConfig "color" InfoLevel "/var/log/search.log" DebugLevel) DebugLevel)
    as (setup & Hsetup & Hlevel & Hfile).
  - apply list_elem_of_here.
  - reflexivity.
  - discriminate.
  - reflexivity.
  - exists setup. split; [exact Hsetup |]. split; [exact Hlevel |].
    intros Hin. apply Hfile in Hin as [Hinfo _].
    cbn in Hinfo. unfold InfoLevel, DebugLevel in Hinfo. lia.
Defined.

(** X25: with the console disabled, the logger's level is the file's level
    and the file is the only writer. *)
Theorem loggingSetup_file_only (openFile : string -> option error) (cfg : LoggingConfig) :
  ConsoleType cfg ∉ ["color"; "nocolor"; "json"]%string ->
  (ConsoleLevel cfg < Disabled)%Z ->
  FilePath cfg <> ""%string ->
  loggingSetup openFile cfg
  = match openFile (FilePath cfg) with
    | Some _ => inr 1%Z
    | None => inl (FileLevel cfg, [(File (FilePath cfg), FileLevel cfg)])
    end.
Proof.
  intros Htype Hlevel Hpath. unfold loggingSetup.
  apply String.eqb_neq in Hpath. apply Z.ltb_lt in Hlevel.
  destruct (String.eqb_spec (ConsoleType cfg) "color") as [Heq | _].
  { exfalso. apply Htype. rewrite Heq. apply list_elem_of_here. }
  destruct (String.eqb_spec (ConsoleType cfg) "nocolor") as [Heq | _].
  { exfalso. apply Htype. rewrite Heq. apply list_elem_of_further, list_elem_of_here. }
  destruct (String.eqb_spec (ConsoleType cfg) "json") as [Heq | _].
  { exfalso. apply Htype. rewrite Heq. do 2 apply list_elem_of_further. apply list_elem_of_here. }
  cbn [orb]. rewrite Hpath. cbn [negb].
  destruct (openFile (FilePath cfg)); [reflexivity |]. rewrite Hlevel. reflexivity.
Qed.

Lemma loggingSetup_file_only_witness :
  loggingSetup (fun _ => None) (mkConfig "disable" InfoLevel "/var/log/search.log" DebugLevel)
  = inl (DebugLevel, [(File "/var/log/search.log", DebugLevel)]).
Proof.
  apply (loggingSetup_file_only (fun _ => None)
           (mkConfig "disable" InfoLevel "/var/log/search.log" DebugLevel)).
  - apply (bool_decide_unpack _). vm_compute. exact I.
  - reflexivity.
  - discriminate.
Defined.

Lemma length_string_chars (s : string) : String.length s = length (string_chars s).
Proof. induction s as [| c s IH]; [reflexivity |]. cbn. rewrite IH. reflexivity. Qed.

(** X26: with colours off, [formatLevel] turns every string and [nil] into
    a tag of exactly three characters, [???] for a string that is no level
    name; a value that is not a string and whose rendering is of ASCII only
    is cut to the first three characters of the upper-cased rendering, and
    the formatter panics when that rendering has fewer than three. *)
Theorem formatLevel_tag (i : field) :
  match i with
  | StringField _ | NilField =>
      exists tag, formatLevel true i = Returned tag /\ String.length tag = 3
  | OtherField rendered =>
      isASCII rendered ->
      (String.length rendered < 3 ->
       forall noColor, formatLevel noColor i = Panicked "slice bounds out of range")
      /\ (3 <= String.length rendered ->
          forall noColor,
            exists tag,
              formatLevel noColor i = Returned tag
              /\ String.length tag = 3
              /\ tag = upper (String.substring 0 3 rendered))
  end.
Proof.
  destruct i as [ll | | rendered].
  - cbn [formatLevel]. unfold colorize.
    destruct (String.eqb ll "trace"); [eexists; split; reflexivity |].
    destruct (String.eqb ll "debug"); [eexists; split; reflexivity |].
    destruct (String.eqb ll "info"); [eexists; split; reflexivity |].
    destruct (String.eqb ll "warn"); [eexists; split; reflexivity |].
    destruct (String.eqb ll "error"); [eexists; split; reflexivity |].
    destruct (String.eqb ll "fatal"); [eexists; split; reflexivity |].
    destruct (String.eqb ll "panic"); eexists; split; reflexivity.
  - eexists. split; reflexivity.
  - intros _. cbn [formatLevel]. unfold firstThree, upper. rewrite string_chars_chars.
    destruct rendered as [| a [| b [| c rest]]]; cbn [string_chars map String.length].
    + split; [reflexivity | lia].
    + split; [reflexivity | lia].
    + split; [reflexivity | lia].
    + split; [lia |]. intros _ noColor. eexists. split; [reflexivity |].
      split; [reflexivity |]. destruct rest; reflexivity.
Qed.

End LoggingFacts.

(** ** Routing *)

(** X27: [serveStaticFiles] registers a GET and a HEAD route for every path
    of the identity table except [/index.html], and no other route. *)
Theorem serveStaticFiles_routes (s : Service) (method path : string) :
  (method, path) ∈ serveStaticFiles s
  <-> (method = "GET"%string \/ method = "HEAD"%string)
      /\ path <> "/index.html"%string
      /\ is_Some (default ∅ (compressedFiles s !! compressionIdentity) !! path).
Proof.
  unfold serveStaticFiles.
  set (files := default ∅ (compressedFiles s !! compressionIdentity)).
  rewrite list_elem_of_In, in_flat_map. split.
  - intros (p & Hp & Hin).
    destruct (String.eqb_spec p "/index.html") as [-> | Hne]; [destruct Hin |].
    assert (Hpath : p = path /\ (method = "GET"%string \/ method = "HEAD"%string)).
    { destruct Hin as [Heq | [Heq | []]]; injection Heq as <- <-; auto. }
    destruct Hpath as [<- Hmethod]. split; [exact Hmethod |]. split; [exact Hne |].
    apply in_map_iff in Hp as ([p' data] & Heq & Hin'). cbn in Heq. subst p'.
    apply list_elem_of_In, elem_of_map_to_list in Hin'. eauto.
  - intros (Hmethod & Hne & [data Hdata]). exists path. split.
    + apply in_map_iff. exists (path, data). split; [reflexivity |].
      apply list_elem_of_In, elem_of_map_to_list. exact Hdata.
    + apply String.eqb_neq in Hne. rewrite Hne.
      destruct Hmethod as [-> | ->]; cbn; auto.
Qed.

(** X28: [contentTypeMux.Handle] on a mux without handlers panics before
    it writes anything; on any other mux, when the negotiation answers one
    of the offers, it adds [Accept] to Vary and runs the handler of that
    content type, which is one that was set. *)
Theorem Handle_dispatch (negotiate : list string -> string -> string)
    (m : contentTypeMux.t) (h : http.Header) (req : Request) :
  (contentTypeMux.IsEmpty m = true ->
   contentTypeMux.Handle negotiate m h req
   = Panicked "index out of range [0] with length 0")
  /\ (contentTypeMux.IsEmpty m = false ->
      negotiate (contentTypeMux.offers m) (hd ""%string (contentTypeMux.offers m))
        ∈ contentTypeMux.offers m ->
      exists handler,
        (if String.eqb
              (negotiate (contentTypeMux.offers m)
                         (hd ""%string (contentTypeMux.offers m))) "text/html"
         then contentTypeMux.HTML m else contentTypeMux.JSON m) = Some handler
        /\ contentTypeMux.Handle negotiate m h req
           = Returned (handler (http.Add h "Vary" "Accept") req)).
Proof.
  unfold contentTypeMux.IsEmpty, contentTypeMux.Handle, contentTypeMux.offers.
  destruct (contentTypeMux.HTML m) as [html |], (contentTypeMux.JSON m) as [json |];
    cbn [app hd]; split; intros Hempty; try discriminate Hempty; try reflexivity;
    intros Hin.
  - set (t := negotiate _ _) in *.
    apply elem_of_cons in Hin as [-> | Hin]; [eexists; split; reflexivity |].
    apply list_elem_of_singleton in Hin as ->. eexists; split; reflexivity.
  - set (t := negotiate _ _) in *.
    apply list_elem_of_singleton in Hin as ->. eexists; split; reflexivity.
  - set (t := negotiate _ _) in *.
    apply list_elem_of_singleton in Hin as ->. eexists; split; reflexivity.
Qed.

Lemma Handle_dispatch_witness :
  contentTypeMux.Handle (fun _ first => first)
    (contentTypeMux.mk None (Some (DocumentGetGetJSON (Stub.service Stub.plainBackend))))
    ∅ (Stub.request "not-an-id" [])
  = Returned (DocumentGetGetJSON (Stub.service Stub.plainBackend)
                (http.Add ∅ "Vary" "Accept") (Stub.request "not-an-id" []))
  /\ contentTypeMux.Handle (fun _ first => first) (contentTypeMux.mk None None)
       ∅ (Stub.request "not-an-id" [])
     = Panicked "index out of range [0] with length 0".
Proof.
  split.
  - destruct (proj2 (Handle_dispatch (fun _ first => first)
                       (contentTypeMux.mk None
                          (Some (DocumentGetGetJSON (Stub.service Stub.plainBackend))))
                       ∅ (Stub.request "not-an-id" [])) eq_refl)
      as (handler & Hhandler & Hrun).
    + apply list_elem_of_here.
    + cbn in Hhandler. injection Hhandler as <-. exact Hrun.
  - apply (proj1 (Handle_dispatch (fun _ first => first) (contentTypeMux.mk None None)
                    ∅ (Stub.request "not-an-id" []))).
    reflexivity.
Defined.

(** ** The shape of the ETags *)

Lemma round_length (st : list Z) (kw : Z * Z) :
  length (SHA256.round st kw) = length st.
Proof.
  unfold SHA256.round.
  destruct st as [| a [| b [| c [| d [| e [| f [| g [| i [| j t]]]]]]]]]; reflexivity.
Qed.

Lemma fold_round_length (l : list (Z * Z)) (st : list Z) :
  length (fold_left SHA256.round l st) = length st.
Proof.
  revert st. induction l as [| kw l IH]; intros st; [reflexivity |].
  cbn [fold_left]. rewrite IH. apply round_length.
Qed.

Lemma compress_length (H blk : list Z) : length (SHA256.compress H blk) = length H.
Proof.
  unfold SHA256.compress. cbv zeta.
  rewrite length_map, length_combine, fold_round_length. apply Nat.min_id.
Qed.

Lemma fold_compress_length (l : list (list Z)) (H : list Z) :
  length (fold_left SHA256.compress l H) = length H.
Proof.
  revert H. induction l as [| blk l IH]; intros H; [reflexivity |].
  cbn [fold_left]. rewrite IH. apply compress_length.
Qed.

Lemma flat_map_to_bytes_length (l : list Z) :
  length (flat_map Word32.to_bytes l) = 4 * length l.
Proof.
  induction l as [| w l IH]; [reflexivity |].
  cbn [flat_map]. rewrite length_app, IH. cbn [Word32.to_bytes length]. lia.
Qed.

(** A SHA-256 digest has 32 bytes. *)
Lemma Sum256_length (msg : bytes) : length (SHA256.Sum256 msg) = 32.
Proof.
  unfold SHA256.Sum256. rewrite flat_map_to_bytes_length, fold_compress_length.
  reflexivity.
Qed.

Lemma list_ind3 {A} (P : list A -> Prop) :
  P [] -> (forall x, P [x]) -> (forall x y, P [x; y]) ->
  (forall x y z l, P l -> P (x :: y :: z :: l)) ->
  forall l, P l.
Proof.
  intros H0 H1 H2 H3 l.
  assert (H : P l /\ (forall x, P (x :: l)) /\ (forall x y, P (x :: y :: l))).
  { induction l as [| a l (IH0 & IH1 & IH2)]; [auto |].
    split; [apply IH1 |]. split; [intros x; apply IH2 |]. intros x y. apply H3, IH0. }
  exact (proj1 H).
Qed.

Lemma encode_length (b : bytes) :
  length (Base64.encode b) = (4 * length b + 2) / 3.
Proof.
  induction b as [| x | x y | x y z l IH] using list_ind3; try reflexivity.
  cbn [Base64.encode length]. rewrite IH.
  replace (4 * S (S (S (length l))) + 2) with (4 * length l + 2 + 4 * 3) by lia.
  rewrite Nat.div_add by lia. lia.
Qed.

Lemma digit_alphabet (n : Z) : Base64.digit n ∈ Base64.alphabet.
Proof.
  unfold Base64.digit. apply list_elem_of_In.
  destruct (nth_in_or_default (Z.to_nat n) Base64.alphabet "A"%char) as [Hin | ->];
    [exact Hin |].
  cbn. auto.
Qed.

Lemma encode_alphabet (b : bytes) : Forall (fun c => c ∈ Base64.alphabet) (Base64.encode b).
Proof.
  induction b as [| x | x y | x y z l IH] using list_ind3; cbn [Base64.encode];
    repeat (apply Forall_cons; [apply digit_alphabet |]); try apply Forall_nil.
  exact IH.
Qed.

Lemma etagOf_shape (content : bytes) :
  exists body,
    etagOf (SHA256.Sum256 content) = quoted (chars_string body)
    /\ length body = 43
    /\ Forall (fun c => c ∈ Base64.alphabet) body.
Proof.
  exists (Base64.encode (SHA256.Sum256 content)). split; [reflexivity |]. split.
  - rewrite encode_length, Sum256_length. reflexivity.
  - apply encode_alphabet.
Qed.

(** X29: the ETag of every document [DocumentGetGetJSON] serves and of
    every response [writeJSON] serves is a double-quoted string of exactly
    43 characters of the URL-safe base64 alphabet: letters, digits, [-] and
    [_], so no quote, padding or character that would need escaping. *)
Theorem served_etag_shape (s : Service) (h : http.Header) :
  (forall req content,
     written (response (DocumentGetGetJSON s h req)) = ServedContent content ->
     exists body,
       Header (response (DocumentGetGetJSON s h req)) !! "Etag"
       = Some [quoted (chars_string body)]
       /\ length body = 43
       /\ Forall (fun c => c ∈ Base64.alphabet) body)
  /\ (forall contentEncoding data metadata content,
        written (writeJSON s h contentEncoding data metadata) = ServedContent content ->
        exists body,
          Header (writeJSON s h contentEncoding data metadata) !! "Etag"
          = Some [quoted (chars_string body)]
          /\ length body = 43
          /\ Forall (fun c => c ∈ Base64.alphabet) body).
Proof.
  split.
  - intros req content Hserved.
    destruct (DocumentGetGetJSON_served s h req content Hserved)
      as (_ & _ & _ & _ & _ & _ & ->).
    destruct (etagOf_shape content) as (body & -> & Hlength & Halphabet). eauto.
  - intros contentEncoding data metadata content Hserved.
    rewrite (writeJSON_served s h contentEncoding data metadata content Hserved).
    destruct (etagOf_shape (content ++ metadataBytes metadata))
      as (body & -> & Hlength & Halphabet). eauto.
Qed.

Lemma served_etag_shape_witness :
  exists body,
    Header (response (DocumentGetGetJSON (Stub.service Stub.plainBackend) ∅
                        (Stub.request Stub.validID []))) !! "Etag"
    = Some [quoted (chars_string body)]
    /\ length body = 43.
Proof.
  destruct (proj1 (served_etag_shape (Stub.service Stub.plainBackend) ∅)
              (Stub.request Stub.validID []) Stub.document) as (body & Hetag & Hlength & _).
  - vm_compute. reflexivity.
  - exists body. split; [exact Hetag | exact Hlength].
Defined.

Lemma formatLevel_tag_witness :
  cli.formatLevel false (cli.OtherField "ab") = Panicked "slice bounds out of range"
  /\ exists tag,
       cli.formatLevel false (cli.OtherField "warning") = Returned tag
       /\ String.length tag = 3
       /\ tag = cli.upper (String.substring 0 3 "warning").
Proof.
  split.
  - apply (proj1 (LoggingFacts.formatLevel_tag (cli.OtherField "ab")
                    ltac:(ascii_literal))). cbn. lia.
  - apply (proj2 (LoggingFacts.formatLevel_tag (cli.OtherField "warning")
                    ltac:(ascii_literal))). cbn. lia.
Defined.

Lemma serveStaticFiles_routes_witness :
  ("HEAD", "/app.js")%string ∈ serveStaticFiles StubFiles.service
  /\ ~ ("GET", "/index.html")%string ∈ serveStaticFiles StubFiles.service.
Proof.
  split.
  - apply (proj2 (serveStaticFiles_routes StubFiles.service "HEAD" "/app.js")).
    split; [right; reflexivity |]. split; [discriminate |].
    exists StubFiles.appPlain. reflexivity.
  - intros Hin.
    apply (proj1 (serveStaticFiles_routes StubFiles.service "GET" "/index.html")) in Hin
      as (_ & Hne & _).
    apply Hne. reflexivity.
Defined.
